(** * Windowed feature extraction for construction-site risk detection

    A shallow embedding of the package [feature_extraction2]: the sliding
    window generator, the per-window extractors, the two inter-window
    extractors and the orchestrating pipeline; of the centroid tracker of
    [inference]; and of the rule engine of [risk_prediction].

    Conventions of the embedding.
    - A pandas frame of detections is the list of its records, in frame
      order; a boolean mask is [filter].
    - A Python [dict] is an insertion-ordered association list ([row]);
      dictionaries that are only summed over or looked up are [gmap]s.
    - Python floats are exact rationals ([Q]): the model does not round,
      and a rational divided by zero is 0. Where a statement depends on
      a computed value, its hypotheses keep the computation on doubles
      exact or finite and its denominators away from zero (integer
      counts below 2^53, samples of moderate size). The overflow of
      [np.std] that makes [int(round(...))] raise is a parameter of the
      transition extractor, the projected coordinates of the zone
      extractor carry an explicit NaN, and [Double] replays single
      lines on binary64 floats.
    - [np.sqrt] has no rational counterpart: it is a parameter [sqrtf] of
      the functions that need it ([np.std], [np.hypot]).
    - Timestamps, [datetime] and [timedelta] values are integers, in
      units of the resolution of the clock.
    - A Python exception is the left injection of [result]. *)

From Stdlib Require Import ZArith QArith Qabs Qround Qminmax List String Bool Lia Lqa.
From Stdlib Require Floats.
From stdpp Require Import gmap strings.

Local Open Scope string_scope.
Local Open Scope list_scope.
Local Open Scope Z_scope.

(** ** Python values, dictionaries and exceptions *)

Inductive exn : Type :=
| TypeError
| AttributeError
| OverflowError.

Definition result (A : Type) : Type := (exn + A)%type.

Definition ok {A : Type} (a : A) : result A := inr a.
Definition raise {A : Type} (e : exn) : result A := inl e.

Definition rbind {A B : Type} (m : result A) (k : A -> result B) : result B :=
  match m with
  | inl e => inl e
  | inr a => k a
  end.

Notation "'try' x <- m 'in' k" := (rbind m (fun x => k))
  (at level 10, x name, m at level 100, k at level 200).

(** The values a feature row holds: numbers (Python [int] and [float]
    alike), [None], and timestamps. *)
Inductive value : Type :=
| VNum (q : Q)
| VNone
| VTime (t : Z).

Definition row : Type := list (string * value).

Fixpoint dict_get (d : row) (k : string) : option value :=
  match d with
  | [] => None
  | (k', v) :: d' => if String.eqb k' k then Some v else dict_get d' k
  end.

(** [d.get(k, default)] *)
Definition dict_get_default (d : row) (k : string) (default : value) : value :=
  match dict_get d k with
  | Some v => v
  | None => default
  end.

(** [d[k] = v]: an existing key keeps its position. *)
Fixpoint dict_set (d : row) (k : string) (v : value) : row :=
  match d with
  | [] => [(k, v)]
  | (k', v') :: d' =>
      if String.eqb k' k then (k', v) :: d' else (k', v') :: dict_set d' k v
  end.

(** [d.update(e)] *)
Definition dict_update (d e : row) : row :=
  fold_left (fun acc kv => dict_set acc (fst kv) (snd kv)) e d.

Definition dict_keys (d : row) : list string := map fst d.

(** ** Detections *)

Record Detection : Type := mkDetection {
  camera_id : Z;
  timestamp : Z;
  object_class : string;
  confidence : Q;
  bbox_x : Q;
  bbox_y : Q;
  bbox_w : Q;
  bbox_h : Q;
  track_id : Z
}.

(** A frame of detections ([pd.DataFrame]); [df.empty] is [is_empty]. *)
Definition Frame : Type := list Detection.

Definition is_empty {A : Type} (l : list A) : bool :=
  match l with
  | [] => true
  | _ :: _ => false
  end.

Definition class_is (c : string) (d : Detection) : bool :=
  String.eqb (object_class d) c.

(** [df[df["object_class"] == "person"]] *)
Definition persons_of (df : Frame) : Frame := List.filter (class_is "person") df.

(** [df[df["object_class"].isin(["vehicle", "machinery"])]] *)
Definition machines_of (df : Frame) : Frame :=
  List.filter (fun d => class_is "vehicle" d || class_is "machinery" d) df.

(** ** sliding_window.py *)

Module SlidingWindow.

(** The object: the detection repository (an external collaborator,
    reduced to its one method) and the two [timedelta]s built from
    [window_duration] and [step]. *)
Record t : Type := mk {
  get_detections : list Z -> Z -> Z -> Frame;
  window_delta : Z;
  step_delta : Z
}.

(** The mask of one window. *)
Definition in_window (current_start current_end : Z) (d : Detection) : bool :=
  (current_start <=? timestamp d) && (timestamp d <? current_end).

(** The [while] loop of [generate]; [None] when the fuel runs out
    before the loop condition fails. *)
Fixpoint generate_loop (fuel : nat) (sw : t) (df_all : Frame)
    (current_start end_time : Z) : option (list Frame) :=
  if current_start + window_delta sw <=? end_time then
    match fuel with
    | O => None
    | S fuel' =>
        let current_end := current_start + window_delta sw in
        match generate_loop fuel' sw df_all
                (current_start + step_delta sw) end_time with
        | Some ws => Some (List.filter (in_window current_start current_end) df_all :: ws)
        | None => None
        end
    end
  else Some [].

(** [generate]: the windows it yields, in order. *)
Definition generate (fuel : nat) (sw : t) (camera_ids : list Z)
    (start_time end_time : Z) : option (list Frame) :=
  let df_all := get_detections sw camera_ids start_time end_time in
  if is_empty df_all then Some []
  else generate_loop fuel sw df_all start_time end_time.

(** Number of iterations of the loop started at [current_start]. *)
Definition window_count (sw : t) (current_start end_time : Z) : nat :=
  if current_start + window_delta sw <=? end_time then
    Z.to_nat ((end_time - current_start - window_delta sw) / step_delta sw + 1)
  else O.

(** The [k]-th window of a run started at [start_time]. *)
Definition kth_window (sw : t) (df_all : Frame) (start_time : Z) (k : nat) : Frame :=
  List.filter (in_window (start_time + Z.of_nat k * step_delta sw)
                    (start_time + Z.of_nat k * step_delta sw + window_delta sw))
         df_all.

(** A run over three detections: windows of 4 time units every 3. *)
Definition demo_detection (ts : Z) : Detection :=
  mkDetection 1 ts "person" 1 0 0 1 1 7.

Definition demo_window : t :=
  mk
    (fun _ _ _ => [demo_detection 0; demo_detection 4; demo_detection 9]) 4 3.

End SlidingWindow.

(** ** epi_features.py *)

Module EPIFeatures.

Inductive epi_name : Type := helmet | vest | mask.

(** [YOLO_TO_EPI] *)
Definition YOLO_TO_EPI (cls : string) : option (epi_name * bool) :=
  if String.eqb cls "hardhat" then Some (helmet, true)
  else if String.eqb cls "no_hardhat" then Some (helmet, false)
  else if String.eqb cls "safety_vest" then Some (vest, true)
  else if String.eqb cls "no_safety_vest" then Some (vest, false)
  else if String.eqb cls "mask" then Some (mask, true)
  else if String.eqb cls "no_mask" then Some (mask, false)
  else None.

(** The object: two configured fields and the counter it mutates. *)
Record t : Type := mk {
  window_duration : Q;
  persistent_threshold : Z;
  consecutive_violation_count : Z
}.

(** [__init__] *)
Definition init (window_duration : Q) (persistent_threshold : Z) : t :=
  mk window_duration persistent_threshold 0.

(** The inner dictionary [{"helmet": .., "vest": .., "mask": ..}]. *)
Record epi_state : Type := mk_state {
  st_helmet : option bool;
  st_vest : option bool;
  st_mask : option bool
}.

Definition unobserved : epi_state := mk_state None None None.

Definition set_epi (n : epi_name) (v : bool) (s : epi_state) : epi_state :=
  match n with
  | helmet => mk_state (Some v) (st_vest s) (st_mask s)
  | vest => mk_state (st_helmet s) (Some v) (st_mask s)
  | mask => mk_state (st_helmet s) (st_vest s) (Some v)
  end.

(** The body of the inner loop, for person [p] and equipment row [e]. *)
Definition associate_one (p : Detection) (result : gmap Z epi_state)
    (e : Detection) : gmap Z epi_state :=
  if negb (timestamp e =? timestamp p) then result
  else
    let cx := (bbox_x e + bbox_w e / 2)%Q in
    let cy := (bbox_y e + bbox_h e / 2)%Q in
    let inside :=
      Qle_bool (bbox_x p) cx && Qle_bool cx (bbox_x p + bbox_w p)
      && Qle_bool (bbox_y p) cy && Qle_bool cy (bbox_y p + bbox_h p) in
    if negb inside then result
    else
      match YOLO_TO_EPI (object_class e) with
      | None => result
      | Some (name, v) => alter (set_epi name v) (track_id p) result
      end.

(** [_associate_epi_to_persons] *)
Definition _associate_epi_to_persons (df persons : Frame) : gmap Z epi_state :=
  let epis :=
    List.filter (fun d => match YOLO_TO_EPI (object_class d) with
                          | Some _ => true
                          | None => false
                          end) df in
  fold_left
    (fun result p =>
       fold_left (associate_one p) epis (<[track_id p := unobserved]> result))
    persons ∅.

(** [person_epi.values()] *)
Definition values (m : gmap Z epi_state) : list epi_state :=
  map snd (map_to_list m).

(** [[p[k] for p in ... if p[k] is not None]] *)
Definition observed (sel : epi_state -> option bool) (ps : list epi_state) : list bool :=
  omap sel ps.

(** [sum(xs) / len(xs) if xs else 0.0], over booleans *)
Definition compliance_ratio (xs : list bool) : Q :=
  if is_empty xs then 0%Q
  else (inject_Z (Z.of_nat (length (List.filter id xs)))
        / inject_Z (Z.of_nat (length xs)))%Q.

(** [sum(1 for p in ... if p[k] is False)] *)
Definition count_false (sel : epi_state -> option bool) (ps : list epi_state) : Z :=
  Z.of_nat (length (List.filter (fun p => match sel p with
                                          | Some false => true
                                          | _ => false
                                          end) ps)).

(** [_empty_features] *)
Definition _empty_features : row :=
  [ ("helmet_compliance_ratio", VNum 0);
    ("vest_compliance_ratio", VNum 0);
    ("mask_compliance_ratio", VNum 0);
    ("avg_epi_compliance", VNum 0);
    ("num_no_helmet_events", VNum 0);
    ("num_no_vest_events", VNum 0);
    ("num_no_mask_events", VNum 0);
    ("epi_violation_duration", VNum 0);
    ("persistent_epi_violation", VNum 0) ].

(** [no_helmet + no_vest + no_mask], as [extract] computes it. *)
Definition explicit_violations (df : Frame) : Z :=
  let person_epi := values (_associate_epi_to_persons df (persons_of df)) in
  count_false st_helmet person_epi + count_false st_vest person_epi
  + count_false st_mask person_epi.

(** [extract]: the returned row and the object after the call. *)
Definition extract (self : t) (df : Frame) : row * t :=
  if is_empty df then (_empty_features, self)
  else
    let persons := persons_of df in
    if is_empty persons then (_empty_features, self)
    else
      let person_epi := values (_associate_epi_to_persons df persons) in
      let helmets := observed st_helmet person_epi in
      let vests := observed st_vest person_epi in
      let masks := observed st_mask person_epi in
      let helmet_ratio := compliance_ratio helmets in
      let vest_ratio := compliance_ratio vests in
      let mask_ratio := compliance_ratio masks in
      let avg_epi := ((helmet_ratio + vest_ratio + mask_ratio) / 3)%Q in
      let no_helmet := count_false st_helmet person_epi in
      let no_vest := count_false st_vest person_epi in
      let no_mask := count_false st_mask person_epi in
      let has_violation := no_helmet + no_vest + no_mask >? 0 in
      let count :=
        if has_violation then consecutive_violation_count self + 1 else 0 in
      let self' := mk (window_duration self) (persistent_threshold self) count in
      let persistent_violation := count >=? persistent_threshold self in
      let violation_duration := (inject_Z count * window_duration self)%Q in
      ([ ("helmet_compliance_ratio", VNum helmet_ratio);
         ("vest_compliance_ratio", VNum vest_ratio);
         ("mask_compliance_ratio", VNum mask_ratio);
         ("avg_epi_compliance", VNum avg_epi);
         ("num_no_helmet_events", VNum (inject_Z no_helmet));
         ("num_no_vest_events", VNum (inject_Z no_vest));
         ("num_no_mask_events", VNum (inject_Z no_mask));
         ("epi_violation_duration", VNum violation_duration);
         ("persistent_epi_violation", VNum (if persistent_violation then 1 else 0)) ],
       self').

(** Successive calls on one object, oldest window first. *)
Fixpoint run (self : t) (dfs : list Frame) : list row * t :=
  match dfs with
  | [] => ([], self)
  | df :: dfs' =>
      let '(r, self1) := extract self df in
      let '(rs, self2) := run self1 dfs' in
      (r :: rs, self2)
  end.

Definition persistent_flag (r : row) : option value :=
  dict_get r "persistent_epi_violation".

Definition violation_duration (r : row) : option value :=
  dict_get r "epi_violation_duration".

(** The counter a call on a window with persons leaves behind. *)
Definition next_count (self : t) (df : Frame) : Z :=
  if explicit_violations df >? 0 then consecutive_violation_count self + 1 else 0.

(** Example windows: a person without a helmet, a compliant person, and
    a window that holds a vehicle only. *)
Definition worker (ts : Z) : Detection := mkDetection 1 ts "person" 1 0 0 10 20 7.
Definition bare_head (ts : Z) : Detection := mkDetection 1 ts "no_hardhat" 1 4 0 2 2 0.
Definition hard_hat (ts : Z) : Detection := mkDetection 1 ts "hardhat" 1 4 0 2 2 0.
Definition truck (ts : Z) : Detection := mkDetection 1 ts "vehicle" 1 50 50 30 30 9.

Definition violation_window (ts : Z) : Frame := [worker ts; bare_head ts].
Definition compliant_window (ts : Z) : Frame := [worker ts; hard_hat ts].
Definition vehicle_window (ts : Z) : Frame := [truck ts].

End EPIFeatures.

(** ** numpy and collections *)

Module Numpy.

Definition Qlt_bool (a b : Q) : bool := negb (Qle_bool b a).

(** [np.sum] *)
Definition sum (xs : list Q) : Q := fold_right Qplus 0%Q xs.

(** [len(xs)] as a float *)
Definition len (xs : list Q) : Q := inject_Z (Z.of_nat (length xs)).

(** [np.mean] *)
Definition mean (xs : list Q) : Q := (sum xs / len xs)%Q.

(** [np.var]: the population variance *)
Definition var (xs : list Q) : Q :=
  let m := mean xs in
  mean (map (fun x => ((x - m) * (x - m))%Q) xs).

(** [np.std], over the square root [sqrtf] *)
Definition std (sqrtf : Q -> Q) (xs : list Q) : Q := sqrtf (var xs).

(** [np.hypot] *)
Definition hypot (sqrtf : Q -> Q) (a b : Q) : Q := sqrtf (a * a + b * b)%Q.

(** [np.clip(x, lo, hi)] *)
Definition clip (x lo hi : Q) : Q := Qmin (Qmax x lo) hi.

(** [np.min] of a non-empty list *)
Definition min (xs : list Q) : Q :=
  match xs with
  | [] => 0%Q
  | x :: xs' => fold_left Qmin xs' x
  end.

(** [round(x)] of a float: to the nearest integer, ties to even. *)
Definition round (x : Q) : Z :=
  let f := Qfloor x in
  match (x - inject_Z f ?= 1 # 2)%Q with
  | Lt => f
  | Gt => f + 1
  | Eq => if Z.even f then f else f + 1
  end.

(** The constant [1e-6]. *)
Definition eps : Q := 1 # 1000000.

(** A computable square root for examples: [floor(sqrt(n*d)) / d] for
    [n/d], exact whenever [n*d] is a perfect square. *)
Definition sqrt_floor (q : Q) : Q :=
  Z.sqrt (Qnum q * Zpos (Qden q)) # Qden q.

End Numpy.

(** ** numpy on IEEE doubles

    The same reductions on binary64 floats, to replay single lines of
    the extractors with their rounding. The elements are added in index
    order, which is how numpy reduces fewer than eight of them. *)

Module Double.

Definition of_Z (z : Z) : PrimFloat.float :=
  PrimFloat.of_uint63 (Uint63.of_Z z).

(** [np.sum] *)
Definition sum (xs : list PrimFloat.float) : PrimFloat.float :=
  fold_left PrimFloat.add xs (of_Z 0).

(** [np.mean] *)
Definition mean (xs : list PrimFloat.float) : PrimFloat.float :=
  PrimFloat.div (sum xs) (of_Z (Z.of_nat (length xs))).

(** [np.std]: the mean, the squared deviations, their mean, the root. *)
Definition std (xs : list PrimFloat.float) : PrimFloat.float :=
  let m := mean xs in
  PrimFloat.sqrt
    (mean (map (fun x => PrimFloat.mul (PrimFloat.sub x m) (PrimFloat.sub x m)) xs)).

(** Lines 64 and 65 of [activity_stability_features.py]. *)
Definition activity_persistence_score (person_count_history : list PrimFloat.float)
  : PrimFloat.float :=
  let person_std := std person_count_history in
  PrimFloat.div (of_Z 1) (PrimFloat.add (of_Z 1) person_std).

(** The double nearest to 1.4. *)
Definition one_point_four : PrimFloat.float := PrimFloat.div (of_Z 7) (of_Z 5).

End Double.

(** [collections.deque(maxlen=n)]: [append] on a full deque drops the
    oldest element. *)
Definition deque_append {A : Type} (maxlen : nat) (dq : list A) (x : A) : list A :=
  let l := dq ++ [x] in
  skipn (length l - maxlen) l.

(** [float(v)] *)
Definition py_float (v : value) : result Q :=
  match v with
  | VNum q => ok q
  | VNone | VTime _ => raise TypeError
  end.

(** The numbers of a sequence handed to numpy arithmetic; anything else
    raises. *)
Fixpoint py_floats (vs : list value) : result (list Q) :=
  match vs with
  | [] => ok []
  | v :: vs' =>
      try q <- py_float v in
      try qs <- py_floats vs' in
      ok (q :: qs)
  end.

(** Samples of moderate size: between 0 and [10^100]. On doubles their
    sums and the squares of their deviations stay finite. *)
Definition moderate : Q := inject_Z (10 ^ 100).

Definition moderate_samples (xs : list Q) : Prop :=
  Forall (fun x => (0 <= x <= moderate)%Q) xs.

Definition moderate_values (vs : list value) : Prop :=
  forall q, In (VNum q) vs -> (0 <= q <= moderate)%Q.

(** ** activity_stability_features.py *)

Module ActivityStabilityFeatures.

Record t : Type := mk {
  history_size : nat;
  _speed_history : list Q;
  _person_count_history : list Q;
  _motion_score_history : list Q
}.

(** [__init__] *)
Definition init (history_size : nat) : t := mk history_size [] [] [].

(** [_update_history] *)
Definition _update_history (self : t) (avg_speed num_persons erratic_motion : Q) : t :=
  mk (history_size self)
     (deque_append (history_size self) (_speed_history self) avg_speed)
     (deque_append (history_size self) (_person_count_history self) num_persons)
     (deque_append (history_size self) (_motion_score_history self) erratic_motion).

Definition neutral : row :=
  [ ("activity_persistence_score", VNum (1 # 2));
    ("motion_consistency", VNum (1 # 2));
    ("motion_stability_score", VNum (1 # 2)) ].

Section Extract.
Variable sqrtf : Q -> Q.

(** [extract] *)
Definition extract (self : t) (current_features : row) : result (row * t) :=
  try avg_speed <- py_float (dict_get_default current_features "avg_person_speed" (VNum 0)) in
  try num_persons <- py_float (dict_get_default current_features "avg_num_persons" (VNum 0)) in
  try erratic_motion <-
    py_float (dict_get_default current_features "erratic_motion_score" (VNum 0)) in
  let self := _update_history self avg_speed num_persons erratic_motion in
  if (length (_speed_history self) <? 2)%nat then ok (neutral, self)
  else
    let person_std := Numpy.std sqrtf (_person_count_history self) in
    let activity_persistence_score := (1 / (1 + person_std))%Q in
    let speed_std := Numpy.std sqrtf (_speed_history self) in
    let speed_mean := (Numpy.mean (_speed_history self) + Numpy.eps)%Q in
    let motion_consistency := (1 - speed_std / speed_mean)%Q in
    let motion_consistency := Numpy.clip motion_consistency 0 1 in
    let erratic_variation := Numpy.std sqrtf (_motion_score_history self) in
    let motion_stability_score := (1 / (1 + erratic_variation))%Q in
    ok ([ ("activity_persistence_score", VNum activity_persistence_score);
          ("motion_consistency", VNum motion_consistency);
          ("motion_stability_score", VNum motion_stability_score) ],
        self).

(** Successive calls on one object. *)
Fixpoint run (self : t) (rows : list row) : result (list row * t) :=
  match rows with
  | [] => ok ([], self)
  | r :: rows' =>
      try o <- extract self r in
      try os <- run (snd o) rows' in
      ok (fst o :: fst os, snd os)
  end.

End Extract.

Definition persistence (o : row) : option value :=
  dict_get o "activity_persistence_score".

(** The three fields [extract] reads hold (or default to) numbers. *)
Definition reads (cf : row) (a c e : Q) : Prop :=
  py_float (dict_get_default cf "avg_person_speed" (VNum 0)) = ok a
  /\ py_float (dict_get_default cf "avg_num_persons" (VNum 0)) = ok c
  /\ py_float (dict_get_default cf "erratic_motion_score" (VNum 0)) = ok e.

(** An object whose histories hold [m] copies of the same sample. *)
Definition steady (hs : nat) (a c e : Q) (m : nat) : t :=
  mk hs (repeat a m) (repeat c m) (repeat e m).

(** A row of a quiet window: speed 1, three persons, no erratic score. *)
Definition steady_row : row :=
  [ ("avg_num_persons", VNum 3); ("avg_person_speed", VNum 1) ].

End ActivityStabilityFeatures.

(** ** activity_transition_features.py *)

Module ActivityTransitionFeatures.

(** The histories hold what [dict.get] returned, unconverted. *)
Record t : Type := mk {
  history_size : nat;
  person_change_threshold : Q;
  _person_count_history : list value;
  _zone_count_history : list value;
  _high_risk_history : list value
}.

(** [__init__] *)
Definition init (history_size : nat) (person_change_threshold : Q) : t :=
  mk history_size person_change_threshold [] [] [].

(** [_update_history] *)
Definition _update_history (self : t) (num_persons num_zones num_high_risk : value) : t :=
  mk (history_size self) (person_change_threshold self)
     (deque_append (history_size self) (_person_count_history self) num_persons)
     (deque_append (history_size self) (_zone_count_history self) num_zones)
     (deque_append (history_size self) (_high_risk_history self) num_high_risk).

(** [_empty_features] *)
Definition _empty_features : row :=
  [ ("activity_change_rate", VNum 0);
    ("zone_transition_count", VNum 0);
    ("risk_transition_score", VNum 0) ].

Section Extract.
Variable sqrtf : Q -> Q.

(** Rationals do not overflow, doubles do: whether the double that
    [np.std] computes for these samples is [inf] (the squares of the
    deviations, or their sum, exceed the range) is a parameter. *)
Variable std_overflows : list Q -> bool.

(** [int(round(np.std(xs)))]: [round] raises [OverflowError] on [inf]. *)
Definition int_round_std (xs : list Q) : result Z :=
  if std_overflows xs then raise OverflowError
  else ok (Numpy.round (Numpy.std sqrtf xs)).

(** [extract] *)
Definition extract (self : t) (current_features : row) : result (row * t) :=
  let num_persons := dict_get_default current_features "avg_num_persons" (VNum 0) in
  let num_zones := dict_get_default current_features "num_persons_in_zone" (VNum 0) in
  let num_high_risk :=
    dict_get_default current_features "num_people_in_high_risk_zone" (VNum 0) in
  if (length (_person_count_history self) <? 2)%nat then
    ok (_empty_features, _update_history self num_persons num_zones num_high_risk)
  else
    try person_history <- py_floats (_person_count_history self) in
    let prev_persons := Numpy.mean person_history in
    try current_persons <- py_float num_persons in
    let delta_persons := Qabs (current_persons - prev_persons) in
    let activity_change_rate :=
      if Numpy.Qlt_bool 0 prev_persons
      then (delta_persons / (prev_persons + Numpy.eps))%Q
      else 0%Q in
    let activity_change_rate := Numpy.clip activity_change_rate 0 1 in
    try zone_history <- py_floats (_zone_count_history self) in
    try zone_transition_count <- int_round_std zone_history in
    try high_risk_history <- py_floats (_high_risk_history self) in
    let risk_variation := Numpy.std sqrtf high_risk_history in
    let risk_transition_score :=
      (risk_variation / (Numpy.mean high_risk_history + Numpy.eps))%Q in
    let risk_transition_score := Numpy.clip risk_transition_score 0 1 in
    ok ([ ("activity_change_rate", VNum activity_change_rate);
          ("zone_transition_count", VNum (inject_Z zone_transition_count));
          ("risk_transition_score", VNum risk_transition_score) ],
        _update_history self num_persons num_zones num_high_risk).

(** Successive calls on one object. *)
Fixpoint run (self : t) (rows : list row) : result (list row * t) :=
  match rows with
  | [] => ok ([], self)
  | r :: rows' =>
      try o <- extract self r in
      try os <- run (snd o) rows' in
      ok (fst o :: fst os, snd os)
  end.

End Extract.

(** A row that reports [n] persons and nothing else. *)
Definition persons_row (n : Q) : row := [ ("avg_num_persons", VNum n) ].

(** An instance of [std_overflows]: the exact sum of the squared
    deviations reaches [2^1024], more than any double holds. *)
Definition squares_overflow (xs : list Q) : bool :=
  let m := Numpy.mean xs in
  Qle_bool (inject_Z (2 ^ 1024))
           (Numpy.sum (map (fun x => ((x - m) * (x - m))%Q) xs)).

End ActivityTransitionFeatures.

(** ** geometry.py *)

Module GeometryUtils.

(** [bbox_center]: the box is stored by its top-left corner. *)
Definition bbox_center (bbox : Detection) : Q * Q :=
  ((bbox_x bbox + bbox_w bbox / 2)%Q, (bbox_y bbox + bbox_h bbox / 2)%Q).

(** [bbox_area] *)
Definition bbox_area (bbox : Detection) : Q := (bbox_w bbox * bbox_h bbox)%Q.

End GeometryUtils.

(** ** proximity_features.py *)

Module ProximityFeatures.

Record t : Type := mk {
  window_duration : Q;
  danger_distance_pp : Q;
  danger_distance_pm : Q
}.

(** [__init__] with its default thresholds *)
Definition init (window_duration : Q) : t := mk window_duration 100 150.

(** [itertools.combinations(l, 2)] *)
Fixpoint combinations2 {A : Type} (l : list A) : list (A * A) :=
  match l with
  | [] => []
  | x :: l' => map (pair x) l' ++ combinations2 l'
  end.

(** [_overlap] *)
Definition _overlap (a b : Detection) : bool :=
  let ax1 := (bbox_x a - bbox_w a / 2)%Q in
  let ay1 := (bbox_y a - bbox_h a / 2)%Q in
  let ax2 := (bbox_x a + bbox_w a / 2)%Q in
  let ay2 := (bbox_y a + bbox_h a / 2)%Q in
  let bx1 := (bbox_x b - bbox_w b / 2)%Q in
  let by1 := (bbox_y b - bbox_h b / 2)%Q in
  let bx2 := (bbox_x b + bbox_w b / 2)%Q in
  let by2 := (bbox_y b + bbox_h b / 2)%Q in
  negb (Numpy.Qlt_bool ax2 bx1 || Numpy.Qlt_bool bx2 ax1
        || Numpy.Qlt_bool ay2 by1 || Numpy.Qlt_bool by2 ay1).

(** [_bbox_overlaps] *)
Definition _bbox_overlaps (persons machines : Frame) : Z :=
  Z.of_nat (length (List.filter (fun pm => _overlap (fst pm) (snd pm))
                                (list_prod persons machines))).

(** [_empty_features] *)
Definition _empty_features : row :=
  [ ("avg_person_person_distance", VNum 0);
    ("std_person_person_distance", VNum 0);
    ("avg_person_machine_distance", VNum 0);
    ("min_person_person_distance", VNum 0);
    ("min_person_machine_distance", VNum 0);
    ("dangerous_proximity_frames", VNum 0);
    ("bbox_overlap_person_machine", VNum 0) ].

(** [sum(d < threshold for d in distances)] *)
Definition count_below (threshold : Q) (distances : list Q) : Z :=
  Z.of_nat (length (List.filter (fun d => Numpy.Qlt_bool d threshold) distances)).

Section Extract.
Variable sqrtf : Q -> Q.

(** [GeometryUtils.euclidean_distance] of the module [utils.geometry],
    called on four coordinates; that module is not part of the sources
    at hand, so the function is a parameter. *)
Variable euclidean_distance : Q -> Q -> Q -> Q -> Q.

(** [_pairwise_distances] *)
Definition _pairwise_distances (persons : Frame) : list Q :=
  let coords := map (fun p => (bbox_x p, bbox_y p)) persons in
  map (fun c => let '((x1, y1), (x2, y2)) := c in
                Numpy.hypot sqrtf (x1 - x2) (y1 - y2))
      (combinations2 coords).

(** [_cross_distances] *)
Definition _cross_distances (persons machines : Frame) : list Q :=
  flat_map
    (fun p => map (fun m => Numpy.hypot sqrtf (bbox_x p - bbox_x m) (bbox_y p - bbox_y m))
                  machines)
    persons.

(** [extract] *)
Definition extract (self : t) (df : Frame) : row :=
  if is_empty df then _empty_features
  else
    let persons := persons_of df in
    let machines := machines_of df in
    let pp_distances := _pairwise_distances persons in
    let avg_pp := if is_empty pp_distances then 0%Q else Numpy.mean pp_distances in
    let std_pp := if is_empty pp_distances then 0%Q else Numpy.std sqrtf pp_distances in
    let min_pp := if is_empty pp_distances then 0%Q else Numpy.min pp_distances in
    let dangerous_pp := count_below (danger_distance_pp self) pp_distances in
    let pm_distances := _cross_distances persons machines in
    let avg_pm := if is_empty pm_distances then 0%Q else Numpy.mean pm_distances in
    let min_pm := if is_empty pm_distances then 0%Q else Numpy.min pm_distances in
    let dangerous_pm := count_below (danger_distance_pm self) pm_distances in
    let near :=
      List.filter
        (fun pm =>
           Numpy.Qlt_bool
             (euclidean_distance (bbox_x (fst pm)) (bbox_y (fst pm))
                                 (bbox_x (snd pm)) (bbox_y (snd pm)))
             (danger_distance_pm self))
        (list_prod persons machines) in
    let num_machine_interactions := Z.of_nat (length near) in
    let time_near_machine :=
      fold_left (fun acc _ => (acc + window_duration self)%Q) near 0%Q in
    let overlaps := _bbox_overlaps persons machines in
    [ ("avg_person_person_distance", VNum avg_pp);
      ("std_person_person_distance", VNum std_pp);
      ("avg_person_machine_distance", VNum avg_pm);
      ("min_person_person_distance", VNum min_pp);
      ("min_person_machine_distance", VNum min_pm);
      ("dangerous_proximity_frames", VNum (inject_Z (dangerous_pp + dangerous_pm)));
      ("bbox_overlap_person_machine", VNum (inject_Z overlaps));
      ("time_near_machine", VNum time_near_machine);
      ("num_machine_interactions", VNum (inject_Z num_machine_interactions)) ].

(** The distances the docstrings announce: between the centers of the
    paired boxes, as [GeometryUtils.bbox_center] defines them. *)
Definition centroid_distance (a b : Detection) : Q :=
  let '(acx, acy) := GeometryUtils.bbox_center a in
  let '(bcx, bcy) := GeometryUtils.bbox_center b in
  Numpy.hypot sqrtf (acx - bcx) (acy - bcy).

Definition centroid_pairwise_distances (persons : Frame) : list Q :=
  map (fun ab => centroid_distance (fst ab) (snd ab)) (combinations2 persons).

Definition centroid_cross_distances (persons machines : Frame) : list Q :=
  map (fun pm => centroid_distance (fst pm) (snd pm)) (list_prod persons machines).

End Extract.

(** Two persons and a vehicle whose boxes share the top-left corner
    (0, 0) and differ in size: centers (1, 1), (4, 5) and (4, 5). *)
Definition small_person : Detection := mkDetection 1 0 "person" 1 0 0 2 2 1.
Definition tall_person : Detection := mkDetection 1 0 "person" 1 0 0 8 10 2.
Definition parked_vehicle : Detection := mkDetection 1 0 "vehicle" 1 0 0 8 10 3.

End ProximityFeatures.

(** ** zones.py *)

Module ZoneUtils.

(** [polygon[(i + 1) % n]] for each [i]: the vertices rotated by one. *)
Definition successors {A : Type} (polygon : list A) : list A :=
  match polygon with
  | [] => []
  | v :: vs => vs ++ [v]
  end.

(** [point_in_polygon]: ray casting. The quotient is a quotient of
    rationals: an edge whose [y2 - y1 + 1e-9] is zero, on which Python
    raises [ZeroDivisionError], is outside what this definition says. *)
Definition point_in_polygon (point : Q * Q) (polygon : list (Q * Q)) : bool :=
  let '(x, y) := point in
  fold_left
    (fun inside edge =>
       let '((x1, y1), (x2, y2)) := edge in
       if negb (Bool.eqb (Numpy.Qlt_bool y y1) (Numpy.Qlt_bool y y2)) then
         let x_intersect :=
           ((x2 - x1) * (y - y1) / (y2 - y1 + (1 # 1000000000)) + x1)%Q in
         if Numpy.Qlt_bool x x_intersect then negb inside else inside
       else inside)
    (combine polygon (successors polygon)) false.

End ZoneUtils.

(** ** utils/homography.py *)

Module HomographyUtils.

(** A float that may be NaN: the matrix comes from an external
    calibration, and a NaN entry is what makes a projected coordinate
    non-numeric. *)
Inductive float : Type :=
| Fin (q : Q)
| NaN.

Definition fadd (a b : float) : float :=
  match a, b with
  | Fin x, Fin y => Fin (x + y)
  | _, _ => NaN
  end.

Definition fmul (a b : float) : float :=
  match a, b with
  | Fin x, Fin y => Fin (x * y)
  | _, _ => NaN
  end.

Definition fdiv (a b : float) : float :=
  match a, b with
  | Fin x, Fin y => Fin (x / y)
  | _, _ => NaN
  end.

(** [a == 0]: false on NaN. *)
Definition is_zero (a : float) : bool :=
  match a with
  | Fin x => Qeq_bool x 0
  | NaN => false
  end.

(** [np.isnan] *)
Definition isnan (a : float) : bool :=
  match a with
  | Fin _ => false
  | NaN => true
  end.

(** A 3x3 [np.ndarray], by rows. *)
Definition matrix : Type :=
  (float * float * float) * (float * float * float) * (float * float * float).

(** One entry of [H @ point_img]. *)
Definition dot (r : float * float * float) (x y w : float) : float :=
  let '(a, b, c) := r in
  fadd (fadd (fmul a x) (fmul b y)) (fmul c w).

(** [H @ [x, y, 1.0]] *)
Definition matmul (H : matrix) (x y : float) : float * float * float :=
  let '(r0, r1, r2) := H in
  (dot r0 x y (Fin 1), dot r1 x y (Fin 1), dot r2 x y (Fin 1)).

(** [apply_homography] *)
Definition apply_homography (x y : float) (H : matrix) : float * float :=
  let '(p0, p1, p2) := matmul H x y in
  if is_zero p2 then (Fin 0, Fin 0)
  else (fdiv p0 p2, fdiv p1 p2).

Definition identity : matrix :=
  ((Fin 1, Fin 0, Fin 0), (Fin 0, Fin 1, Fin 0), (Fin 0, Fin 0, Fin 1)).

(** A matrix whose last row is zero: every point has a zero homogeneous
    coordinate. *)
Definition degenerate : matrix :=
  ((Fin 1, Fin 0, Fin 0), (Fin 0, Fin 1, Fin 0), (Fin 0, Fin 0, Fin 0)).


End HomographyUtils.

(** ** zone_features.py *)

Module ZoneFeatures.
Import HomographyUtils.

Record Zone : Type := mkZone {
  id : Z;
  type : string;
  risk_level : string;
  polygon : list (Q * Q)
}.

(** The object: configuration and the two dictionaries it keeps across
    windows, keyed by [(track_id, zone_id)]. *)
Record t : Type := mk {
  zones : list Zone;
  H : option matrix;
  window_duration : Q;
  _first_entry_time : gmap (Z * Z) Z;
  _last_exit_time : gmap (Z * Z) Z
}.

(** [__init__] *)
Definition init (zones : list Zone) (H : option matrix) (window_duration : Q) : t :=
  mk zones H window_duration ∅ ∅.

(** The accumulators of one call. The two counters that are flattened
    into the row keep their insertion order. *)
Record accumulators : Type := mk_acc {
  persons_in_zone : gmap Z (gset Z);
  zone_time : gmap Z Q;
  zone_type_count : list (string * Z);
  zone_risk_count : list (string * Z);
  entry_exit_events : gmap Z Z;
  person_to_zones : gmap Z (gset Z)
}.

Definition no_accumulation : accumulators := mk_acc ∅ ∅ [] [] ∅ ∅.

(** [d[k] += 1] on a [defaultdict(int)] *)
Fixpoint incr (d : list (string * Z)) (k : string) : list (string * Z) :=
  match d with
  | [] => [(k, 1)]
  | (k', n) :: d' =>
      if String.eqb k' k then (k', n + 1) :: d' else (k', n) :: incr d' k
  end.

(** [d[k].add(x)] on a [defaultdict(set)] *)
Definition add_to (d : gmap Z (gset Z)) (k x : Z) : gmap Z (gset Z) :=
  <[k := default ∅ (d !! k) ∪ {[x]}]> d.

(** [_empty_features] *)
Definition _empty_features : row :=
  [ ("num_persons_in_zone", VNum 0);
    ("time_in_zone", VNum 0);
    ("multiple_zone_exposure", VNum 0);
    ("num_people_in_high_risk_zone", VNum 0);
    ("proportion_time_in_high_risk_zone", VNum 0);
    ("zone_entry_exit_events", VNum 0);
    ("first_entry_time", VNone);
    ("last_exit_time", VNone) ].

(** The body of the loop over zones for the person [pid] projected to
    [(Xp, Yp)], once the zone is known to contain the point. *)
Definition record_presence (num_persons : nat) (timestamp : Z) (pid : Z) (z : Zone)
    (s : t * accumulators) : t * accumulators :=
  let '(self, a) := s in
  let zid := id z in
  let first := _first_entry_time self !! (pid, zid) in
  let self' :=
    mk (zones self) (H self) (window_duration self)
       (match first with
        | None => <[(pid, zid) := timestamp]> (_first_entry_time self)
        | Some _ => _first_entry_time self
        end)
       (<[(pid, zid) := timestamp]> (_last_exit_time self)) in
  let a' :=
    mk_acc (add_to (persons_in_zone a) zid pid)
           (<[zid := (default 0%Q (zone_time a !! zid)
                      + window_duration self / inject_Z (Z.of_nat num_persons))%Q]>
              (zone_time a))
           (incr (zone_type_count a) (type z))
           (incr (zone_risk_count a) (risk_level z))
           (match first with
            | None => <[zid := default 0 (entry_exit_events a !! zid) + 1]>
                        (entry_exit_events a)
            | Some _ => entry_exit_events a
            end)
           (add_to (person_to_zones a) pid zid) in
  (self', a').

Section Extract.

(** [GeometryUtils.point_in_polygon] of the module [utils.geometry],
    called as [point_in_polygon(Xp, Yp, polygon)]; that module is not
    part of the sources at hand, so the function is a parameter. *)
Variable point_in_polygon : Q -> Q -> list (Q * Q) -> bool.

(** The loop over zones, for a person projected to [(Xp, Yp)]. *)
Definition place_person (num_persons : nat) (timestamp : Z) (pid : Z) (Xp Yp : Q)
    (s : t * accumulators) : t * accumulators :=
  fold_left
    (fun s z =>
       if point_in_polygon Xp Yp (polygon z)
       then record_presence num_persons timestamp pid z s
       else s)
    (zones (fst s)) s.

(** The image point handed to the homography. *)
Definition image_point (p : Detection) : float * float :=
  (Fin (bbox_x p), Fin (bbox_y p + bbox_h p / 2)%Q).

(** The body of the loop over persons. *)
Definition person_step (Hm : matrix) (num_persons : nat) (timestamp : Z)
    (s : t * accumulators) (p : Detection) : t * accumulators :=
  let pid := track_id p in
  let '(x_img, y_img) := image_point p in
  match apply_homography x_img y_img Hm with
  | (Fin Xp, Fin Yp) => place_person num_persons timestamp pid Xp Yp s
  | _ => s
  end.

(** The loop over persons. *)
Definition person_loop (Hm : matrix) (num_persons : nat) (timestamp : Z)
    (persons : Frame) (s : t * accumulators) : t * accumulators :=
  fold_left (person_step Hm num_persons timestamp) persons s.

Definition qsum (m : gmap Z Q) : Q :=
  fold_right Qplus 0%Q (map snd (map_to_list m)).

Definition minimum (ts : list Z) : value :=
  match ts with
  | [] => VNone
  | t0 :: ts' => VTime (fold_left Z.min ts' t0)
  end.

Definition maximum (ts : list Z) : value :=
  match ts with
  | [] => VNone
  | t0 :: ts' => VTime (fold_left Z.max ts' t0)
  end.

(** The final aggregation. *)
Definition aggregate (self : t) (a : accumulators) : row :=
  let high_risk_zones : gset Z :=
    list_to_set (map id (List.filter (fun z => String.eqb (risk_level z) "HIGH")
                                     (zones self))) in
  let num_persons_in_zone := Z.of_nat (size (person_to_zones a)) in
  let multiple_zone_exposure :=
    Z.of_nat (length (List.filter (fun kv => (1 <? size (snd kv))%nat)
                                  (map_to_list (person_to_zones a)))) in
  let total_time := qsum (zone_time a) in
  let high_risk_time :=
    qsum (filter (fun kv => fst kv ∈ high_risk_zones) (zone_time a)) in
  let num_people_in_high_risk_zone :=
    fold_right Z.add 0
      (map (fun kv => Z.of_nat (size (snd kv)))
           (List.filter (fun kv => bool_decide (fst kv ∈ high_risk_zones))
                        (map_to_list (persons_in_zone a)))) in
  let proportion_high_risk :=
    if Numpy.Qlt_bool 0 total_time then (high_risk_time / total_time)%Q else 0%Q in
  let features : row :=
    [ ("num_persons_in_zone", VNum (inject_Z num_persons_in_zone));
      ("time_in_zone", VNum total_time);
      ("multiple_zone_exposure", VNum (inject_Z multiple_zone_exposure));
      ("num_people_in_high_risk_zone", VNum (inject_Z num_people_in_high_risk_zone));
      ("proportion_time_in_high_risk_zone", VNum proportion_high_risk);
      ("zone_entry_exit_events",
       VNum (inject_Z (fold_right Z.add 0
                         (map snd (map_to_list (entry_exit_events a))))));
      ("first_entry_time", minimum (map snd (map_to_list (_first_entry_time self))));
      ("last_exit_time", maximum (map snd (map_to_list (_last_exit_time self)))) ] in
  let features :=
    fold_left (fun f kv => dict_set f ("zone_type_" ++ fst kv ++ "_count")%string
                                    (VNum (inject_Z (snd kv))))
              (zone_type_count a) features in
  fold_left (fun f kv => dict_set f ("zone_risk_" ++ fst kv ++ "_count")%string
                                  (VNum (inject_Z (snd kv))))
            (zone_risk_count a) features.

(** [extract] *)
Definition extract (self : t) (df : Frame) : row * t :=
  match H self with
  | None => (_empty_features, self)
  | Some Hm =>
      if is_empty df || is_empty (zones self) then (_empty_features, self)
      else
        match persons_of df with
        | [] => (_empty_features, self)
        | (p0 :: _) as persons =>
            let timestamp := timestamp p0 in
            let '(self', a) :=
              person_loop Hm (length persons) timestamp persons
                          (self, no_accumulation) in
            (aggregate self' a, self')
        end
  end.

End Extract.


(** The projected point of [p]. *)
Definition projection (Hm : matrix) (p : Detection) : float * float :=
  apply_homography (fst (image_point p)) (snd (image_point p)) Hm.

(** The ray casting of [zones.py], in the three-argument form. *)
Definition ray_casting (x y : Q) (polygon : list (Q * Q)) : bool :=
  ZoneUtils.point_in_polygon (x, y) polygon.

(** A square around the origin of the plane, of high risk. *)
Definition origin_zone : Zone :=
  mkZone 1 "traffic" "HIGH" [(-1, -1); (1, -1); (1, 1); (-1, 1)]%Q.

Definition walker (tid : Z) (x y : Q) : Detection :=
  mkDetection 1 0 "person" 1 x y 2 2 tid.

End ZoneFeatures.

(** ** human_features.py *)

Module HumanPresenceFeatures.

Record t : Type := mk {
  image_width : Z;
  image_height : Z;
  stationary_threshold : Q
}.

(** The row returned when the window holds no person. *)
Definition no_person_features : row :=
  [ ("avg_num_persons", VNum 0);
    ("max_num_persons", VNum 0);
    ("unique_person_tracks", VNum 0);
    ("person_density", VNum 0);
    ("person_presence_ratio", VNum 0);
    ("num_person_entries", VNum 0);
    ("stationary_person_ratio", VNum 0);
    ("crowding_score", VNum 0);
    ("avg_person_height", VNum 0) ].

Section Extract.

(** The statistics of a window that holds persons (counts per frame,
    density, entries, height, stationary ratio, crowding): no statement
    below depends on them, and they are a parameter of [extract]. *)
Variable person_features : t -> Frame -> Frame -> row.

(** [extract] *)
Definition extract (self : t) (window_df : Frame) : row :=
  let df := persons_of window_df in
  if is_empty df then no_person_features
  else person_features self window_df df.

End Extract.

End HumanPresenceFeatures.

(** ** machine_features.py *)

Module MachineVehicleFeatures.

Record t : Type := mk {
  window_duration : Q
}.

(** [_empty_features] *)
Definition _empty_features : row :=
  [ ("num_machines_avg", VNum 0);
    ("machine_presence_ratio", VNum 0);
    ("unique_machine_tracks", VNum 0);
    ("machine_type_ratio", VNum 0);
    ("co_presence_person_machine", VNum 0);
    ("machine_dominance_ratio", VNum 0);
    ("machine_only_duration", VNum 0) ].

(** [df["timestamp"].unique()] *)
Fixpoint unique (ts : list Z) : list Z :=
  match ts with
  | [] => []
  | x :: ts' => x :: List.filter (fun y => negb (y =? x)) (unique ts')
  end.

Section Extract.

(** The per-frame counts and ratios of a window with at least one frame:
    no statement below depends on them, and they are a parameter of
    [extract]. *)
Variable frame_features : t -> Frame -> list Z -> row.

(** [extract] *)
Definition extract (self : t) (df : Frame) : row :=
  if is_empty df then _empty_features
  else
    let frames := unique (map timestamp df) in
    if (length frames =? 0)%nat then _empty_features
    else frame_features self df frames.

End Extract.

End MachineVehicleFeatures.

(** ** temporal_dynamics_features.py *)

Module TemporalDynamicsFeatures.

Record t : Type := mk {
  window_duration : Q;
  sudden_stop_threshold : Q;
  high_speed_threshold : Q;
  near_machine_distance : Q
}.

(** [_empty_features] *)
Definition _empty_features : row :=
  [ ("avg_person_speed", VNum 0);
    ("std_person_speed", VNum 0);
    ("direction_variance", VNum 0);
    ("track_lifetime_mean", VNum 0);
    ("sudden_stop_events", VNum 0);
    ("erratic_motion_score", VNum 0);
    ("high_speed_near_machine", VNum 0) ].

Section Extract.

(** The speeds, directions and events of a non-empty window (they need
    [atan2]): no statement below depends on them, and they are a
    parameter of [extract]. *)
Variable motion_features : t -> Frame -> row.

(** [extract] *)
Definition extract (self : t) (df : Frame) : row :=
  if is_empty df then _empty_features
  else motion_features self df.

End Extract.

End TemporalDynamicsFeatures.

(** A field holds a number. *)
Definition numeric (v : value) : bool :=
  match v with
  | VNum _ => true
  | VNone | VTime _ => false
  end.

Definition all_zero (r : row) : Prop := Forall (fun kv => snd kv = VNum 0) r.

(** ** ml_feature_config.py *)

Definition ML_FEATURE_COLUMNS : list string :=
  [ "avg_num_persons";
    "max_num_persons";
    "unique_person_tracks";
    "person_density";
    "person_presence_ratio";
    "avg_epi_compliance";
    "helmet_compliance_ratio";
    "vest_compliance_ratio";
    "num_no_helmet_events";
    "num_no_vest_events";
    "num_machines_avg";
    "machine_presence_ratio";
    "unique_machine_tracks";
    "co_presence_person_machine";
    "dangerous_proximity_frames";
    "min_person_machine_distance";
    "avg_person_speed";
    "std_person_speed";
    "sudden_stop_events";
    "erratic_motion_score";
    "direction_variance";
    "num_persons_in_zone";
    "num_people_in_high_risk_zone";
    "proportion_time_in_high_risk_zone";
    "multiple_zone_exposure";
    "avg_person_height";
    "time_near_machine";
    "num_machine_interactions";
    "motion_consistency";
    "activity_persistence_score" ].

(** ** pandas tables of feature rows *)

Module Table.

(** A cell: a value, or NaN ([None]) where the row had no such key. *)
Definition cell : Type := option value.

Record t : Type := mk {
  columns : list string;
  data : list (list cell)
}.

(** [isna] *)
Definition isna (c : cell) : bool :=
  match c with
  | None => true
  | Some VNone => true
  | Some _ => false
  end.

Definition add_column (cols : list string) (k : string) : list string :=
  if existsb (String.eqb k) cols then cols else cols ++ [k].

(** The columns of [pd.DataFrame(rows)]: the keys of the rows, in the
    order of their first appearance. *)
Definition columns_of (rows : list row) : list string :=
  fold_left (fun cols r => fold_left add_column (dict_keys r) cols) rows [].

(** [pd.DataFrame(rows)] *)
Definition of_rows (rows : list row) : t :=
  let cols := columns_of rows in
  mk cols (map (fun r => map (dict_get r) cols) rows).

(** [df.empty] *)
Definition empty (df : t) : bool := is_empty (columns df) || is_empty (data df).

(** The cell of a record under the label [c]; NaN when the frame has no
    such column. *)
Fixpoint at_label (cols : list string) (cells : list cell) (c : string) : cell :=
  match cols, cells with
  | c' :: cols', x :: cells' =>
      if String.eqb c' c then x else at_label cols' cells' c
  | _, _ => None
  end.

(** [df.reindex(columns=cols)] *)
Definition reindex (df : t) (cols : list string) : t :=
  mk cols (map (fun r => map (at_label (columns df) r) cols) (data df)).

(** [df.fillna(0)] *)
Definition fillna0 (df : t) : t :=
  mk (columns df)
     (map (map (fun c => if isna c then Some (VNum 0) else c)) (data df)).

End Table.

(** ** pipeline.py *)

Module Pipeline.

(** What the pipeline passes to an [extract] method. *)
Inductive pyarg : Type :=
| AFrame (df : Frame)
| ARow (r : row)
| ARows (rs : list row).

(** An extractor object, as the pipeline sees it: some state, and an
    [extract] method with its parameter names (after [self]). *)
Record Extractor : Type := mkExtractor {
  ext_state : Type;
  ext_self : ext_state;
  ext_params : list string;
  ext_extract : ext_state -> list pyarg -> result (row * ext_state)
}.

Definition returned (o : Extractor) (r : result (row * ext_state o))
  : result (row * Extractor) :=
  try rs <- r in
  ok (fst rs, mkExtractor (ext_state o) (snd rs) (ext_params o) (ext_extract o)).

(** [o.extract(a1, ..., an)] *)
Definition call (o : Extractor) (args : list pyarg) : result (row * Extractor) :=
  if (length args =? length (ext_params o))%nat
  then returned o (ext_extract o (ext_self o) args)
  else raise TypeError.

Fixpoint keyword (kwargs : list (string * pyarg)) (p : string) : option pyarg :=
  match kwargs with
  | [] => None
  | (k, a) :: kwargs' => if String.eqb k p then Some a else keyword kwargs' p
  end.

Fixpoint bind_keywords (params : list string) (kwargs : list (string * pyarg))
  : option (list pyarg) :=
  match params with
  | [] => Some []
  | p :: params' =>
      match keyword kwargs p, bind_keywords params' kwargs with
      | Some a, Some args => Some (a :: args)
      | _, _ => None
      end
  end.

(** [o.extract(k1=a1, ..., kn=an)]: a keyword that names no parameter,
    or a parameter left without argument, raises [TypeError]. *)
Definition call_kw (o : Extractor) (kwargs : list (string * pyarg))
  : result (row * Extractor) :=
  if forallb (fun kw => existsb (String.eqb (fst kw)) (ext_params o)) kwargs then
    match bind_keywords (ext_params o) kwargs with
    | Some args => returned o (ext_extract o (ext_self o) args)
    | None => raise TypeError
    end
  else raise TypeError.

(** The classes of the package as such objects. *)
Definition human_object person_features (self : HumanPresenceFeatures.t) : Extractor :=
  mkExtractor _ self ["window_df"]
    (fun s args =>
       match args with
       | [AFrame df] => ok (HumanPresenceFeatures.extract person_features s df, s)
       | _ => raise AttributeError
       end).

Definition epi_object (self : EPIFeatures.t) : Extractor :=
  mkExtractor _ self ["df"]
    (fun s args =>
       match args with
       | [AFrame df] => ok (EPIFeatures.extract s df)
       | _ => raise AttributeError
       end).

Definition machine_object frame_features (self : MachineVehicleFeatures.t) : Extractor :=
  mkExtractor _ self ["df"]
    (fun s args =>
       match args with
       | [AFrame df] => ok (MachineVehicleFeatures.extract frame_features s df, s)
       | _ => raise AttributeError
       end).

Definition proximity_object sqrtf euclidean_distance (self : ProximityFeatures.t)
  : Extractor :=
  mkExtractor _ self ["df"]
    (fun s args =>
       match args with
       | [AFrame df] => ok (ProximityFeatures.extract sqrtf euclidean_distance s df, s)
       | _ => raise AttributeError
       end).

Definition temporal_object motion_features (self : TemporalDynamicsFeatures.t)
  : Extractor :=
  mkExtractor _ self ["df"]
    (fun s args =>
       match args with
       | [AFrame df] => ok (TemporalDynamicsFeatures.extract motion_features s df, s)
       | _ => raise AttributeError
       end).

Definition zone_object point_in_polygon (self : ZoneFeatures.t) : Extractor :=
  mkExtractor _ self ["df"]
    (fun s args =>
       match args with
       | [AFrame df] => ok (ZoneFeatures.extract point_in_polygon s df)
       | _ => raise AttributeError
       end).

Definition stability_object sqrtf (self : ActivityStabilityFeatures.t) : Extractor :=
  mkExtractor _ self ["current_features"]
    (fun s args =>
       match args with
       | [ARow r] => ActivityStabilityFeatures.extract sqrtf s r
       | _ => raise AttributeError
       end).

Definition transition_object sqrtf std_overflows (self : ActivityTransitionFeatures.t)
  : Extractor :=
  mkExtractor _ self ["current_features"]
    (fun s args =>
       match args with
       | [ARow r] => ActivityTransitionFeatures.extract sqrtf std_overflows s r
       | _ => raise AttributeError
       end).

(** The extractor arguments of the pipeline and its two lists. *)
Record state : Type := mk {
  human_extractor : Extractor;
  epi_extractor : Extractor;
  machine_extractor : Extractor;
  proximity_extractor : Extractor;
  temporal_extractor : Extractor;
  zone_extractor : Extractor;
  stability_extractor : option Extractor;
  transition_extractor : option Extractor;
  previous_rows : list row;
  all_rows : list row
}.

(** The metadata of a non-empty window. *)
Definition metadata (i : Z) (d0 : Detection) (window_df : Frame) : row :=
  [ ("window_index", VNum (inject_Z i));
    ("window_start", VTime (fold_left Z.min (map timestamp window_df) (timestamp d0)));
    ("window_end", VTime (fold_left Z.max (map timestamp window_df) (timestamp d0)));
    ("camera_id", VNum (inject_Z (camera_id d0)));
    ("num_detections", VNum (inject_Z (Z.of_nat (length window_df)))) ].

(** [row.update(o.extract(window_df))] *)
Definition update_from (o : Extractor) (window_df : Frame) (r : row)
  : result (row * Extractor) :=
  try f <- call o [AFrame window_df] in
  ok (dict_update r (fst f), snd f).

(** The body of the loop for a non-empty window. *)
Definition step (i : Z) (d0 : Detection) (window_df : Frame) (st : state)
  : result state :=
  let r := metadata i d0 window_df in
  try h <- update_from (human_extractor st) window_df r in
  try e <- update_from (epi_extractor st) window_df (fst h) in
  try m <- update_from (machine_extractor st) window_df (fst e) in
  try p <- update_from (proximity_extractor st) window_df (fst m) in
  try t <- update_from (temporal_extractor st) window_df (fst p) in
  try z <- update_from (zone_extractor st) window_df (fst t) in
  try s <-
    match stability_extractor st with
    | None => ok (fst z, None)
    | Some o =>
        try f <- call o [ARow (fst z)] in
        ok (dict_update (fst z) (fst f), Some (snd f))
    end in
  try x <-
    match transition_extractor st with
    | None => ok (fst s, None)
    | Some o =>
        try f <- call_kw o [ ("current_row", ARow (fst s));
                             ("history", ARows (previous_rows st)) ] in
        ok (dict_update (fst s) (fst f), Some (snd f))
    end in
  ok (mk (snd h) (snd e) (snd m) (snd p) (snd t) (snd z) (snd s) (snd x)
         (previous_rows st ++ [fst x]) (all_rows st ++ [fst x])).

(** The loop over [enumerate(windows)], from index [i]. *)
Fixpoint loop (max_windows : option Z) (i : Z) (windows : list Frame) (st : state)
  : result state :=
  match windows with
  | [] => ok st
  | window_df :: windows' =>
      if match max_windows with
         | Some n => n <=? i
         | None => false
         end
      then ok st
      else
        match window_df with
        | [] => loop max_windows (i + 1) windows' st
        | d0 :: _ =>
            try st' <- step i d0 window_df st in
            loop max_windows (i + 1) windows' st'
        end
  end.

(** The two tables built from the emitted rows. *)
Definition tables (rows : list row) : Table.t * Table.t :=
  let df_all_features := Table.of_rows rows in
  if Table.empty df_all_features then (df_all_features, df_all_features)
  else
    (df_all_features,
     Table.fillna0 (Table.reindex df_all_features ML_FEATURE_COLUMNS)).

(** [extract_features_pipeline], over the windows the generator yields. *)
Definition extract_features_pipeline
    (human_extractor epi_extractor machine_extractor proximity_extractor
     temporal_extractor zone_extractor : Extractor)
    (stability_extractor transition_extractor : option Extractor)
    (max_windows : option Z) (windows : list Frame) : result (Table.t * Table.t) :=
  let st :=
    mk human_extractor epi_extractor machine_extractor proximity_extractor
       temporal_extractor zone_extractor stability_extractor transition_extractor
       [] [] in
  try st' <- loop max_windows 0 windows st in
  ok (tables (all_rows st')).

(** The whole call, with the windows of [sliding_window.generate]; [None]
    when the generator does not stop within the fuel. *)
Definition run (fuel : nat) (sliding_window : SlidingWindow.t)
    (human_extractor epi_extractor machine_extractor proximity_extractor
     temporal_extractor zone_extractor : Extractor)
    (stability_extractor transition_extractor : option Extractor)
    (camera_ids : list Z) (start_time end_time : Z) (max_windows : option Z)
  : option (result (Table.t * Table.t)) :=
  match SlidingWindow.generate fuel sliding_window camera_ids start_time end_time with
  | Some windows =>
      Some (extract_features_pipeline
              human_extractor epi_extractor machine_extractor proximity_extractor
              temporal_extractor zone_extractor stability_extractor
              transition_extractor max_windows windows)
  | None => None
  end.

(** The value the fixed-schema table holds for the column [c] of a row. *)
Definition ml_cell (r : row) (c : string) : Table.cell :=
  match dict_get r c with
  | None | Some VNone => Some (VNum 0)
  | Some v => Some v
  end.

(** Every emitted row keeps its [window_index]. *)
Definition indexed (r : row) : Prop := dict_get r "window_index" <> None.

(** An instance: the extractors of the package on a site of 640 x 480
    pixels with one zone; the statistics left as parameters above are
    given stand-ins that return the neutral rows. *)
Definition straight_line (x1 y1 x2 y2 : Q) : Q :=
  Numpy.hypot Numpy.sqrt_floor (x1 - x2) (y1 - y2).

Definition site (transition : option Extractor) (max_windows : option Z)
    (windows : list Frame) : result (Table.t * Table.t) :=
  extract_features_pipeline
    (human_object (fun _ _ _ => HumanPresenceFeatures.no_person_features)
                  (HumanPresenceFeatures.mk 640 480 2))
    (epi_object (EPIFeatures.init 2 3))
    (machine_object (fun _ _ _ => MachineVehicleFeatures._empty_features)
                    (MachineVehicleFeatures.mk 2))
    (proximity_object Numpy.sqrt_floor straight_line (ProximityFeatures.init 2))
    (temporal_object (fun _ _ => TemporalDynamicsFeatures._empty_features)
                     (TemporalDynamicsFeatures.mk 2 (1 # 2) 50 150))
    (zone_object ZoneFeatures.ray_casting
                 (ZoneFeatures.init [ZoneFeatures.origin_zone]
                                    (Some HomographyUtils.identity) 2))
    (Some (stability_object Numpy.sqrt_floor (ActivityStabilityFeatures.init 5)))
    transition max_windows windows.

(** The transition extractor of the package, with its defaults. *)
Definition site_transition : Extractor :=
  transition_object Numpy.sqrt_floor ActivityTransitionFeatures.squares_overflow
                    (ActivityTransitionFeatures.init 5 (1 # 2)).

End Pipeline.

(** ** Further example inputs *)

(** Windows of 4 time units every 4: a tiling. *)
Definition tiled_window : SlidingWindow.t :=
  SlidingWindow.mk
    (fun _ _ _ => [SlidingWindow.demo_detection 0; SlidingWindow.demo_detection 4;
                   SlidingWindow.demo_detection 9]) 4 4.

(** The inclusion test of [_associate_epi_to_persons]: the center of the
    equipment box [e] lies in the box of the person [p], in the same
    frame. *)
Definition epi_on_person (p e : Detection) : bool :=
  (timestamp e =? timestamp p)
  && (Qle_bool (bbox_x p) (bbox_x e + bbox_w e / 2)
      && Qle_bool (bbox_x e + bbox_w e / 2) (bbox_x p + bbox_w p)
      && Qle_bool (bbox_y p) (bbox_y e + bbox_h e / 2)
      && Qle_bool (bbox_y e + bbox_h e / 2) (bbox_y p + bbox_h p)).

(** The window holds a person. *)
Definition has_person (df : Frame) : bool := negb (is_empty (persons_of df)).

(** A helmet lying on the ground beside the worker, and a bare head seen
    one frame later than the worker. *)
Definition stray_window : Frame :=
  [ EPIFeatures.worker 0;
    mkDetection 1 0 "no_hardhat" 1 40 40 2 2 0;
    mkDetection 1 1 "no_safety_vest" 1 4 0 2 2 0 ].

(** A row whose person count is missing. *)
Definition missing_count_row : row := [ ("avg_num_persons", VNone) ].

(** A transition extractor whose histories hold [m] copies of the same
    sample. *)
Definition transition_steady (hs : nat) (thr : Q) (c z h : Q) (m : nat)
  : ActivityTransitionFeatures.t :=
  ActivityTransitionFeatures.mk hs thr
    (repeat (VNum c) m) (repeat (VNum z) m) (repeat (VNum h) m).

(** The three histories of a transition extractor hold [n] samples each. *)
Definition transition_aligned (self : ActivityTransitionFeatures.t) (n : nat) : Prop :=
  length (ActivityTransitionFeatures._person_count_history self) = n
  /\ length (ActivityTransitionFeatures._zone_count_history self) = n
  /\ length (ActivityTransitionFeatures._high_risk_history self) = n.

(** The three fields read by the stability extractor, after defaulting. *)
Definition stability_fields (cf : row) : list value :=
  [ dict_get_default cf "avg_person_speed" (VNum 0);
    dict_get_default cf "avg_num_persons" (VNum 0);
    dict_get_default cf "erratic_motion_score" (VNum 0) ].

(** No person of the association has an observed equipment state. *)
Definition epi_all_unobserved (m : gmap Z EPIFeatures.epi_state) : Prop :=
  forall k v, m !! k = Some v -> v = EPIFeatures.unobserved.

(** ** geometry.py, continued *)

Module Geometry.

(** [iou_bbox] *)
Definition iou_bbox (bbox1 bbox2 : Detection) : Q :=
  let x1 := Qmax (bbox_x bbox1) (bbox_x bbox2) in
  let y1 := Qmax (bbox_y bbox1) (bbox_y bbox2) in
  let x2 := Qmin (bbox_x bbox1 + bbox_w bbox1) (bbox_x bbox2 + bbox_w bbox2) in
  let y2 := Qmin (bbox_y bbox1 + bbox_h bbox1) (bbox_y bbox2 + bbox_h bbox2) in
  let inter_w := Qmax 0 (x2 - x1) in
  let inter_h := Qmax 0 (y2 - y1) in
  let intersection := (inter_w * inter_h)%Q in
  let union :=
    (GeometryUtils.bbox_area bbox1 + GeometryUtils.bbox_area bbox2 - intersection)%Q in
  if Qeq_bool union 0 then 0%Q else (intersection / union)%Q.

Section Distance.
Variable sqrtf : Q -> Q.

(** [euclidean_distance] *)
Definition euclidean_distance (p1 p2 : Q * Q) : Q :=
  sqrtf ((fst p1 - fst p2) ^ 2 + (snd p1 - snd p2) ^ 2)%Q.

(** [speed] *)
Definition speed (p1 p2 : Q * Q) (delta_t : Q) : Q :=
  if Qle_bool delta_t 0 then 0%Q
  else (euclidean_distance p1 p2 / delta_t)%Q.

End Distance.

(** A box given by its corner and size. *)
Definition box (x y w h : Q) : Detection := mkDetection 1 0 "person" 1 x y w h 1.

(** A box whose corner and size are of moderate magnitude. *)
Definition moderate_box (d : Detection) : Prop :=
  (Qabs (bbox_x d) <= moderate)%Q
  /\ (Qabs (bbox_y d) <= moderate)%Q
  /\ (0 <= bbox_w d <= moderate)%Q
  /\ (0 <= bbox_h d <= moderate)%Q.

End Geometry.

(** ** utils/homography.py, continued *)

Module Projective.
Import HomographyUtils.

(** A matrix without NaN, from its nine entries. *)
Definition finite (a b c d e f g h i : Q) : matrix :=
  ((Fin a, Fin b, Fin c), (Fin d, Fin e, Fin f), (Fin g, Fin h, Fin i)).

(** Two floats are both NaN or equal numbers. *)
Definition same (u v : float) : Prop :=
  match u, v with
  | Fin a, Fin b => (a == b)%Q
  | NaN, NaN => True
  | _, _ => False
  end.

End Projective.

(** ** The zone memory across calls *)

Module ZoneMemory.
Import ZoneFeatures.

(** [self'] is [self] with a memory that has only grown: same
    configuration, every first-entry time kept. *)
Definition grown (self self' : t) : Prop :=
  zones self' = zones self
  /\ H self' = H self
  /\ window_duration self' = window_duration self
  /\ (forall key ts, _first_entry_time self !! key = Some ts ->
                     _first_entry_time self' !! key = Some ts)
  /\ dom (_last_exit_time self) ⊆ dom (_last_exit_time self').

(** The two dictionaries have the same keys. *)
Definition paired (self : t) : Prop :=
  dom (_first_entry_time self) = dom (_last_exit_time self).

(** The sum of a [defaultdict(int)]. *)
Definition total (m : gmap Z Z) : Z :=
  fold_right Z.add 0 (map snd (map_to_list m)).


(** Two persons standing in the zone around the origin. *)
Definition two_in_zone : Frame := [walker 7 0 (-1); walker 8 0 (-1)].

End ZoneMemory.

(** ** The windows a pipeline run reaches *)

(** The windows the loop of the pipeline gets to before [max_windows]
    stops it. *)
Definition reached (max_windows : option Z) (windows : list Frame) : list Frame :=
  match max_windows with
  | None => windows
  | Some n => firstn (Z.to_nat n) windows
  end.

(** The same, for the loop resumed at index [i]. *)
Definition reached_from (max_windows : option Z) (i : Z) (windows : list Frame)
  : list Frame :=
  match max_windows with
  | None => windows
  | Some n => firstn (Z.to_nat (n - i)) windows
  end.

Definition non_empty (df : Frame) : bool := negb (is_empty df).

(** ** inference/tracking.py *)

Module Tracker.

(** One entry of [self.tracks]. *)
Record track : Type := mk_track {
  centroid : Q * Q;
  cls : string;
  last_seen : Z
}.

(** The object; [tracks] is the dictionary, in insertion order. *)
Record t : Type := mk {
  next_id : Z;
  tracks : list (Z * track);
  max_distance : Q;
  max_age : Z
}.

(** [__init__] *)
Definition init (max_distance : Q) (max_age : Z) : t := mk 1 [] max_distance max_age.

(** [_centroid] *)
Definition _centroid (box_xyxy : Q * Q * Q * Q) : Q * Q :=
  let '(x1, y1, x2, y2) := box_xyxy in
  (((x1 + x2) / 2)%Q, ((y1 + y2) / 2)%Q).

(** [del d[k]] *)
Definition delete (k : Z) (d : list (Z * track)) : list (Z * track) :=
  List.filter (fun kv => negb (fst kv =? k)) d.

(** [d.get(k)] *)
Fixpoint lookup (k : Z) (d : list (Z * track)) : option track :=
  match d with
  | [] => None
  | (k', v) :: d' => if k' =? k then Some v else lookup k d'
  end.

(** [frame_idx - track["last_seen"] > self.max_age] *)
Definition stale (max_age frame_idx : Z) (tr : track) : bool :=
  max_age <? frame_idx - last_seen tr.

Section Track.
Variable sqrtf : Q -> Q.

(** [np.linalg.norm(centroid - track["centroid"])] *)
Definition distance (c : Q * Q) (tr : track) : Q :=
  sqrtf ((fst c - fst (centroid tr)) * (fst c - fst (centroid tr))
         + (snd c - snd (centroid tr)) * (snd c - snd (centroid tr)))%Q.

(** The body of the loop over a snapshot of the tracks. The pair
    [best] holds [best_id] and [best_dist], [None] standing for
    [(None, inf)]. *)
Definition scan_step (self : t) (c : Q * Q) (class_name : string) (frame_idx : Z)
    (acc : list (Z * track) * option (Z * Q)) (kv : Z * track)
  : list (Z * track) * option (Z * Q) :=
  let '(tracks, best) := acc in
  let '(track_id, tr) := kv in
  if stale (max_age self) frame_idx tr then (delete track_id tracks, best)
  else if negb (String.eqb (cls tr) class_name) then acc
  else
    let dist := distance c tr in
    if match best with
       | None => true
       | Some (_, best_dist) => Numpy.Qlt_bool dist best_dist
       end && Numpy.Qlt_bool dist (max_distance self)
    then (tracks, Some (track_id, dist))
    else acc.

Definition scan (self : t) (c : Q * Q) (class_name : string) (frame_idx : Z)
  : list (Z * track) * option (Z * Q) :=
  fold_left (scan_step self c class_name frame_idx) (tracks self) (tracks self, None).

(** [track]: the returned identifier and the object after the call. *)
Definition track_box (self : t) (box_xyxy : Q * Q * Q * Q) (class_name : string)
    (frame_idx : Z) : Z * t :=
  let c := _centroid box_xyxy in
  let '(tracks, best) := scan self c class_name frame_idx in
  match best with
  | Some (best_id, _) =>
      (best_id,
       mk (next_id self)
          (map (fun kv => if fst kv =? best_id
                          then (fst kv, mk_track c (cls (snd kv)) frame_idx)
                          else kv) tracks)
          (max_distance self) (max_age self))
  | None =>
      (next_id self,
       mk (next_id self + 1)
          (tracks ++ [(next_id self, mk_track c class_name frame_idx)])
          (max_distance self) (max_age self))
  end.

End Track.

(** A track that a detection of class [class_name] in frame [frame_idx]
    can be matched to. *)
Definition candidate (self : t) (class_name : string) (frame_idx : Z) (tr : track)
  : Prop :=
  stale (max_age self) frame_idx tr = false /\ cls tr = class_name.

(** The keys are distinct and all below [next_id]. *)
Definition well_formed (self : t) : Prop :=
  NoDup (map fst (tracks self))
  /\ Forall (fun kv => fst kv < next_id self) (tracks self).

(** A tracker that has seen a person and a vehicle in frame 0. *)
Definition two_tracks : t :=
  mk 3 [ (1, mk_track (10, 10)%Q "person" 0); (2, mk_track (12, 10)%Q "vehicle" 0) ]
     50 10.

End Tracker.

(** ** risk_prediction/hse_rule_engin.py *)

Module HSERuleEngine.

(** The rules come from a JSON file; every key the engine reads with
    [rule[...]] is a field here, the optional key [epi_analysis] an
    option. Thresholds and weights are JSON numbers. *)
Record condition : Type := mk_condition {
  feature : string;
  operator : string;
  cond_value : Q
}.

Record epi_cfg : Type := mk_epi_cfg {
  epi_feature : string;
  epi_threshold : Q
}.

Record rule : Type := mk_rule {
  rule_id : string;
  name : string;
  severity : string;
  risk_weight : Q;
  description : string;
  recommendation_message : string;
  activity_id : Z;
  conditions : list condition;
  epi_analysis : option (list (string * epi_cfg))
}.

(** The object: [self.rules]. *)
Record t : Type := mk { rules : list rule }.

(** One entry of [violated_rules]. *)
Record violated_rule : Type := mk_violated_rule {
  v_rule_id : string;
  v_name : string;
  v_severity : string;
  v_risk_weight : Q;
  v_description : string;
  v_recommendation : string;
  v_missing_epi : list string
}.

(** The returned dictionary; [missing_epi] is the list of a set, whose
    order Python leaves open. *)
Record report : Type := mk_report {
  violated_rules : list violated_rule;
  missing_epi : gset string;
  risk_score : Q;
  risk_level : string
}.

(** [v < threshold] and the like on a value that is not [None]: an
    ordering of a timestamp against a number raises. *)
Definition order (test : Q -> Q -> bool) (v : value) (threshold : Q) : result bool :=
  match v with
  | VNum q => ok (test q threshold)
  | VNone => raise TypeError
  | VTime _ => raise TypeError
  end.

(** [v == threshold]: never raises. *)
Definition equal (v : value) (threshold : Q) : bool :=
  match v with
  | VNum q => Qeq_bool q threshold
  | _ => false
  end.

(** [features.get(k)]: a missing key reads as [None]. *)
Definition get (features : row) (k : string) : value :=
  match dict_get features k with
  | Some v => v
  | None => VNone
  end.

(** [_evaluate_condition] *)
Definition _evaluate_condition (feature_value : value) (operator : string)
    (threshold : Q) : result bool :=
  match feature_value with
  | VNone => ok false
  | _ =>
      if String.eqb operator "<" then
        order Numpy.Qlt_bool feature_value threshold
      else if String.eqb operator "<=" then
        order Qle_bool feature_value threshold
      else if String.eqb operator ">" then
        order (fun a b => Numpy.Qlt_bool b a) feature_value threshold
      else if String.eqb operator ">=" then
        order (fun a b => Qle_bool b a) feature_value threshold
      else if String.eqb operator "==" then
        ok (equal feature_value threshold)
      else ok false
  end.

(** The loop over [rule["conditions"]], with its [break]. *)
Fixpoint conditions_met (features : row) (conds : list condition) : result bool :=
  match conds with
  | [] => ok true
  | cond :: rest =>
      try b <- _evaluate_condition (get features (feature cond)) (operator cond)
                                   (cond_value cond) in
      if negb b then ok false else conditions_met features rest
  end.

(** The loop over [rule["epi_analysis"].items()]. *)
Fixpoint epi_loop (features : row) (items : list (string * epi_cfg))
    (missing : list string) (missing_epi_global : gset string)
  : result (list string * gset string) :=
  match items with
  | [] => ok (missing, missing_epi_global)
  | (epi_name, cfg) :: rest =>
      match get features (epi_feature cfg) with
      | VNone => epi_loop features rest missing missing_epi_global
      | epi_value =>
          try b <- order Numpy.Qlt_bool epi_value (epi_threshold cfg) in
          if b then
            let msg := (epi_name ++ " probablement manquant")%string in
            epi_loop features rest (missing ++ [msg]) ({[ msg ]} ∪ missing_epi_global)
          else epi_loop features rest missing missing_epi_global
      end
  end.

(** The state of the loop over the rules. *)
Definition state : Type := (list violated_rule * gset string * Q)%type.

(** The body of the loop over [self.rules]. *)
Definition rule_step (features : row) (activity : Z) (st : state) (r : rule)
  : result state :=
  let '(violated, missing_epi_global, total_risk_score) := st in
  if negb (activity_id r =? activity) then ok st
  else
    try met <- conditions_met features (conditions r) in
    if negb met then ok st
    else
      try analysed <-
        match epi_analysis r with
        | Some items => epi_loop features items [] missing_epi_global
        | None => ok ([], missing_epi_global)
        end in
      let '(missing, missing_epi_global') := analysed in
      let violated_rule :=
        mk_violated_rule (rule_id r) (name r) (severity r) (risk_weight r)
                         (description r) (recommendation_message r) missing in
      ok (violated ++ [violated_rule], missing_epi_global',
          (total_risk_score + risk_weight r)%Q).

Fixpoint rule_loop (features : row) (activity : Z) (rs : list rule) (st : state)
  : result state :=
  match rs with
  | [] => ok st
  | r :: rest =>
      try st' <- rule_step features activity st r in
      rule_loop features activity rest st'
  end.

(** [evaluate] *)
Definition evaluate (self : t) (features : row) (activity : Z) : result report :=
  try st <- rule_loop features activity (rules self) ([], ∅, 0%Q) in
  let '(violated, missing_epi_global, total_risk_score) := st in
  let risk_level :=
    if Qle_bool 60 total_risk_score then "HIGH"
    else if Qle_bool 30 total_risk_score then "MEDIUM"
    else "LOW" in
  ok (mk_report violated missing_epi_global total_risk_score risk_level).


(** The comparison an operator stands for; an operator outside the five
    stands for none. *)
Definition compare (operator : string) (q threshold : Q) : bool :=
  if String.eqb operator "<" then Numpy.Qlt_bool q threshold
  else if String.eqb operator "<=" then Qle_bool q threshold
  else if String.eqb operator ">" then Numpy.Qlt_bool threshold q
  else if String.eqb operator ">=" then Qle_bool threshold q
  else if String.eqb operator "==" then Qeq_bool q threshold
  else false.

(** The condition names a feature that holds a number, and the
    comparison holds of it. *)
Definition holds (features : row) (cond : condition) : bool :=
  match dict_get features (feature cond) with
  | Some (VNum q) => compare (operator cond) q (cond_value cond)
  | _ => false
  end.

(** The rule is of the activity and all its conditions hold. *)
Definition violated (features : row) (activity : Z) (r : rule) : bool :=
  (activity_id r =? activity) && forallb (holds features) (conditions r).




End HSERuleEngine.

(** * Theorems *)

(** ** Theorems: sliding window *)

Module SlidingWindowFacts.
Import SlidingWindow.

Lemma window_count_step sw cur end_time :
  0 < step_delta sw ->
  cur + window_delta sw <= end_time ->
  window_count sw cur end_time = S (window_count sw (cur + step_delta sw) end_time).
Proof.
  intros Hs Hc. unfold window_count.
  destruct (Z.leb_spec (cur + window_delta sw) end_time) as [_|]; [|lia].
  set (a := end_time - cur - window_delta sw).
  assert (Ha : 0 <= a) by (unfold a; lia).
  destruct (Z.leb_spec (cur + step_delta sw + window_delta sw) end_time) as [H1|H1].
  - replace (end_time - (cur + step_delta sw) - window_delta sw)
      with (a + (-1) * step_delta sw) by (unfold a; lia).
    rewrite Z.div_add by lia.
    assert (1 <= a / step_delta sw).
    { apply Z.div_le_lower_bound; unfold a; lia. }
    lia.
  - assert (Hq : a / step_delta sw = 0).
    { apply Z.div_small. unfold a. lia. }
    rewrite Hq. reflexivity.
Qed.

Lemma window_count_spec sw start_time end_time (k : nat) :
  0 < step_delta sw ->
  (k < window_count sw start_time end_time)%nat <->
  start_time + Z.of_nat k * step_delta sw + window_delta sw <= end_time.
Proof.
  intros Hs. unfold window_count.
  destruct (Z.leb_spec (start_time + window_delta sw) end_time) as [Hc|Hc].
  - set (a := end_time - start_time - window_delta sw).
    assert (Ha : 0 <= a) by (unfold a; lia).
    assert (Hq : 0 <= a / step_delta sw) by (apply Z.div_pos; lia).
    pose proof (Z.mul_div_le a (step_delta sw) Hs) as Hlo.
    pose proof (Z.mul_succ_div_gt a (step_delta sw) Hs) as Hhi.
    split; intros H.
    + assert (Z.of_nat k <= a / step_delta sw) by lia.
      assert (step_delta sw * Z.of_nat k <= step_delta sw * (a / step_delta sw))
        by (apply Z.mul_le_mono_nonneg_l; lia).
      unfold a in *. lia.
    + assert (Hk : Z.of_nat k * step_delta sw <= a) by (unfold a; lia).
      assert (Z.of_nat k <= a / step_delta sw)
        by (apply Z.div_le_lower_bound; lia).
      lia.
  - split; intros H; [lia|].
    assert (0 <= Z.of_nat k * step_delta sw) by (apply Z.mul_nonneg_nonneg; lia).
    lia.
Qed.

Lemma generate_loop_windows sw df_all end_time fuel : forall cur,
  0 < step_delta sw ->
  (window_count sw cur end_time <= fuel)%nat ->
  generate_loop fuel sw df_all cur end_time
  = Some (map (kth_window sw df_all cur) (seq 0 (window_count sw cur end_time))).
Proof.
  induction fuel as [|fuel IH]; intros cur Hs Hf; simpl.
  - destruct (Z.leb_spec (cur + window_delta sw) end_time) as [Hc|Hc].
    + rewrite (window_count_step sw cur end_time Hs Hc) in Hf. lia.
    + unfold window_count.
      destruct (Z.leb_spec (cur + window_delta sw) end_time); [lia|reflexivity].
  - destruct (Z.leb_spec (cur + window_delta sw) end_time) as [Hc|Hc].
    + rewrite (window_count_step sw cur end_time Hs Hc) in *.
      rewrite IH by (auto; lia). simpl.
      rewrite <- seq_shift, map_map.
      assert (H0 : kth_window sw df_all cur 0
                   = List.filter (in_window cur (cur + window_delta sw)) df_all).
      { unfold kth_window. rewrite Z.mul_0_l, Z.add_0_r. reflexivity. }
      rewrite H0. do 2 f_equal. apply map_ext. intros k.
      unfold kth_window.
      replace (cur + step_delta sw + Z.of_nat k * step_delta sw)
        with (cur + Z.of_nat (S k) * step_delta sw) by lia.
      reflexivity.
    + unfold window_count.
      destruct (Z.leb_spec (cur + window_delta sw) end_time); [lia|reflexivity].
Qed.

Lemma generate_loop_some sw df_all end_time fuel : forall cur ws,
  0 < step_delta sw ->
  generate_loop fuel sw df_all cur end_time = Some ws ->
  (window_count sw cur end_time <= fuel)%nat.
Proof.
  induction fuel as [|fuel IH]; intros cur ws Hs; simpl.
  - destruct (Z.leb_spec (cur + window_delta sw) end_time) as [Hc|Hc]; [discriminate|].
    intros _. unfold window_count.
    destruct (Z.leb_spec (cur + window_delta sw) end_time); lia.
  - destruct (Z.leb_spec (cur + window_delta sw) end_time) as [Hc|Hc].
    + rewrite (window_count_step sw cur end_time Hs Hc).
      destruct (generate_loop fuel sw df_all (cur + step_delta sw) end_time)
        as [ws'|] eqn:E; [|discriminate].
      intros _. apply IH in E; auto. lia.
    + intros _. unfold window_count.
      destruct (Z.leb_spec (cur + window_delta sw) end_time); lia.
Qed.

Lemma kth_window_elem sw df_all start_time k d :
  In d (kth_window sw df_all start_time k) <->
  In d df_all
  /\ start_time + Z.of_nat k * step_delta sw <= timestamp d
  /\ timestamp d < start_time + Z.of_nat k * step_delta sw + window_delta sw.
Proof.
  unfold kth_window. rewrite filter_In. unfold in_window.
  rewrite andb_true_iff, Z.leb_le, Z.ltb_lt. tauto.
Qed.

(** C4. With a positive step, the generator terminates. On an empty bulk
    load it yields nothing. Otherwise it yields exactly the windows
    [k = 0, 1, ...] for which [start_time + k*step + duration <= end_time],
    in that order, and the [k]-th one is the bulk load filtered (order
    kept) to the detections with
    [start_time + k*step <= timestamp < start_time + k*step + duration]. *)
Theorem generate_windows sw camera_ids start_time end_time :
  0 < step_delta sw ->
  let df_all := get_detections sw camera_ids start_time end_time in
  let n := window_count sw start_time end_time in
  (df_all = [] ->
   forall fuel, generate fuel sw camera_ids start_time end_time = Some [])
  /\ (df_all <> [] ->
      exists ws,
        (forall fuel, (n <= fuel)%nat ->
           generate fuel sw camera_ids start_time end_time = Some ws)
        /\ (forall fuel ws',
             generate fuel sw camera_ids start_time end_time = Some ws' -> ws' = ws)
        /\ length ws = n
        /\ (forall k, (k < n)%nat ->
             nth_error ws k = Some (kth_window sw df_all start_time k))
        /\ (forall k w d, nth_error ws k = Some w ->
             (In d w <->
              In d df_all
              /\ start_time + Z.of_nat k * step_delta sw <= timestamp d
              /\ timestamp d
                 < start_time + Z.of_nat k * step_delta sw + window_delta sw)))
  /\ (forall k : nat,
      (k < n)%nat <->
      start_time + Z.of_nat k * step_delta sw + window_delta sw <= end_time).
Proof.
  intros Hs df_all n. split; [|split].
  - intros He fuel. unfold generate. fold df_all. rewrite He. reflexivity.
  - intros Hne.
    exists (map (kth_window sw df_all start_time) (seq 0 n)).
    assert (Hgen : forall fuel,
               generate fuel sw camera_ids start_time end_time
               = generate_loop fuel sw df_all start_time end_time).
    { intros fuel. unfold generate. fold df_all.
      destruct df_all; [congruence|reflexivity]. }
    assert (Hnth : forall k, (k < n)%nat ->
               nth_error (map (kth_window sw df_all start_time) (seq 0 n)) k
               = Some (kth_window sw df_all start_time k)).
    { intros k Hk. rewrite nth_error_map, nth_error_seq.
      destruct (Nat.ltb_spec k n); [reflexivity|lia]. }
    split; [|split; [|split; [|split]]].
    + intros fuel Hf. rewrite Hgen. apply generate_loop_windows; auto.
    + intros fuel ws' Hw. rewrite Hgen in Hw.
      pose proof (generate_loop_some _ _ _ _ _ _ Hs Hw) as Hf.
      rewrite generate_loop_windows in Hw by auto.
      injection Hw as <-. reflexivity.
    + rewrite length_map, length_seq. reflexivity.
    + exact Hnth.
    + intros k w d Hw.
      assert (Hk : (k < n)%nat).
      { assert (nth_error (map (kth_window sw df_all start_time) (seq 0 n)) k <> None)
          as Hn by congruence.
        apply nth_error_Some in Hn. rewrite length_map, length_seq in Hn. exact Hn. }
      rewrite Hnth in Hw by exact Hk. injection Hw as <-.
      apply kth_window_elem.
  - intros k. apply window_count_spec. exact Hs.
Qed.

Lemma generate_windows_witness :
  0 < step_delta demo_window
  /\ exists ws,
       generate 3 demo_window [1] 0 10 = Some ws
       /\ length ws = 3%nat
       /\ nth_error ws 1 = Some [demo_detection 4].
Proof.
  split; [reflexivity|].
  destruct (generate_windows demo_window [1] 0 10 eq_refl) as (_ & Hgen & _).
  destruct Hgen as (ws & Hrun & _ & Hlen & Hk & _); [discriminate|].
  exists ws. split; [apply Hrun; vm_compute; lia|].
  split; [exact Hlen|].
  apply (Hk 1%nat). vm_compute. lia.
Defined.

End SlidingWindowFacts.

(** ** Theorems: protective-equipment extractor *)

Module EPIFacts.
Import EPIFeatures.

Example violation_window_counts :
  explicit_violations (violation_window 0) = 1
  /\ explicit_violations (compliant_window 0) = 0
  /\ explicit_violations (vehicle_window 0) = 0.
Proof. vm_compute. auto. Qed.

Lemma no_person_no_violation df :
  persons_of df = [] -> explicit_violations df = 0.
Proof.
  intros H. unfold explicit_violations. rewrite H. reflexivity.
Qed.

Lemma violation_has_person df :
  0 < explicit_violations df -> persons_of df <> [].
Proof.
  intros H E. rewrite (no_person_no_violation df E) in H. lia.
Qed.

Lemma extract_with_persons self df :
  persons_of df <> [] ->
  snd (extract self df)
  = mk (window_duration self) (persistent_threshold self) (next_count self df)
  /\ persistent_flag (fst (extract self df))
     = Some (VNum (if next_count self df >=? persistent_threshold self then 1 else 0))
  /\ violation_duration (fst (extract self df))
     = Some (VNum (inject_Z (next_count self df) * window_duration self)).
Proof.
  intros Hp. unfold extract, next_count, explicit_violations.
  destruct df as [|d df]; [contradiction Hp; reflexivity|].
  cbn [is_empty].
  destruct (persons_of (d :: df)) as [|p ps] eqn:E; [contradiction Hp; reflexivity|].
  cbn [is_empty fst snd]. repeat split.
Qed.

Lemma extract_without_persons self df :
  persons_of df = [] -> extract self df = (_empty_features, self).
Proof.
  intros Hp. unfold extract. destruct df as [|d df]; [reflexivity|].
  cbn [is_empty]. rewrite Hp. reflexivity.
Qed.

(** C10. On an empty window, and on a window without person detections,
    the extractor returns its nine-field row of zeros and leaves the
    consecutive-violation counter (the whole object) as it was. *)
Theorem extract_empty_keeps_counter self df :
  df = [] \/ persons_of df = [] ->
  extract self df = (_empty_features, self)
  /\ consecutive_violation_count (snd (extract self df))
     = consecutive_violation_count self
  /\ length _empty_features = 9%nat
  /\ Forall (fun kv => snd kv = VNum 0) _empty_features.
Proof.
  intros H.
  assert (Hp : persons_of df = []) by (destruct H as [->|H]; [reflexivity|exact H]).
  rewrite (extract_without_persons self df Hp).
  split; [reflexivity|]. split; [reflexivity|]. split; [reflexivity|].
  repeat constructor.
Qed.

Lemma extract_empty_keeps_counter_witness :
  extract (mk 2 3 2) (vehicle_window 5) = (_empty_features, mk 2 3 2)
  /\ extract (mk 2 3 2) [] = (_empty_features, mk 2 3 2).
Proof.
  split.
  - apply (extract_empty_keeps_counter (mk 2 3 2) (vehicle_window 5)).
    right. reflexivity.
  - apply (extract_empty_keeps_counter (mk 2 3 2) []). left. reflexivity.
Defined.

(** C3, as amended. With threshold 3 and the counter at zero before the
    first of three consecutive windows that each hold at least one
    explicit non-compliance event, [persistent_epi_violation] is 0, 0, 1
    over them. Every such window adds one to the counter; a window with
    persons and no violation sets it to zero; and on every window with
    persons [epi_violation_duration] is the new counter times the window
    duration. *)
Theorem persistent_violation_from_zero self w1 w2 w3 :
  persistent_threshold self = 3 ->
  consecutive_violation_count self = 0 ->
  0 < explicit_violations w1 ->
  0 < explicit_violations w2 ->
  0 < explicit_violations w3 ->
  map persistent_flag (fst (run self [w1; w2; w3]))
  = [Some (VNum 0); Some (VNum 0); Some (VNum 1)]
  /\ (forall s df, 0 < explicit_violations df ->
        consecutive_violation_count (snd (extract s df))
        = consecutive_violation_count s + 1)
  /\ (forall s df, persons_of df <> [] -> explicit_violations df = 0 ->
        consecutive_violation_count (snd (extract s df)) = 0)
  /\ (forall s df, persons_of df <> [] ->
        violation_duration (fst (extract s df))
        = Some (VNum (inject_Z (consecutive_violation_count (snd (extract s df)))
                      * window_duration s))).
Proof.
  intros Ht Hc H1 H2 H3.
  assert (Hstep : forall s df, 0 < explicit_violations df ->
            snd (extract s df)
            = mk (window_duration s) (persistent_threshold s)
                 (consecutive_violation_count s + 1)
            /\ persistent_flag (fst (extract s df))
               = Some (VNum (if consecutive_violation_count s + 1
                                >=? persistent_threshold s then 1 else 0))).
  { intros s df Hv.
    destruct (extract_with_persons s df (violation_has_person df Hv)) as (E1 & E2 & _).
    unfold next_count in *.
    destruct (Z.gtb_spec (explicit_violations df) 0); [auto|lia]. }
  split; [|split; [|split]].
  - cbn [run].
    destruct (Hstep self w1 H1) as [S1 P1].
    destruct (extract self w1) as [r1 s1]. cbn [fst snd] in *.
    destruct (Hstep s1 w2 H2) as [S2 P2].
    destruct (extract s1 w2) as [r2 s2]. cbn [fst snd] in *.
    destruct (Hstep s2 w3 H3) as [S3 P3].
    destruct (extract s2 w3) as [r3 s3]. cbn [fst snd map] in *.
    rewrite P1, P2, P3. subst s1 s2. cbn [consecutive_violation_count persistent_threshold].
    rewrite Ht, Hc. reflexivity.
  - intros s df Hv. destruct (Hstep s df Hv) as [-> _]. reflexivity.
  - intros s df Hp Hz.
    destruct (extract_with_persons s df Hp) as (-> & _).
    unfold next_count. rewrite Hz. reflexivity.
  - intros s df Hp.
    destruct (extract_with_persons s df Hp) as (E1 & _ & E3).
    rewrite E3, E1. reflexivity.
Qed.

Lemma persistent_violation_from_zero_witness :
  map persistent_flag
      (fst (run (init 2 3) [violation_window 0; violation_window 1; violation_window 2]))
  = [Some (VNum 0); Some (VNum 0); Some (VNum 1)].
Proof.
  apply (persistent_violation_from_zero (init 2 3)
           (violation_window 0) (violation_window 1) (violation_window 2));
    vm_compute; reflexivity.
Defined.

(** C3 as stated fails twice. Of four consecutive violation windows, the
    last three are three consecutive violation windows, and the flag over
    them is 0, 1, 1. And after one violation window, a window without
    persons reports a duration of 0 while the counter stays at 1. *)
Lemma persistent_violation_counterexample :
  let ws := [violation_window 0; violation_window 1;
             violation_window 2; violation_window 3] in
  Forall (fun df => 0 < explicit_violations df) ws
  /\ map persistent_flag (tl (fst (run (init 2 3) ws)))
     = [Some (VNum 0); Some (VNum 1); Some (VNum 1)]
  /\ map persistent_flag (tl (fst (run (init 2 3) ws)))
     <> [Some (VNum 0); Some (VNum 0); Some (VNum 1)]
  /\ (let '(rows, self) := run (init 2 3) [violation_window 0; vehicle_window 1] in
      map violation_duration rows = [Some (VNum 2); Some (VNum 0)]
      /\ consecutive_violation_count self = 1
      /\ ~ (0 == inject_Z (consecutive_violation_count self) * window_duration self)%Q).
Proof.
  cbv zeta. split; [|split; [|split]].
  - repeat constructor.
  - vm_compute. reflexivity.
  - vm_compute. discriminate.
  - vm_compute. split; [reflexivity|]. split; [reflexivity|]. discriminate.
Qed.

End EPIFacts.

(** ** Theorems: numpy and deque *)

Module NumpyFacts.
Import Numpy.

Lemma sum_repeat c m : (sum (repeat c m) == inject_Z (Z.of_nat m) * c)%Q.
Proof.
  induction m as [|m IH].
  - simpl. ring.
  - cbn [repeat sum fold_right]. fold (sum (repeat c m)). rewrite IH.
    rewrite Nat2Z.inj_succ. unfold Z.succ. rewrite inject_Z_plus. ring.
Qed.

Lemma len_pos (xs : list Q) : xs <> [] -> (0 < len xs)%Q.
Proof.
  intros H. unfold len. destruct xs as [|x xs]; [congruence|].
  replace 0%Q with (inject_Z 0) by reflexivity. rewrite <- Zlt_Qlt.
  simpl length. lia.
Qed.

Lemma mean_repeat c m : (0 < m)%nat -> (mean (repeat c m) == c)%Q.
Proof.
  intros Hm. unfold mean. rewrite sum_repeat. unfold len. rewrite repeat_length.
  assert (0 < inject_Z (Z.of_nat m))%Q.
  { replace 0%Q with (inject_Z 0) by reflexivity. rewrite <- Zlt_Qlt. lia. }
  field. intros E. rewrite E in H. apply (Qlt_irrefl 0). exact H.
Qed.

Lemma sum_zero xs : Forall (fun x => x == 0)%Q xs -> (sum xs == 0)%Q.
Proof.
  induction 1 as [|x xs Hx _ IH]; simpl; [reflexivity|].
  fold (sum xs). rewrite Hx, IH. reflexivity.
Qed.

Lemma var_repeat c m : (0 < m)%nat -> (var (repeat c m) == 0)%Q.
Proof.
  intros Hm. unfold var.
  set (mu := mean (repeat c m)).
  assert (Hmu : (mu == c)%Q) by (apply mean_repeat; exact Hm).
  unfold mean at 1.
  assert (Hs : (sum (map (fun x : Q => (x - mu) * (x - mu)) (repeat c m)) == 0)%Q).
  { apply sum_zero. apply List.Forall_map. apply List.Forall_forall. intros x Hx.
    apply repeat_spec in Hx. subst x. rewrite Hmu. ring. }
  rewrite Hs. unfold Qdiv. ring.
Qed.

Lemma clip_zero : clip 0 0 1 = 0%Q.
Proof. reflexivity. Qed.

Lemma py_floats_numbers (xs : list Q) : py_floats (map VNum xs) = ok xs.
Proof.
  induction xs as [|x xs IH]; [reflexivity|]. cbn. rewrite IH. reflexivity.
Qed.

Lemma length_deque_append {A : Type} (n : nat) (dq : list A) (x : A) :
  length (deque_append n dq x) = Nat.min (length dq + 1) n.
Proof.
  unfold deque_append. rewrite length_skipn, length_app. simpl. lia.
Qed.

Lemma deque_append_repeat {A : Type} (n m : nat) (c : A) :
  deque_append n (repeat c m) c = repeat c (Nat.min (m + 1) n).
Proof.
  unfold deque_append.
  replace (repeat c m ++ [c]) with (repeat c (m + 1))
    by (rewrite repeat_app; reflexivity).
  rewrite repeat_length.
  replace (m + 1)%nat with ((m + 1 - n) + Nat.min (m + 1) n)%nat at 2 by lia.
  rewrite repeat_app, skipn_app, repeat_length.
  rewrite skipn_all2 by (rewrite repeat_length; lia).
  replace (m + 1 - n - (m + 1 - n))%nat with 0%nat by lia.
  reflexivity.
Qed.

Lemma deque_append_skipn {A : Type} (maxlen : nat) (dq : list A) (x : A) :
  deque_append maxlen dq x = skipn (length dq + 1 - maxlen) (dq ++ [x]).
Proof. unfold deque_append. rewrite length_app. reflexivity. Qed.

End NumpyFacts.

(** ** Theorems: activity transition *)

Module TransitionFacts.
Import ActivityTransitionFeatures.

Lemma extract_history_length sqrtf ov self cf out self' :
  extract sqrtf ov self cf = ok (out, self') ->
  history_size self' = history_size self
  /\ length (_person_count_history self')
     = Nat.min (length (_person_count_history self) + 1) (history_size self).
Proof.
  unfold extract, int_round_std.
  destruct (length (_person_count_history self) <? 2)%nat.
  - intros E. injection E as _ <-. cbn.
    rewrite NumpyFacts.length_deque_append. auto.
  - destruct (py_floats (_person_count_history self)); cbn; [discriminate|].
    destruct (py_float _); cbn; [discriminate|].
    destruct (py_floats (_zone_count_history self)) as [|zh]; cbn; [discriminate|].
    destruct (ov zh); cbn; [discriminate|].
    destruct (py_floats (_high_risk_history self)); cbn; [discriminate|].
    intros E. injection E as _ <-. cbn.
    rewrite NumpyFacts.length_deque_append. auto.
Qed.

Lemma run_history_length sqrtf ov rows : forall self outs self',
  (length (_person_count_history self) <= history_size self)%nat ->
  run sqrtf ov self rows = ok (outs, self') ->
  length (_person_count_history self')
  = Nat.min (length (_person_count_history self) + length rows) (history_size self).
Proof.
  induction rows as [|r rows IH]; intros self outs self' Hle; cbn [run].
  - intros E. injection E as _ <-. simpl. lia.
  - destruct (extract sqrtf ov self r) as [e|[o s1]] eqn:E1; cbn; [discriminate|].
    destruct (run sqrtf ov s1 rows) as [e|[os s2]] eqn:E2; cbn; [discriminate|].
    intros E. injection E as _ <-.
    destruct (extract_history_length _ _ _ _ _ _ E1) as [Hs Hl].
    assert (Hle1 : (length (_person_count_history s1) <= history_size s1)%nat)
      by (rewrite Hs, Hl; lia).
    rewrite (IH _ _ _ Hle1 E2). rewrite Hs, Hl. simpl. lia.
Qed.

Lemma Qlt_bool_spec (a b : Q) :
  (Numpy.Qlt_bool a b = true <-> (a < b)%Q)
  /\ (Numpy.Qlt_bool a b = false <-> (b <= a)%Q).
Proof.
  unfold Numpy.Qlt_bool. destruct (Qle_bool b a) eqn:E; simpl.
  - apply Qle_bool_iff in E. split; split; intros H; try discriminate; auto.
    exfalso. apply (Qlt_not_le _ _ H). exact E.
  - assert (~ (b <= a)%Q) by (intros H; apply Qle_bool_iff in H; congruence).
    split; split; intros H'; try discriminate; auto.
    + apply Qnot_le_lt. exact H.
    + contradiction.
Qed.

Lemma py_floats_inv vs : forall qs, py_floats vs = ok qs -> vs = map VNum qs.
Proof.
  induction vs as [|v vs IH]; intros qs E; cbn in E.
  - injection E as <-. reflexivity.
  - destruct v as [q| |t]; cbn in E; try discriminate.
    destruct (py_floats vs) as [|qs']; cbn in E; [discriminate|].
    injection E as <-. cbn. rewrite (IH qs' eq_refl). reflexivity.
Qed.

(** What a call past the warm-up computes, when it returns. *)
Lemma extract_past_warm_up sqrtf ov self cf out self' :
  (2 <= length (_person_count_history self))%nat ->
  extract sqrtf ov self cf = ok (out, self') ->
  exists ph zh hh cur,
    _person_count_history self = map VNum ph
    /\ _zone_count_history self = map VNum zh
    /\ _high_risk_history self = map VNum hh
    /\ dict_get_default cf "avg_num_persons" (VNum 0) = VNum cur
    /\ ov zh = false
    /\ out = [ ("activity_change_rate",
                VNum (Numpy.clip
                        (if Numpy.Qlt_bool 0 (Numpy.mean ph)
                         then Qabs (cur - Numpy.mean ph) / (Numpy.mean ph + Numpy.eps)
                         else 0) 0 1));
               ("zone_transition_count",
                VNum (inject_Z (Numpy.round (Numpy.std sqrtf zh))));
               ("risk_transition_score",
                VNum (Numpy.clip
                        (Numpy.std sqrtf hh / (Numpy.mean hh + Numpy.eps)) 0 1)) ]
    /\ self' = _update_history self
                 (dict_get_default cf "avg_num_persons" (VNum 0))
                 (dict_get_default cf "num_persons_in_zone" (VNum 0))
                 (dict_get_default cf "num_people_in_high_risk_zone" (VNum 0)).
Proof.
  intros Hlen. unfold extract, int_round_std.
  destruct (Nat.ltb_spec (length (_person_count_history self)) 2) as [Hlt|_]; [lia|].
  destruct (py_floats (_person_count_history self)) as [|ph] eqn:Ep; cbn [rbind];
    [discriminate|].
  destruct (dict_get_default cf "avg_num_persons" (VNum 0)) as [cur| |tm] eqn:Ec;
    cbn [py_float rbind ok raise]; try discriminate.
  destruct (py_floats (_zone_count_history self)) as [|zh] eqn:Ez; cbn [rbind];
    [discriminate|].
  destruct (ov zh) eqn:Eo; cbn [rbind ok raise]; [discriminate|].
  destruct (py_floats (_high_risk_history self)) as [|hh] eqn:Eh; cbn [rbind];
    [discriminate|].
  intros E. injection E as <- <-.
  exists ph, zh, hh, cur.
  split; [apply py_floats_inv; exact Ep|]. split; [apply py_floats_inv; exact Ez|].
  split; [apply py_floats_inv; exact Eh|]. split; [reflexivity|].
  split; [exact Eo|]. split; reflexivity.
Qed.

(** With a capacity below 2 the warm-up never ends. *)
Lemma run_stays_in_warm_up sqrtf ov hs rows : forall self outs self',
  (hs < 2)%nat ->
  history_size self = hs ->
  (length (_person_count_history self) <= hs)%nat ->
  run sqrtf ov self rows = ok (outs, self') ->
  Forall (fun o => o = _empty_features) outs.
Proof.
  induction rows as [|r rows IH]; intros self outs self' Hhs Hh Hlen; cbn [run].
  - intros E. injection E as <- _. constructor.
  - unfold extract at 1.
    destruct (Nat.ltb_spec (length (_person_count_history self)) 2) as [_|Hge]; [|lia].
    cbn [rbind ok fst snd].
    destruct (run sqrtf ov _ rows) as [e|[os s2]] eqn:E2; cbn; [discriminate|].
    intros E. injection E as <- _. constructor; [reflexivity|].
    refine (IH _ _ _ Hhs _ _ E2); [exact Hh|].
    unfold _update_history. cbn [_person_count_history history_size].
    rewrite NumpyFacts.length_deque_append. lia.
Qed.

(** C5, as amended. Take a call made when the person-count history
    holds two or more samples, and that returns. Its
    [activity_change_rate] is
    [clip(|current - mean(history)| / (mean(history) + eps), 0, 1)] when
    [mean(history) > 0] and 0 otherwise, over the history before the
    call. The whole returned row is computed before the current sample
    is stored: it is the same whatever the current row reports for the
    zone and high-risk counts, and the object after the call is the old
    one with the current sample appended to each of its three bounded
    histories. With a capacity of 2 or more these calls are the third
    and later ones; with a capacity below 2 there is no such call, and
    every call returns the zero row. *)
Theorem change_rate_from_prior_history sqrtf std_overflows self cf out self' :
  (2 <= length (_person_count_history self))%nat ->
  extract sqrtf std_overflows self cf = ok (out, self') ->
  (exists history current rate zone_count risk,
      _person_count_history self = map VNum history
      /\ dict_get_default cf "avg_num_persons" (VNum 0) = VNum current
      /\ out = [ ("activity_change_rate", VNum rate);
                 ("zone_transition_count", VNum zone_count);
                 ("risk_transition_score", VNum risk) ]
      /\ ((0 < Numpy.mean history)%Q ->
          rate = Numpy.clip (Qabs (current - Numpy.mean history)
                             / (Numpy.mean history + Numpy.eps)) 0 1)
      /\ ((Numpy.mean history <= 0)%Q -> rate = 0%Q)
      /\ (forall cf2 : row,
            dict_get_default cf2 "avg_num_persons" (VNum 0) = VNum current ->
            exists s2, extract sqrtf std_overflows self cf2 = ok (out, s2)))
  /\ self'
     = mk (history_size self) (person_change_threshold self)
          (skipn (length (_person_count_history self) + 1 - history_size self)
                 (_person_count_history self
                  ++ [dict_get_default cf "avg_num_persons" (VNum 0)]))
          (skipn (length (_zone_count_history self) + 1 - history_size self)
                 (_zone_count_history self
                  ++ [dict_get_default cf "num_persons_in_zone" (VNum 0)]))
          (skipn (length (_high_risk_history self) + 1 - history_size self)
                 (_high_risk_history self
                  ++ [dict_get_default cf "num_people_in_high_risk_zone" (VNum 0)]))
  /\ (forall hs thr rows outs s,
        (2 <= hs)%nat -> (2 <= length rows)%nat ->
        run sqrtf std_overflows (init hs thr) rows = ok (outs, s) ->
        (2 <= length (_person_count_history s))%nat)
  /\ (forall hs thr rows outs s,
        (hs < 2)%nat ->
        run sqrtf std_overflows (init hs thr) rows = ok (outs, s) ->
        (length (_person_count_history s) < 2)%nat
        /\ Forall (fun o => o = [ ("activity_change_rate", VNum 0);
                                  ("zone_transition_count", VNum 0);
                                  ("risk_transition_score", VNum 0) ]) outs).
Proof.
  intros Hlen E.
  destruct (extract_past_warm_up _ _ _ _ _ _ Hlen E)
    as (ph & zh & hh & cur & Hp & Hz & Hh & Hcur & Ho & Hout & Hs).
  split; [|split; [|split]].
  - exists ph, cur. eexists _, _, _. split; [exact Hp|]. split; [exact Hcur|].
    split; [exact Hout|].
    destruct (Qlt_bool_spec 0 (Numpy.mean ph)) as [Ht Hf].
    destruct (Numpy.Qlt_bool 0 (Numpy.mean ph)) eqn:Eb.
    + split; [intros _; reflexivity|]. split.
      * intros Hle. exfalso.
        apply (Qlt_not_le 0 (Numpy.mean ph)); [apply Ht; reflexivity|exact Hle].
      * intros cf2 Hcur2. unfold extract, int_round_std.
        destruct (Nat.ltb_spec (length (_person_count_history self)) 2) as [Hlt|_];
          [lia|].
        rewrite Hp, Hz, Hh, Hcur2, !NumpyFacts.py_floats_numbers.
        cbn [rbind ok py_float]. rewrite Ho, Eb. cbn [rbind ok].
        eexists. rewrite Hout. reflexivity.
    + split; [|split].
      * intros Hlt. exfalso. apply (Qlt_not_le 0 _ Hlt). apply Hf. reflexivity.
      * intros _. reflexivity.
      * intros cf2 Hcur2. unfold extract, int_round_std.
        destruct (Nat.ltb_spec (length (_person_count_history self)) 2) as [Hlt|_];
          [lia|].
        rewrite Hp, Hz, Hh, Hcur2, !NumpyFacts.py_floats_numbers.
        cbn [rbind ok py_float]. rewrite Ho, Eb. cbn [rbind ok].
        eexists. rewrite Hout. reflexivity.
  - rewrite Hs. unfold _update_history. rewrite !NumpyFacts.deque_append_skipn. reflexivity.
  - intros hs thr rows outs s Hhs Hrows Hrun.
    apply run_history_length in Hrun; [|simpl; lia].
    rewrite Hrun. simpl. lia.
  - intros hs thr rows outs s Hhs Hrun. split.
    + apply run_history_length in Hrun; [|simpl; lia].
      rewrite Hrun. simpl. lia.
    + apply (run_stays_in_warm_up sqrtf std_overflows hs rows (init hs thr) outs s);
        [exact Hhs|reflexivity|simpl; lia|exact Hrun].
Qed.

Lemma change_rate_from_prior_history_witness :
  exists out self',
    extract Numpy.sqrt_floor squares_overflow
            (mk 5 (1 # 2) [VNum 4; VNum 4] [VNum 0; VNum 0] [VNum 0; VNum 0])
            (persons_row 6)
    = ok (out, self')
    /\ self' = mk 5 (1 # 2) [VNum 4; VNum 4; VNum 6] [VNum 0; VNum 0; VNum 0]
                  [VNum 0; VNum 0; VNum 0]
    /\ exists rate,
        dict_get out "activity_change_rate" = Some (VNum rate)
        /\ (rate == 2000000 # 4000001)%Q.
Proof.
  destruct (extract Numpy.sqrt_floor squares_overflow
              (mk 5 (1 # 2) [VNum 4; VNum 4] [VNum 0; VNum 0] [VNum 0; VNum 0])
              (persons_row 6)) as [e|[out s']] eqn:E; [vm_compute in E; discriminate|].
  exists out, s'. split; [reflexivity|].
  assert (Hlen : (2 <= length (_person_count_history
                                 (mk 5 (1 # 2) [VNum 4; VNum 4] [VNum 0; VNum 0]
                                     [VNum 0; VNum 0])))%nat) by (simpl; lia).
  destruct (change_rate_from_prior_history _ _ _ _ _ _ Hlen E)
    as ((history & current & rate & zc & risk & Hh & Hc & Hout & Hpos & _) & Hs & _).
  injection Hc as <-.
  assert (Hhist : history = [4; 4]%Q).
  { cbn in Hh. destruct history as [|h1 [|h2 [|h3 history]]]; try discriminate.
    injection Hh as <- <-. reflexivity. }
  subst history.
  split; [rewrite Hs; reflexivity|].
  exists rate. split; [rewrite Hout; reflexivity|].
  rewrite Hpos by (vm_compute; reflexivity). vm_compute. reflexivity.
Defined.

(** C5 as stated fails in two ways. When the prior mean is zero: after
    two windows without persons, a window with five persons gets a
    change rate of 0, where the formula of the claim gives 1. And when
    the history cannot hold two samples: with [history_size = 1] the
    third call, on 6 persons after two windows of 4, is still a warm-up
    call and returns 0, where the formula over the history [4] gives
    2000000/4000001. *)
Lemma change_rate_counterexample :
  let formula (history : list Q) (current : Q) :=
    Numpy.clip (Qabs (current - Numpy.mean history)
                / (Numpy.mean history + Numpy.eps)) 0 1 in
  (exists outs self,
      run Numpy.sqrt_floor squares_overflow (init 5 (1 # 2)) [persons_row 0; persons_row 0]
      = ok (outs, self)
      /\ _person_count_history self = map VNum [0; 0]%Q
      /\ (exists out self',
             extract Numpy.sqrt_floor squares_overflow self (persons_row 5) = ok (out, self')
             /\ dict_get out "activity_change_rate" = Some (VNum 0))
      /\ (formula [0; 0] 5 == 1)%Q)
  /\ (exists outs self,
        run Numpy.sqrt_floor squares_overflow (init 1 (1 # 2)) [persons_row 4; persons_row 4]
        = ok (outs, self)
        /\ _person_count_history self = map VNum [4]%Q
        /\ (exists out self',
               extract Numpy.sqrt_floor squares_overflow self (persons_row 6) = ok (out, self')
               /\ dict_get out "activity_change_rate" = Some (VNum 0))
        /\ (formula [4] 6 == 2000000 # 4000001)%Q)
  /\ ~ (0 == 1)%Q
  /\ ~ (0 == 2000000 # 4000001)%Q.
Proof.
  cbv zeta. split; [|split; [|split]].
  - eexists _, _. split; [vm_compute; reflexivity|].
    split; [reflexivity|]. split; [|vm_compute; reflexivity].
    eexists _, _. split; [vm_compute; reflexivity|]. reflexivity.
  - eexists _, _. split; [vm_compute; reflexivity|].
    split; [reflexivity|]. split; [|vm_compute; reflexivity].
    eexists _, _. split; [vm_compute; reflexivity|]. reflexivity.
  - discriminate.
  - discriminate.
Qed.

End TransitionFacts.

(** ** Theorems: activity stability *)

Module StabilityFacts.
Import ActivityStabilityFeatures.

Lemma update_steady hs a c e m :
  _update_history (steady hs a c e m) a c e = steady hs a c e (Nat.min (m + 1) hs).
Proof.
  unfold _update_history, steady.
  cbn [history_size _speed_history _person_count_history _motion_score_history].
  rewrite !NumpyFacts.deque_append_repeat. reflexivity.
Qed.

Lemma extract_scores sqrtf self cf a c e :
  reads cf a c e ->
  let self' := _update_history self a c e in
  (2 <= length (_speed_history self'))%nat ->
  exists out,
    extract sqrtf self cf = ok (out, self')
    /\ persistence out
       = Some (VNum (1 / (1 + Numpy.std sqrtf (_person_count_history self')))).
Proof.
  intros (Ha & Hc & He) self' Hlen. unfold extract.
  rewrite Ha, Hc, He. cbn [rbind ok]. fold self'.
  destruct (Nat.ltb_spec (length (_speed_history self')) 2) as [Hlt|_]; [lia|].
  eexists. split; reflexivity.
Qed.

Lemma extract_neutral sqrtf self cf a c e :
  reads cf a c e ->
  let self' := _update_history self a c e in
  (length (_speed_history self') < 2)%nat ->
  extract sqrtf self cf = ok (neutral, self').
Proof.
  intros (Ha & Hc & He) self' Hlen. unfold extract.
  rewrite Ha, Hc, He. cbn [rbind ok]. fold self'.
  destruct (Nat.ltb_spec (length (_speed_history self')) 2) as [_|Hge]; [|lia].
  reflexivity.
Qed.

(** A call that returns has read three numbers and stored them. *)
Lemma extract_returns sqrtf self cf out self' :
  extract sqrtf self cf = ok (out, self') ->
  exists a c e,
    reads cf a c e
    /\ self' = _update_history self a c e
    /\ ((length (_speed_history self') < 2)%nat -> out = neutral).
Proof.
  unfold extract, reads.
  destruct (py_float (dict_get_default cf "avg_person_speed" (VNum 0))) as [|a];
    cbn [rbind]; [discriminate|].
  destruct (py_float (dict_get_default cf "avg_num_persons" (VNum 0))) as [|c];
    cbn [rbind]; [discriminate|].
  destruct (py_float (dict_get_default cf "erratic_motion_score" (VNum 0))) as [|e];
    cbn [rbind]; [discriminate|].
  intros E. exists a, c, e. split; [auto|].
  destruct (Nat.ltb_spec (length (_speed_history (_update_history self a c e))) 2)
    as [Hlt|Hge]; injection E as <- <-; (split; [reflexivity|]); intros H;
    [reflexivity|lia].
Qed.

Lemma persistence_of_constant sqrtf c m :
  (forall q, q == 0 -> sqrtf q == 0)%Q ->
  (0 < m)%nat ->
  (1 / (1 + Numpy.std sqrtf (repeat c m)) == 1)%Q.
Proof.
  intros Hsqrt Hm. unfold Numpy.std.
  rewrite (Hsqrt _ (NumpyFacts.var_repeat c m Hm)). reflexivity.
Qed.

Lemma run_steady sqrtf cf a c e hs n :
  reads cf a c e ->
  (forall q, q == 0 -> sqrtf q == 0)%Q ->
  (2 <= hs)%nat ->
  forall m,
  exists outs self',
    run sqrtf (steady hs a c e m) (repeat cf n) = ok (outs, self')
    /\ length outs = n
    /\ forall k o, nth_error outs k = Some o -> (1 <= m + k)%nat ->
         exists q, persistence o = Some (VNum q) /\ (q == 1)%Q.
Proof.
  intros Hr Hsqrt Hhs. induction n as [|n IH]; intros m.
  - exists [], (steady hs a c e m). split; [reflexivity|]. split; [reflexivity|].
    intros [|k] o Hk; discriminate.
  - cbn [repeat run].
    set (m' := Nat.min (m + 1) hs).
    destruct (IH m') as (outs & s' & Hrun & Hlen & Hout).
    destruct (Nat.ltb_spec m' 2) as [Hlt|Hge].
    + pose proof (extract_neutral sqrtf (steady hs a c e m) cf a c e Hr) as E.
      rewrite update_steady in E. fold m' in E. cbv zeta in E.
      rewrite E by (cbn; rewrite repeat_length; exact Hlt).
      cbn [rbind ok fst snd]. rewrite Hrun. cbn [rbind ok fst snd].
      eexists _, _. split; [reflexivity|]. split; [simpl; lia|].
      intros [|k] o Hk Hmk; cbn in Hk.
      * unfold m' in Hlt. lia.
      * apply (Hout k o Hk). unfold m'. lia.
    + destruct (extract_scores sqrtf (steady hs a c e m) cf a c e Hr) as (o0 & E & Ho0).
      { rewrite update_steady. cbn. rewrite repeat_length. exact Hge. }
      rewrite update_steady in E, Ho0. fold m' in E, Ho0.
      rewrite E. cbn [rbind ok fst snd]. rewrite Hrun. cbn [rbind ok fst snd].
      eexists _, _. split; [reflexivity|]. split; [simpl; lia|].
      intros [|k] o Hk Hmk; cbn in Hk.
      * injection Hk as <-. eexists. split; [exact Ho0|].
        cbn [steady _person_count_history].
        apply persistence_of_constant; [exact Hsqrt|lia].
      * apply (Hout k o Hk). unfold m'. lia.
Qed.

(** With a capacity below 2 the histories never hold two samples. *)
Lemma run_stays_neutral sqrtf hs rows : forall self outs self',
  (hs < 2)%nat ->
  history_size self = hs ->
  run sqrtf self rows = ok (outs, self') ->
  Forall (fun o => o = neutral) outs.
Proof.
  induction rows as [|r rows IH]; intros self outs self' Hhs Hh; cbn [run].
  - intros E. injection E as <- _. constructor.
  - destruct (extract sqrtf self r) as [x|[o s1]] eqn:E1; cbn; [discriminate|].
    destruct (run sqrtf s1 rows) as [x|[os s2]] eqn:E2; cbn; [discriminate|].
    intros E. injection E as <- _.
    destruct (extract_returns _ _ _ _ _ E1) as (a & c & e & _ & Hs1 & Hn).
    constructor.
    + apply Hn. subst s1. unfold _update_history. cbn [_speed_history].
      rewrite NumpyFacts.length_deque_append. lia.
    + apply (IH s1 os s2 Hhs); [subst s1; exact Hh|exact E2].
Qed.

(** C8, as amended. Let the three fields a call reads be numbers (an
    absent field reads as 0). The call first appends them to the three
    bounded histories, and then looks at the length: with fewer than two
    samples it returns exactly (0.5, 0.5, 0.5), otherwise
    [activity_persistence_score] is [1 / (1 + std(person_count_history))]
    over the history that includes the current sample. So the first call
    on a fresh extractor returns (0.5, 0.5, 0.5); with a capacity below 2
    every call does; and with a capacity of 2 or more, a constant integer
    person count [k] with [|k| * history_size <= 2^53] (the sums of the
    history are then exact on doubles) scores exactly 1 on every call
    but the first. *)
Theorem stability_neutral_then_persistent sqrtf self cf a c e :
  reads cf a c e ->
  (exists out speeds persons scores,
      speeds = skipn (length (_speed_history self) + 1 - history_size self)
                     (_speed_history self ++ [a])
      /\ persons = skipn (length (_person_count_history self) + 1 - history_size self)
                         (_person_count_history self ++ [c])
      /\ scores = skipn (length (_motion_score_history self) + 1 - history_size self)
                        (_motion_score_history self ++ [e])
      /\ extract sqrtf self cf = ok (out, mk (history_size self) speeds persons scores)
      /\ ((length speeds < 2)%nat ->
          out = [ ("activity_persistence_score", VNum (1 # 2));
                  ("motion_consistency", VNum (1 # 2));
                  ("motion_stability_score", VNum (1 # 2)) ])
      /\ ((2 <= length speeds)%nat ->
          dict_get out "activity_persistence_score"
          = Some (VNum (1 / (1 + Numpy.std sqrtf persons)))))
  /\ (forall hs,
        extract sqrtf (init hs) cf
        = ok ([ ("activity_persistence_score", VNum (1 # 2));
                ("motion_consistency", VNum (1 # 2));
                ("motion_stability_score", VNum (1 # 2)) ],
              if (hs =? 0)%nat then mk 0 [] [] [] else mk hs [a] [c] [e]))
  /\ (forall hs rows outs s,
        (hs < 2)%nat ->
        run sqrtf (init hs) rows = ok (outs, s) ->
        Forall (fun o => o = [ ("activity_persistence_score", VNum (1 # 2));
                               ("motion_consistency", VNum (1 # 2));
                               ("motion_stability_score", VNum (1 # 2)) ]) outs)
  /\ (forall hs n k,
        (2 <= hs)%nat ->
        c = inject_Z k ->
        Z.abs k * Z.of_nat hs <= 2 ^ 53 ->
        (forall q, q == 0 -> sqrtf q == 0)%Q ->
        exists outs s,
          run sqrtf (init hs) (repeat cf n) = ok (outs, s)
          /\ length outs = n
          /\ forall i o, (1 <= i)%nat -> nth_error outs i = Some o ->
               exists q, dict_get o "activity_persistence_score" = Some (VNum q)
                         /\ (q == 1)%Q).
Proof.
  intros Hr. split; [|split; [|split]].
  - assert (Hup : _update_history self a c e
                  = mk (history_size self)
                       (skipn (length (_speed_history self) + 1 - history_size self)
                              (_speed_history self ++ [a]))
                       (skipn (length (_person_count_history self) + 1
                               - history_size self)
                              (_person_count_history self ++ [c]))
                       (skipn (length (_motion_score_history self) + 1
                               - history_size self)
                              (_motion_score_history self ++ [e]))).
    { unfold _update_history. rewrite !NumpyFacts.deque_append_skipn. reflexivity. }
    destruct (Nat.ltb_spec
                (length (skipn (length (_speed_history self) + 1 - history_size self)
                               (_speed_history self ++ [a]))) 2) as [Hlt|Hge].
    + pose proof (extract_neutral sqrtf self cf a c e Hr) as E. cbv zeta in E.
      rewrite Hup in E. cbn [_speed_history] in E. specialize (E Hlt).
      exists neutral. eexists _, _, _. split; [reflexivity|]. split; [reflexivity|].
      split; [reflexivity|]. split; [exact E|]. split; [reflexivity|lia].
    + pose proof (extract_scores sqrtf self cf a c e Hr) as E. cbv zeta in E.
      rewrite Hup in E. cbn [_speed_history _person_count_history] in E.
      destruct (E Hge) as (out & Eo & Hp).
      exists out. eexists _, _, _. split; [reflexivity|]. split; [reflexivity|].
      split; [reflexivity|]. split; [exact Eo|]. split; [lia|]. intros _. exact Hp.
  - intros hs. pose proof (extract_neutral sqrtf (init hs) cf a c e Hr) as E.
    cbv zeta in E. destruct hs as [|hs].
    + apply E. cbn. lia.
    + replace (_update_history (init (S hs)) a c e) with (mk (S hs) [a] [c] [e]) in E.
      * apply E. cbn. lia.
      * unfold _update_history, init, deque_append. cbn.
        replace (1 - S hs)%nat with 0%nat by lia. reflexivity.
  - intros hs rows outs s Hhs E.
    apply (run_stays_neutral sqrtf hs rows (init hs) outs s Hhs eq_refl E).
  - intros hs n k Hhs _ _ Hsqrt.
    destruct (run_steady sqrtf cf a c e hs n Hr Hsqrt Hhs 0%nat)
      as (outs & s' & Hrun & Hlen & Hout).
    exists outs, s'. split; [exact Hrun|]. split; [exact Hlen|].
    intros i o Hi Ho. apply (Hout i o Ho). lia.
Qed.

Lemma sqrt_floor_zero q : (q == 0 -> Numpy.sqrt_floor q == 0)%Q.
Proof.
  intros H. unfold Qeq in H. simpl in H. rewrite Z.mul_1_r in H.
  unfold Numpy.sqrt_floor. rewrite H. reflexivity.
Qed.

Lemma stability_neutral_then_persistent_witness :
  exists out,
    extract Numpy.sqrt_floor (mk 5 [1%Q] [3%Q] [0%Q]) steady_row
    = ok (out, mk 5 [1; 1]%Q [3; 3]%Q [0; 0]%Q)
    /\ exists q, dict_get out "activity_persistence_score" = Some (VNum q)
                 /\ (q == 1)%Q.
Proof.
  destruct (stability_neutral_then_persistent Numpy.sqrt_floor
              (mk 5 [1%Q] [3%Q] [0%Q]) steady_row 1 3 0
              (conj eq_refl (conj eq_refl eq_refl)))
    as ((out & speeds & persons & scores & -> & -> & -> & E & _ & Hp) & _).
  exists out. split; [exact E|].
  eexists. split; [apply Hp; cbn; lia|]. vm_compute. reflexivity.
Defined.

(** C8 as stated fails in two ways. With [history_size = 1] the
    histories never hold two samples: a constant input scores 0.5 on
    every call, the third included. And on doubles the mean of three
    samples of 1.4 is 1.3999999999999997, so the standard deviation of
    the constant history is not 0 and the score of the third call is
    0.9999999999999998, the double just below 1. *)
Lemma constant_persistence_counterexample :
  (exists outs s,
      run Numpy.sqrt_floor (init 1) (repeat steady_row 3) = ok (outs, s)
      /\ map (fun o => dict_get o "activity_persistence_score") outs
         = [ Some (VNum (1 # 2)); Some (VNum (1 # 2)); Some (VNum (1 # 2)) ])
  /\ ~ (1 # 2 == 1)%Q
  /\ (let history :=
        [ Double.one_point_four; Double.one_point_four; Double.one_point_four ] in
      PrimFloat.ltb (Double.mean history) Double.one_point_four = true
      /\ PrimFloat.ltb (Double.activity_persistence_score history) (Double.of_Z 1)
         = true
      /\ FloatOps.Prim2SF (Double.activity_persistence_score history)
         = SpecFloat.S754_finite false 9007199254740990 (-53)).
Proof.
  split; [|split].
  - eexists _, _. split; [vm_compute; reflexivity|]. reflexivity.
  - discriminate.
  - cbv zeta. repeat split; vm_compute; reflexivity.
Qed.

End StabilityFacts.

(** ** Theorems: proximity extractor *)

Module ProximityFacts.
Import ProximityFeatures.

(** C9 (the code departs from the claim). The distances are taken
    between the stored anchors [(bbox_x, bbox_y)], the top-left corners,
    not between the box centers: for two persons, and for a person and a
    vehicle, whose boxes share a corner and differ in size, the code
    measures a distance of [sqrt 0] where the centers are [sqrt 25]
    apart, and the row reports a minimum and a mean of 0 where the
    centroid distance is 5. *)
Theorem distances_between_anchors :
  (forall sqrtf,
      _pairwise_distances sqrtf [small_person; tall_person] = [sqrtf 0%Q]
      /\ (exists d, centroid_pairwise_distances sqrtf [small_person; tall_person]
                    = [sqrtf d] /\ d == 25)%Q
      /\ _cross_distances sqrtf [small_person] [parked_vehicle] = [sqrtf 0%Q]
      /\ (exists d, centroid_cross_distances sqrtf [small_person] [parked_vehicle]
                    = [sqrtf d] /\ d == 25)%Q)
  /\ (forall euclidean_distance,
        let r := extract Numpy.sqrt_floor euclidean_distance (init 2)
                         [small_person; tall_person] in
        dict_get r "min_person_person_distance" = Some (VNum 0)
        /\ dict_get r "avg_person_person_distance" = Some (VNum 0)
        /\ dict_get r "std_person_person_distance" = Some (VNum 0))
  /\ map Qred (centroid_pairwise_distances Numpy.sqrt_floor [small_person; tall_person])
     = [5%Q].
Proof.
  split; [|split].
  - intros sqrtf. split; [vm_compute; reflexivity|].
    split; [eexists; split; [vm_compute; reflexivity|reflexivity]|].
    split; [vm_compute; reflexivity|].
    eexists; split; [vm_compute; reflexivity|reflexivity].
  - intros ed. cbv zeta. repeat split; vm_compute; reflexivity.
  - vm_compute. reflexivity.
Qed.

End ProximityFacts.

(** ** Theorems: homography and zone extractor *)

Module ZoneFacts.
Import HomographyUtils ZoneFeatures.

Example point_in_square :
  ZoneUtils.point_in_polygon (1 # 2, 1 # 2)%Q [(0, 0); (1, 0); (1, 1); (0, 1)]%Q = true
  /\ ZoneUtils.point_in_polygon (2, 2)%Q [(0, 0); (1, 0); (1, 1); (0, 1)]%Q = false.
Proof. split; vm_compute; reflexivity. Qed.

Example degenerate_to_origin :
  apply_homography (Fin 5) (Fin 6) degenerate = (Fin 0, Fin 0).
Proof. vm_compute. reflexivity. Qed.






End ZoneFacts.

(** ** Theorems: rows of an empty window *)

Module EmptyWindowFacts.

(** C7, as amended. On an empty window each window extractor returns
    its neutral row, and the zone extractor does so as well when it has
    no zones or no homography. The fields of these rows are present and
    hold the number 0, except [first_entry_time] and [last_exit_time] of
    the zone row, which are [None]. For the proximity extractor this is
    stated of its seven distance, danger and overlap fields; nothing is
    stated of [time_near_machine] and [num_machine_interactions]. *)
Theorem empty_window_rows :
  let zone_row :=
    [ ("num_persons_in_zone", VNum 0);
      ("time_in_zone", VNum 0);
      ("multiple_zone_exposure", VNum 0);
      ("num_people_in_high_risk_zone", VNum 0);
      ("proportion_time_in_high_risk_zone", VNum 0);
      ("zone_entry_exit_events", VNum 0);
      ("first_entry_time", VNone);
      ("last_exit_time", VNone) ] in
  (forall person_features self,
      HumanPresenceFeatures.extract person_features self []
      = [ ("avg_num_persons", VNum 0);
          ("max_num_persons", VNum 0);
          ("unique_person_tracks", VNum 0);
          ("person_density", VNum 0);
          ("person_presence_ratio", VNum 0);
          ("num_person_entries", VNum 0);
          ("stationary_person_ratio", VNum 0);
          ("crowding_score", VNum 0);
          ("avg_person_height", VNum 0) ])
  /\ (forall self,
        EPIFeatures.extract self []
        = ([ ("helmet_compliance_ratio", VNum 0);
             ("vest_compliance_ratio", VNum 0);
             ("mask_compliance_ratio", VNum 0);
             ("avg_epi_compliance", VNum 0);
             ("num_no_helmet_events", VNum 0);
             ("num_no_vest_events", VNum 0);
             ("num_no_mask_events", VNum 0);
             ("epi_violation_duration", VNum 0);
             ("persistent_epi_violation", VNum 0) ], self))
  /\ (forall frame_features self,
        MachineVehicleFeatures.extract frame_features self []
        = [ ("num_machines_avg", VNum 0);
            ("machine_presence_ratio", VNum 0);
            ("unique_machine_tracks", VNum 0);
            ("machine_type_ratio", VNum 0);
            ("co_presence_person_machine", VNum 0);
            ("machine_dominance_ratio", VNum 0);
            ("machine_only_duration", VNum 0) ])
  /\ (forall sqrtf euclidean_distance self,
        let r := ProximityFeatures.extract sqrtf euclidean_distance self [] in
        Forall (fun k => dict_get r k = Some (VNum 0))
               [ "avg_person_person_distance";
                 "std_person_person_distance";
                 "avg_person_machine_distance";
                 "min_person_person_distance";
                 "min_person_machine_distance";
                 "dangerous_proximity_frames";
                 "bbox_overlap_person_machine" ]
        /\ all_zero r)
  /\ (forall motion_features self,
        TemporalDynamicsFeatures.extract motion_features self []
        = [ ("avg_person_speed", VNum 0);
            ("std_person_speed", VNum 0);
            ("direction_variance", VNum 0);
            ("track_lifetime_mean", VNum 0);
            ("sudden_stop_events", VNum 0);
            ("erratic_motion_score", VNum 0);
            ("high_speed_near_machine", VNum 0) ])
  /\ (forall point_in_polygon self,
        ZoneFeatures.extract point_in_polygon self [] = (zone_row, self))
  /\ (forall point_in_polygon Hm w first last df,
        let self := ZoneFeatures.mk [] Hm w first last in
        ZoneFeatures.extract point_in_polygon self df = (zone_row, self))
  /\ (forall point_in_polygon zs w first last df,
        let self := ZoneFeatures.mk zs None w first last in
        ZoneFeatures.extract point_in_polygon self df = (zone_row, self)).
Proof.
  cbv zeta.
  split; [intros; reflexivity|].
  split; [intros; reflexivity|].
  split; [intros; reflexivity|].
  split; [intros; split; repeat constructor|].
  split; [intros; reflexivity|].
  split.
  { intros pip self. unfold ZoneFeatures.extract.
    destruct (ZoneFeatures.H self); reflexivity. }
  split.
  { intros pip Hm w first last df. unfold ZoneFeatures.extract.
    cbn [ZoneFeatures.H ZoneFeatures.zones is_empty].
    destruct Hm; [|reflexivity]. rewrite orb_true_r. reflexivity. }
  intros; reflexivity.
Qed.

(** C7 as stated fails twice. Two fields of the neutral row of the zone
    extractor are [None], not numbers. And the row of the proximity
    extractor on an empty window has no [time_near_machine] and no
    [num_machine_interactions], which its row on any other window has. *)
Lemma empty_zone_row_counterexample :
  (let r := fst (ZoneFeatures.extract ZoneFeatures.ray_casting
                   (ZoneFeatures.init [ZoneFeatures.origin_zone]
                      (Some HomographyUtils.identity) 2) []) in
   dict_get r "first_entry_time" = Some VNone
   /\ dict_get r "last_exit_time" = Some VNone
   /\ forallb (fun kv => numeric (snd kv)) r = false)
  /\ (let extract :=
        ProximityFeatures.extract Numpy.sqrt_floor Pipeline.straight_line
                                  (ProximityFeatures.init 2) in
      dict_get (extract []) "time_near_machine" = None
      /\ dict_get (extract []) "num_machine_interactions" = None
      /\ dict_get (extract [ProximityFeatures.small_person]) "time_near_machine"
         = Some (VNum 0)
      /\ dict_get (extract [ProximityFeatures.small_person]) "num_machine_interactions"
         = Some (VNum 0)).
Proof. cbv zeta. repeat split. Qed.

End EmptyWindowFacts.

(** ** Theorems: pipeline *)

Module PipelineFacts.
Import Pipeline.

Lemma dict_get_set_other d k v k' :
  dict_get d k' <> None -> dict_get (dict_set d k v) k' <> None.
Proof.
  induction d as [|[k0 v0] d IH]; cbn; [congruence|].
  destruct (String.eqb k0 k) eqn:E; cbn.
  - destruct (String.eqb k0 k'); [congruence|auto].
  - destruct (String.eqb k0 k'); [congruence|auto].
Qed.

Lemma dict_get_update d e k :
  dict_get d k <> None -> dict_get (dict_update d e) k <> None.
Proof.
  unfold dict_update. revert d.
  induction e as [|[k0 v0] e IH]; intros d Hd; cbn; [exact Hd|].
  apply IH. apply dict_get_set_other. exact Hd.
Qed.

Lemma dict_get_keys r c : dict_get r c <> None -> In c (dict_keys r).
Proof.
  induction r as [|[k v] r IH]; cbn; [congruence|].
  destruct (String.eqb_spec k c); auto.
Qed.

Lemma add_column_incl cols k c : In c cols -> In c (Table.add_column cols k).
Proof.
  unfold Table.add_column. destruct (existsb _ cols); [auto|].
  intros H. apply in_or_app. auto.
Qed.

Lemma add_column_new cols k : In k (Table.add_column cols k).
Proof.
  unfold Table.add_column. destruct (existsb (String.eqb k) cols) eqn:E.
  - apply existsb_exists in E. destruct E as (x & Hx & Ex).
    apply String.eqb_eq in Ex. subst x. exact Hx.
  - apply in_or_app. right. left. reflexivity.
Qed.

Lemma add_columns_incl keys : forall cols c,
  In c cols \/ In c keys -> In c (fold_left Table.add_column keys cols).
Proof.
  induction keys as [|k keys IH]; intros cols c; cbn.
  - intros [H|[]]. exact H.
  - intros [H|[->|H]]; apply IH; auto using add_column_incl, add_column_new.
Qed.

Lemma columns_of_keys rows : forall cols r c,
  In c cols \/ (In r rows /\ In c (dict_keys r)) ->
  In c (fold_left (fun cols r => fold_left Table.add_column (dict_keys r) cols)
                  rows cols).
Proof.
  induction rows as [|r0 rows IH]; intros cols r c; cbn.
  - intros [H|[[] _]]. exact H.
  - intros [H|[[->|Hr] Hc]].
    + apply (IH _ r0). left. apply add_columns_incl. auto.
    + apply (IH _ r). left. apply add_columns_incl. auto.
    + apply (IH _ r). right. auto.
Qed.

Lemma at_label_row cols r c :
  (dict_get r c <> None -> In c cols) ->
  Table.at_label cols (map (dict_get r) cols) c = dict_get r c.
Proof.
  induction cols as [|c0 cols IH]; cbn; intros Hin.
  - destruct (dict_get r c); [|reflexivity].
    exfalso. apply Hin. congruence.
  - destruct (String.eqb_spec c0 c) as [->|Hne]; [reflexivity|].
    apply IH. intros H. destruct (Hin H) as [E|E]; [contradiction|exact E].
Qed.

Lemma isna_ml_cell r c : Table.isna (ml_cell r c) = false.
Proof.
  unfold ml_cell. destruct (dict_get r c) as [[q| |t]|]; reflexivity.
Qed.

(** The fixed-schema table of a non-empty frame of rows. *)
Lemma ml_table_of_rows rows :
  Table.empty (Table.of_rows rows) = false ->
  snd (tables rows)
  = Table.mk ML_FEATURE_COLUMNS (map (fun r => map (ml_cell r) ML_FEATURE_COLUMNS) rows).
Proof.
  intros He. unfold tables. rewrite He. cbn [snd].
  unfold Table.fillna0, Table.reindex, Table.of_rows.
  cbn [Table.columns Table.data]. f_equal.
  rewrite !map_map. apply map_ext_in. intros r Hr.
  rewrite map_map. apply map_ext. intros c.
  rewrite at_label_row.
  - unfold ml_cell. destruct (dict_get r c) as [[q| |t]|]; reflexivity.
  - intros H. unfold Table.columns_of. apply (columns_of_keys rows [] r).
    right. split; [exact Hr|]. apply dict_get_keys. exact H.
Qed.

Lemma update_from_indexed o w r x :
  indexed r -> update_from o w r = ok x -> indexed (fst x).
Proof.
  unfold update_from. destruct (call o [AFrame w]) as [e|f]; cbn; [discriminate|].
  intros Hr E. injection E as <-. cbn. apply dict_get_update. exact Hr.
Qed.

Lemma step_rows i d0 w st st' :
  Forall indexed (all_rows st) ->
  step i d0 w st = ok st' ->
  Forall indexed (all_rows st')
  /\ length (all_rows st') = S (length (all_rows st)).
Proof.
  intros Hall. unfold step.
  assert (H0 : indexed (metadata i d0 w)) by (unfold indexed; cbn; congruence).
  destruct (update_from (human_extractor st) w _) as [?|h] eqn:Eh; cbn; [discriminate|].
  pose proof (update_from_indexed _ _ _ _ H0 Eh) as H1.
  destruct (update_from (epi_extractor st) w _) as [?|e] eqn:Ee; cbn; [discriminate|].
  pose proof (update_from_indexed _ _ _ _ H1 Ee) as H2.
  destruct (update_from (machine_extractor st) w _) as [?|m] eqn:Em; cbn; [discriminate|].
  pose proof (update_from_indexed _ _ _ _ H2 Em) as H3.
  destruct (update_from (proximity_extractor st) w _) as [?|p] eqn:Ep; cbn; [discriminate|].
  pose proof (update_from_indexed _ _ _ _ H3 Ep) as H4.
  destruct (update_from (temporal_extractor st) w _) as [?|t] eqn:Et; cbn; [discriminate|].
  pose proof (update_from_indexed _ _ _ _ H4 Et) as H5.
  destruct (update_from (zone_extractor st) w _) as [?|z] eqn:Ez; cbn; [discriminate|].
  pose proof (update_from_indexed _ _ _ _ H5 Ez) as H6.
  assert (Hs : forall s,
             match stability_extractor st with
             | Some o =>
                 try f <- call o [ARow (fst z)] in
                 ok (dict_update (fst z) (fst f), Some (snd f))
             | None => ok (fst z, None)
             end = ok s -> indexed (fst s)).
  { intros s. destruct (stability_extractor st) as [o|].
    - destruct (call o _) as [?|f]; cbn; [discriminate|].
      intros E. injection E as <-. cbn. apply dict_get_update. exact H6.
    - intros E. injection E as <-. exact H6. }
  destruct (match stability_extractor st with Some _ => _ | None => _ end)
    as [?|s]; cbn; [discriminate|].
  pose proof (Hs s eq_refl) as H7.
  assert (Hx : forall x,
             match transition_extractor st with
             | Some o =>
                 try f <- call_kw o [ ("current_row", ARow (fst s));
                                      ("history", ARows (previous_rows st)) ] in
                 ok (dict_update (fst s) (fst f), Some (snd f))
             | None => ok (fst s, None)
             end = ok x -> indexed (fst x)).
  { intros x. destruct (transition_extractor st) as [o|].
    - destruct (call_kw o _) as [?|f]; cbn; [discriminate|].
      intros E. injection E as <-. cbn. apply dict_get_update. exact H7.
    - intros E. injection E as <-. exact H7. }
  destruct (match transition_extractor st with Some _ => _ | None => _ end)
    as [?|x]; cbn; [discriminate|].
  intros E. injection E as <-. cbn [all_rows]. split.
  - apply Forall_app. split; [exact Hall|]. constructor; [|constructor].
    apply Hx. reflexivity.
  - rewrite length_app. simpl. lia.
Qed.

Lemma loop_rows max windows : forall i st st',
  Forall indexed (all_rows st) ->
  loop max i windows st = ok st' ->
  Forall indexed (all_rows st').
Proof.
  induction windows as [|w windows IH]; intros i st st' Hall; cbn [loop].
  - intros E. injection E as <-. exact Hall.
  - destruct (match max with Some n => n <=? i | None => false end).
    + intros E. injection E as <-. exact Hall.
    + destruct w as [|d0 w].
      * apply IH. exact Hall.
      * destruct (step i d0 (d0 :: w) st) as [?|st1] eqn:E1; cbn; [discriminate|].
        apply IH. apply (step_rows _ _ _ _ _ Hall E1).
Qed.

Lemma indexed_frame_not_empty rows :
  rows <> [] -> Forall indexed rows -> Table.empty (Table.of_rows rows) = false.
Proof.
  intros Hne Hall. destruct rows as [|r rows]; [congruence|].
  unfold Table.empty, Table.of_rows. cbn [Table.columns Table.data map is_empty].
  rewrite orb_false_r.
  assert (In "window_index" (Table.columns_of (r :: rows))).
  { unfold Table.columns_of. apply (columns_of_keys (r :: rows) [] r).
    right. split; [left; reflexivity|]. apply dict_get_keys.
    inversion Hall; subst. assumption. }
  destruct (Table.columns_of (r :: rows)); [contradiction|reflexivity].
Qed.

Example canonical_column_count : length ML_FEATURE_COLUMNS = 30%nat.
Proof. reflexivity. Qed.

(** C1, as amended. Whenever the pipeline returns with at least one row
    emitted, its second table has the columns of [ML_FEATURE_COLUMNS], in
    that order, whatever keys the rows hold; that list has 30 names (not
    29); each record has one cell per column, holding the value of the
    row under that name, or 0 where the row has no such key or holds
    [None]; so no cell is missing. *)
Theorem ml_table_schema human epi machine proximity temporal zone stability transition
    max_windows windows df_all df_ml :
  extract_features_pipeline human epi machine proximity temporal zone
    stability transition max_windows windows = ok (df_all, df_ml) ->
  Table.data df_all <> [] ->
  exists rows,
    df_all = Table.of_rows rows
    /\ Table.columns df_ml = ML_FEATURE_COLUMNS
    /\ length (Table.columns df_ml) = 30%nat
    /\ Table.data df_ml = map (fun r => map (ml_cell r) ML_FEATURE_COLUMNS) rows
    /\ length (Table.data df_ml) = length (Table.data df_all)
    /\ Forall (fun record => length record = 30%nat
                             /\ Forall (fun c => Table.isna c = false) record)
              (Table.data df_ml).
Proof.
  unfold extract_features_pipeline. intros Hrun Hrows.
  destruct (loop max_windows 0 windows _) as [?|st'] eqn:El; cbn in Hrun; [discriminate|].
  apply loop_rows in El; [|constructor].
  injection Hrun as Hall.
  set (rows := all_rows st') in *.
  assert (Hne : rows <> []).
  { intros E. rewrite E in Hall. cbn in Hall. injection Hall as <- _.
    apply Hrows. reflexivity. }
  pose proof (indexed_frame_not_empty rows Hne El) as Hemp.
  pose proof (ml_table_of_rows rows Hemp) as Hml.
  rewrite Hall in Hml. cbn [snd] in Hml. subst df_ml.
  exists rows. split.
  { unfold tables in Hall. rewrite Hemp in Hall. congruence. }
  split; [reflexivity|]. split; [reflexivity|]. split; [reflexivity|].
  split.
  { assert (df_all = Table.of_rows rows)
      by (unfold tables in Hall; rewrite Hemp in Hall; congruence).
    subst df_all. cbn. rewrite !length_map. reflexivity. }
  cbn [Table.data]. apply List.Forall_forall. intros record Hrec.
  apply in_map_iff in Hrec. destruct Hrec as (r & <- & _).
  split; [rewrite length_map; reflexivity|].
  apply List.Forall_forall. intros c Hc.
  apply in_map_iff in Hc. destruct Hc as (k & <- & _). apply isna_ml_cell.
Qed.

Lemma ml_table_schema_witness :
  exists df_all df_ml,
    site None None [EPIFeatures.violation_window 0; []; EPIFeatures.vehicle_window 4]
    = ok (df_all, df_ml)
    /\ length (Table.data df_all) = 2%nat
    /\ Table.columns df_ml = ML_FEATURE_COLUMNS
    /\ length (Table.data df_ml) = 2%nat.
Proof.
  destruct (site None None
              [EPIFeatures.violation_window 0; []; EPIFeatures.vehicle_window 4])
    as [e|[df_all df_ml]] eqn:E; [vm_compute in E; discriminate|].
  exists df_all, df_ml. split; [reflexivity|].
  assert (Hlen : length (Table.data df_all) = 2%nat).
  { vm_compute in E. injection E as <- _. reflexivity. }
  destruct (ml_table_schema _ _ _ _ _ _ _ _ _ _ _ _ E) as (rows & _ & Hc & _ & _ & Hl & _).
  { intros H0. rewrite H0 in Hlen. discriminate. }
  split; [exact Hlen|]. split; [exact Hc|]. rewrite Hl. exact Hlen.
Defined.

(** The claim as stated counts 29 columns; the list has 30. *)
Lemma column_count_counterexample :
  length ML_FEATURE_COLUMNS <> 29%nat
  /\ exists df_all df_ml,
      site None None [EPIFeatures.vehicle_window 0] = ok (df_all, df_ml)
      /\ length (Table.data df_all) = 1%nat
      /\ length (Table.columns df_ml) = 30%nat.
Proof.
  split; [discriminate|].
  eexists _, _. split; [vm_compute; reflexivity|]. split; reflexivity.
Qed.

Lemma transition_keywords_rejected sqrtf ov t r rs :
  call_kw (transition_object sqrtf ov t)
          [ ("current_row", ARow r); ("history", ARows rs) ]
  = raise TypeError.
Proof. reflexivity. Qed.

Lemma step_raises sqrtf ov t i d0 w st :
  transition_extractor st = Some (transition_object sqrtf ov t) ->
  exists e, step i d0 w st = raise e.
Proof.
  intros Ht. unfold step. rewrite Ht.
  destruct (update_from (human_extractor st) w _) as [?|h]; cbn; [eauto|].
  destruct (update_from (epi_extractor st) w _) as [?|e]; cbn; [eauto|].
  destruct (update_from (machine_extractor st) w _) as [?|m]; cbn; [eauto|].
  destruct (update_from (proximity_extractor st) w _) as [?|p]; cbn; [eauto|].
  destruct (update_from (temporal_extractor st) w _) as [?|x]; cbn; [eauto|].
  destruct (update_from (zone_extractor st) w _) as [?|z]; cbn; [eauto|].
  destruct (match stability_extractor st with Some _ => _ | None => _ end)
    as [?|s]; cbn; [eauto|].
  exists TypeError. reflexivity.
Qed.

Lemma loop_raises sqrtf ov t max windows : forall i k w st,
  transition_extractor st = Some (transition_object sqrtf ov t) ->
  nth_error windows k = Some w ->
  w <> [] ->
  (forall n, max = Some n -> i + Z.of_nat k < n) ->
  exists e, loop max i windows st = raise e.
Proof.
  induction windows as [|w0 windows IH]; intros i k w st Ht Hk Hw Hmax.
  - destruct k; discriminate.
  - cbn [loop].
    assert (Hgo : match max with Some n => n <=? i | None => false end = false).
    { destruct max as [n|]; [|reflexivity].
      apply Z.leb_gt. specialize (Hmax n eq_refl). lia. }
    rewrite Hgo. destruct w0 as [|d0 w0].
    + destruct k as [|k]; [cbn in Hk; congruence|].
      apply (IH (i + 1) k w st Ht Hk Hw).
      intros n Hn. specialize (Hmax n Hn). lia.
    + destruct (step_raises sqrtf ov t i d0 (d0 :: w0) st Ht) as [e ->].
      exists e. reflexivity.
Qed.

(** C2 (the code departs from the claim). The pipeline calls the
    transition extractor with the keywords [current_row] and [history],
    and the [extract] method of [ActivityTransitionFeatures] has the one
    parameter [current_features]: the call raises [TypeError]. So a run
    with that extractor configured raises at the first non-empty window
    it reaches, and returns no table. *)
Theorem transition_call_raises :
  (forall sqrtf ov t human epi machine proximity temporal zone stability
          max_windows windows k w,
      nth_error windows k = Some w ->
      w <> [] ->
      (forall n, max_windows = Some n -> Z.of_nat k < n) ->
      exists e,
        extract_features_pipeline human epi machine proximity temporal zone
          stability (Some (transition_object sqrtf ov t)) max_windows windows
        = raise e)
  /\ site (Some site_transition) None [EPIFeatures.violation_window 0]
     = raise TypeError
  /\ site (Some site_transition) (Some 5)
          [[]; EPIFeatures.vehicle_window 1; EPIFeatures.violation_window 2]
     = raise TypeError.
Proof.
  split; [|split; vm_compute; reflexivity].
  intros sqrtf ov t human epi machine proximity temporal zone stability
         max_windows windows k w Hk Hw Hmax.
  unfold extract_features_pipeline.
  destruct (loop_raises sqrtf ov t max_windows windows 0 k w
              (mk human epi machine proximity temporal zone stability
                  (Some (transition_object sqrtf ov t)) [] [])
              eq_refl Hk Hw) as [e ->].
  - intros n Hn. specialize (Hmax n Hn). lia.
  - exists e. reflexivity.
Qed.

End PipelineFacts.

(** ** More on the sliding window *)

Module SlidingWindowCoverage.
Import SlidingWindow SlidingWindowFacts.

Lemma generate_some sw camera_ids start_time end_time fuel ws :
  0 < step_delta sw ->
  get_detections sw camera_ids start_time end_time <> [] ->
  generate fuel sw camera_ids start_time end_time = Some ws ->
  ws = map (kth_window sw (get_detections sw camera_ids start_time end_time) start_time)
           (seq 0 (window_count sw start_time end_time)).
Proof.
  intros Hs Hne. unfold generate.
  destruct (get_detections sw camera_ids start_time end_time) as [|d df] eqn:E;
    [congruence|].
  cbn [is_empty]. intros Hw.
  pose proof (generate_loop_some _ _ _ _ _ _ Hs Hw) as Hf.
  rewrite generate_loop_windows in Hw by auto. congruence.
Qed.

Lemma nth_window sw df_all start_time n k w :
  nth_error (map (kth_window sw df_all start_time) (seq 0 n)) k = Some w ->
  (k < n)%nat /\ w = kth_window sw df_all start_time k.
Proof.
  intros H.
  assert (Hk : (k < n)%nat).
  { assert (Hn : nth_error (map (kth_window sw df_all start_time) (seq 0 n)) k <> None)
      by congruence.
    apply nth_error_Some in Hn. rewrite length_map, length_seq in Hn. exact Hn. }
  split; [exact Hk|].
  rewrite nth_error_map, nth_error_seq in H.
  destruct (Nat.ltb_spec k n); [|lia]. cbn in H. congruence.
Qed.

(** With a step no longer than the window, the windows leave no gap: a
    loaded detection between [start_time] and the end of the last
    emitted window is in at least one emitted window. *)
Theorem overlapping_windows_cover sw camera_ids start_time end_time fuel ws d :
  0 < step_delta sw ->
  step_delta sw <= window_delta sw ->
  generate fuel sw camera_ids start_time end_time = Some ws ->
  ws <> [] ->
  In d (get_detections sw camera_ids start_time end_time) ->
  start_time <= timestamp d ->
  timestamp d
  < start_time + (Z.of_nat (length ws) - 1) * step_delta sw + window_delta sw ->
  exists w, In w ws /\ In d w.
Proof.
  intros Hs Hsw Hgen Hws0 Hd Hlo Hhi.
  assert (Hne : get_detections sw camera_ids start_time end_time <> [])
    by (intros E; rewrite E in Hd; contradiction).
  pose proof (generate_some _ _ _ _ _ _ Hs Hne Hgen) as Hws.
  set (df_all := get_detections sw camera_ids start_time end_time) in *.
  set (n := window_count sw start_time end_time) in *.
  assert (Hlen : length ws = n) by (rewrite Hws, length_map, length_seq; reflexivity).
  rewrite Hlen in Hhi.
  assert (Hn : (0 < n)%nat).
  { destruct n; [|lia]. exfalso. apply Hws0. rewrite Hws. reflexivity. }
  set (q := (timestamp d - start_time) / step_delta sw).
  assert (Hq0 : 0 <= q) by (apply Z.div_pos; lia).
  pose proof (Z.mul_div_le (timestamp d - start_time) (step_delta sw) Hs) as Hq1.
  pose proof (Z.mul_succ_div_gt (timestamp d - start_time) (step_delta sw) Hs) as Hq2.
  fold q in Hq1, Hq2.
  set (k := Nat.min (Z.to_nat q) (n - 1)).
  exists (kth_window sw df_all start_time k). split.
  - rewrite Hws. apply in_map. apply in_seq. unfold k. lia.
  - apply kth_window_elem. split; [exact Hd|].
    destruct (Nat.le_gt_cases (Z.to_nat q) (n - 1)) as [Hle|Hgt].
    + assert (Hk : Z.of_nat k = q) by (unfold k; lia).
      rewrite Hk. nia.
    + assert (Hk : Z.of_nat k = Z.of_nat n - 1) by (unfold k; lia).
      rewrite Hk. split; [|lia].
      assert (Z.of_nat n - 1 <= q) by lia. nia.
Qed.

Lemma overlapping_windows_cover_witness :
  exists w,
    In w [[demo_detection 0]; [demo_detection 4]; [demo_detection 9]]
    /\ In (demo_detection 4) w.
Proof.
  apply (overlapping_windows_cover demo_window [1] 0 10 5
           [[demo_detection 0]; [demo_detection 4]; [demo_detection 9]]
           (demo_detection 4));
    try reflexivity; try (vm_compute; intuition congruence).
Defined.

(** With a step no shorter than the window, the windows are disjoint: no
    detection is emitted in two windows. *)
Theorem spaced_windows_disjoint sw camera_ids start_time end_time fuel ws k k' w w' d :
  0 < step_delta sw ->
  window_delta sw <= step_delta sw ->
  generate fuel sw camera_ids start_time end_time = Some ws ->
  nth_error ws k = Some w ->
  nth_error ws k' = Some w' ->
  In d w ->
  In d w' ->
  k = k'.
Proof.
  intros Hs Hsw Hgen Hk Hk' Hd Hd'.
  destruct (get_detections sw camera_ids start_time end_time) as [|d0 df] eqn:E.
  { unfold generate in Hgen. rewrite E in Hgen. cbn in Hgen.
    injection Hgen as <-. destruct k; discriminate. }
  assert (Hne : get_detections sw camera_ids start_time end_time <> [])
    by (rewrite E; discriminate).
  pose proof (generate_some _ _ _ _ _ _ Hs Hne Hgen) as Hws.
  rewrite Hws in Hk, Hk'.
  apply nth_window in Hk. apply nth_window in Hk'.
  destruct Hk as [_ ->]. destruct Hk' as [_ ->].
  apply kth_window_elem in Hd. apply kth_window_elem in Hd'.
  destruct Hd as (_ & Hlo & Hhi). destruct Hd' as (_ & Hlo' & Hhi').
  destruct (Nat.lt_trichotomy k k') as [Hlt|[Heq|Hgt]]; [|exact Heq|].
  - exfalso. assert (Z.of_nat k + 1 <= Z.of_nat k') by lia. nia.
  - exfalso. assert (Z.of_nat k' + 1 <= Z.of_nat k) by lia. nia.
Qed.

Lemma spaced_windows_disjoint_witness :
  generate 5 tiled_window [1] 0 12
  = Some [[demo_detection 0]; [demo_detection 4]; [demo_detection 9]]
  /\ (1 = 1)%nat.
Proof.
  split; [reflexivity|].
  apply (spaced_windows_disjoint tiled_window [1] 0 12 5
           [[demo_detection 0]; [demo_detection 4]; [demo_detection 9]]
           1 1 [demo_detection 4] [demo_detection 4] (demo_detection 4));
    try reflexivity; try (vm_compute; intuition congruence).
Defined.

End SlidingWindowCoverage.

(** ** More on the protective-equipment extractor *)

Module EPIMoreFacts.
Import EPIFeatures EPIFacts.

Lemma compliance_ratio_bounds xs : (0 <= compliance_ratio xs <= 1)%Q.
Proof.
  unfold compliance_ratio. destruct xs as [|x xs]; cbn [is_empty].
  - split; [apply Qle_refl|discriminate].
  - set (l := x :: xs).
    assert (Hlen : (0 < length l)%nat) by (unfold l; simpl; lia).
    assert (Hf : (length (List.filter id l) <= length l)%nat) by apply filter_length_le.
    assert (Hpos : (0 < inject_Z (Z.of_nat (length l)))%Q).
    { replace 0%Q with (inject_Z 0) by reflexivity. rewrite <- Zlt_Qlt. lia. }
    split.
    + apply Qle_shift_div_l; [exact Hpos|]. rewrite Qmult_0_l.
      replace 0%Q with (inject_Z 0) by reflexivity. rewrite <- Zle_Qle. lia.
    + apply Qle_shift_div_r; [exact Hpos|]. rewrite Qmult_1_l.
      rewrite <- Zle_Qle. lia.
Qed.

(** The three compliance ratios and their average lie between 0 and 1,
    on every window and in every state. *)
Theorem compliance_ratios_bounded self df k :
  In k [ "helmet_compliance_ratio"; "vest_compliance_ratio";
         "mask_compliance_ratio"; "avg_epi_compliance" ] ->
  exists q, dict_get (fst (extract self df)) k = Some (VNum q) /\ (0 <= q <= 1)%Q.
Proof.
  intros Hk.
  assert (Hzero : exists q, dict_get _empty_features k = Some (VNum q) /\ (0 <= q <= 1)%Q).
  { cbn in Hk. decompose [or] Hk; subst; try contradiction;
      (eexists; split; [reflexivity|split; discriminate]). }
  unfold extract. destruct df as [|d df]; [exact Hzero|]. cbn [is_empty].
  destruct (persons_of (d :: df)) as [|p ps]; [exact Hzero|]. cbn [is_empty fst].
  set (pe := values _).
  pose proof (compliance_ratio_bounds (observed st_helmet pe)) as Hh.
  pose proof (compliance_ratio_bounds (observed st_vest pe)) as Hv.
  pose proof (compliance_ratio_bounds (observed st_mask pe)) as Hm.
  cbn in Hk. decompose [or] Hk; subst; try contradiction;
    (eexists; split; [reflexivity|]); auto.
  split.
  - apply Qle_shift_div_l; [reflexivity|]. lra.
  - apply Qle_shift_div_r; [reflexivity|]. lra.
Qed.

Lemma compliance_ratios_bounded_witness :
  exists q,
    dict_get (fst (extract (init 2 3) (compliant_window 0))) "avg_epi_compliance"
    = Some (VNum q)
    /\ (0 <= q <= 1)%Q.
Proof.
  apply (compliance_ratios_bounded (init 2 3) (compliant_window 0) "avg_epi_compliance").
  cbn. auto.
Defined.

Lemma run_cons self df dfs :
  snd (run self (df :: dfs)) = snd (run (snd (extract self df)) dfs).
Proof.
  cbn [run]. destruct (extract self df) as [r s1]. cbn [snd].
  destruct (run s1 dfs). reflexivity.
Qed.

Lemma run_app self dfs1 dfs2 :
  snd (run self (dfs1 ++ dfs2)) = snd (run (snd (run self dfs1)) dfs2).
Proof.
  revert self. induction dfs1 as [|df dfs1 IH]; intros self; [reflexivity|].
  rewrite <- app_comm_cons, !run_cons. apply IH.
Qed.

(** Windows without persons are invisible to the counter: a sequence of
    calls leaves the object as the same calls without those windows
    would. *)
Theorem windows_without_persons_transparent self dfs :
  snd (run self dfs) = snd (run self (List.filter has_person dfs)).
Proof.
  revert self. induction dfs as [|df dfs IH]; intros self; [reflexivity|].
  cbn [List.filter]. unfold has_person at 1.
  destruct (persons_of df) as [|p ps] eqn:E; cbn [is_empty negb].
  - rewrite run_cons, (extract_without_persons self df E). cbn [snd]. apply IH.
  - rewrite !run_cons. apply IH.
Qed.

Lemma run_streak streak : forall self,
  Forall (fun df => 0 < explicit_violations df) streak ->
  snd (run self streak)
  = mk (window_duration self) (persistent_threshold self)
       (consecutive_violation_count self + Z.of_nat (length streak)).
Proof.
  induction streak as [|df streak IH]; intros self Hall.
  - cbn. rewrite Z.add_0_r. destruct self; reflexivity.
  - inversion Hall as [|? ? Hdf Hrest]; subst.
    rewrite run_cons.
    destruct (extract_with_persons self df (violation_has_person df Hdf)) as (E & _).
    rewrite E, (IH _ Hrest). unfold next_count.
    destruct (Z.gtb_spec (explicit_violations df) 0); [|lia].
    cbn [window_duration persistent_threshold consecutive_violation_count length].
    f_equal. lia.
Qed.

(** The counter is the length of the current streak: after a window
    with persons and no violation followed by [n] violation windows, it
    is [n], whatever came before. *)
Theorem counter_is_streak_length self before clean streak :
  persons_of clean <> [] ->
  explicit_violations clean = 0 ->
  Forall (fun df => 0 < explicit_violations df) streak ->
  consecutive_violation_count (snd (run self (before ++ clean :: streak)))
  = Z.of_nat (length streak).
Proof.
  intros Hp Hz Hall. rewrite run_app, run_cons.
  destruct (extract_with_persons (snd (run self before)) clean Hp) as (E & _).
  rewrite E, (run_streak streak _ Hall). unfold next_count. rewrite Hz. reflexivity.
Qed.

Lemma counter_is_streak_length_witness :
  consecutive_violation_count
    (snd (run (init 2 3)
              ([violation_window 0; violation_window 1]
               ++ compliant_window 2 :: [violation_window 3; violation_window 4])))
  = 2.
Proof.
  apply (counter_is_streak_length (init 2 3)
           [violation_window 0; violation_window 1] (compliant_window 2)
           [violation_window 3; violation_window 4]).
  - discriminate.
  - reflexivity.
  - repeat constructor.
Defined.

Lemma associate_one_elsewhere p e result :
  epi_on_person p e = false -> associate_one p result e = result.
Proof.
  unfold epi_on_person, associate_one.
  destruct (timestamp e =? timestamp p); cbn [negb andb]; [|reflexivity].
  intros ->. reflexivity.
Qed.

Lemma associate_all_elsewhere p epis : forall result,
  Forall (fun e => epi_on_person p e = false) epis ->
  fold_left (associate_one p) epis result = result.
Proof.
  induction epis as [|e epis IH]; intros result Hall; [reflexivity|].
  inversion Hall; subst. cbn [fold_left].
  rewrite associate_one_elsewhere by assumption. apply IH. assumption.
Qed.

Lemma associate_nothing df persons :
  (forall p e, In p persons -> In e df -> YOLO_TO_EPI (object_class e) <> None ->
               epi_on_person p e = false) ->
  epi_all_unobserved (_associate_epi_to_persons df persons).
Proof.
  intros Hno. unfold _associate_epi_to_persons.
  set (epis := List.filter _ df).
  assert (Hepis : forall p, In p persons ->
            Forall (fun e => epi_on_person p e = false) epis).
  { intros p Hp. apply List.Forall_forall. intros e He.
    apply filter_In in He. destruct He as [He Hy]. apply Hno; auto.
    destruct (YOLO_TO_EPI (object_class e)); [discriminate|discriminate]. }
  clearbody epis. clear Hno.
  assert (Hgen : forall m, epi_all_unobserved m ->
            epi_all_unobserved
              (fold_left (fun result p =>
                            fold_left (associate_one p) epis
                                      (<[track_id p := unobserved]> result))
                         persons m)).
  { induction persons as [|p persons IH]; intros m Hm; [exact Hm|].
    cbn [fold_left]. apply IH.
    - intros q Hq. apply Hepis. right. exact Hq.
    - rewrite associate_all_elsewhere by (apply Hepis; left; reflexivity).
      intros k v Hkv. destruct (decide (track_id p = k)) as [E|Hne].
      + subst k. rewrite lookup_insert_eq in Hkv. congruence.
      + rewrite lookup_insert_ne in Hkv by exact Hne. apply (Hm k v Hkv). }
  apply Hgen. intros k v Hkv. rewrite lookup_empty in Hkv. discriminate.
Qed.

Lemma values_unobserved m :
  epi_all_unobserved m -> Forall (fun v => v = unobserved) (values m).
Proof.
  intros Hm. unfold values. apply List.Forall_forall. intros v Hv.
  apply in_map_iff in Hv. destruct Hv as ([k v'] & <- & Hin).
  apply list_elem_of_In, elem_of_map_to_list in Hin. apply (Hm k v' Hin).
Qed.

Lemma unobserved_counts vs :
  Forall (fun v => v = unobserved) vs ->
  forall sel, In sel [st_helmet; st_vest; st_mask] ->
    count_false sel vs = 0 /\ observed sel vs = [].
Proof.
  induction 1 as [|v vs Hv _ IH]; intros sel Hsel; [split; reflexivity|].
  destruct (IH sel Hsel) as [Hc Ho]. subst v.
  unfold count_false, observed in *. cbn in Hsel.
  decompose [or] Hsel; subst; try contradiction; cbn; auto.
Qed.

(** Equipment that lies on no person of its own frame changes nothing:
    when no equipment detection has its center inside the box of a
    person seen at the same timestamp, the window counts no violation,
    its three ratios are 0, and the counter is reset. *)
Theorem stray_equipment_ignored self df :
  persons_of df <> [] ->
  (forall p e, In p (persons_of df) -> In e df ->
               YOLO_TO_EPI (object_class e) <> None ->
               epi_on_person p e = false) ->
  explicit_violations df = 0
  /\ consecutive_violation_count (snd (extract self df)) = 0
  /\ Forall (fun k => dict_get (fst (extract self df)) k = Some (VNum 0))
            [ "helmet_compliance_ratio"; "vest_compliance_ratio";
              "mask_compliance_ratio"; "num_no_helmet_events";
              "num_no_vest_events"; "num_no_mask_events" ].
Proof.
  intros Hp Hno.
  pose proof (values_unobserved _ (associate_nothing df (persons_of df) Hno)) as Hv.
  pose proof (unobserved_counts _ Hv) as Hc.
  destruct (Hc st_helmet ltac:(cbn; auto)) as [Hh1 Hh2].
  destruct (Hc st_vest ltac:(cbn; auto)) as [Hv1 Hv2].
  destruct (Hc st_mask ltac:(cbn; auto)) as [Hm1 Hm2].
  assert (Hz : explicit_violations df = 0).
  { unfold explicit_violations. rewrite Hh1, Hv1, Hm1. reflexivity. }
  split; [exact Hz|]. split.
  - destruct (extract_with_persons self df Hp) as (E & _).
    rewrite E. unfold next_count. rewrite Hz. reflexivity.
  - unfold extract. destruct df as [|d df]; [contradiction Hp; reflexivity|].
    cbn [is_empty].
    destruct (persons_of (d :: df)) as [|p ps] eqn:E; [contradiction Hp; reflexivity|].
    cbn [is_empty fst]. rewrite Hh1, Hv1, Hm1, Hh2, Hv2, Hm2.
    repeat constructor.
Qed.

Lemma stray_equipment_ignored_witness :
  explicit_violations stray_window = 0.
Proof.
  apply (stray_equipment_ignored (init 2 3) stray_window).
  - discriminate.
  - intros p e Hp He Hy. cbn in Hp. destruct Hp as [Hp|[]]. subst p.
    destruct He as [He|[He|[He|[]]]]; subst e.
    + exfalso. apply Hy. reflexivity.
    + reflexivity.
    + reflexivity.
Defined.

End EPIMoreFacts.

(** ** More on the inter-window extractors *)

Module TransitionMoreFacts.
Import ActivityTransitionFeatures TransitionFacts.

Lemma clip_bounds x lo hi : (lo <= hi -> lo <= Numpy.clip x lo hi <= hi)%Q.
Proof.
  intros H. unfold Numpy.clip. split.
  - apply Q.min_glb; [apply Q.le_max_r|exact H].
  - apply Q.le_min_r.
Qed.

Lemma clip_of_zero x : (x == 0 -> Numpy.clip x 0 1 == 0)%Q.
Proof.
  intros H. unfold Numpy.clip.
  assert (Hm : (Qmax x 0 == 0)%Q).
  { rewrite Q.max_r; [reflexivity|]. rewrite H. apply Qle_refl. }
  rewrite Q.min_l; [exact Hm|]. rewrite Hm. discriminate.
Qed.

(** On histories of moderate counts (between 0 and 10^100), whenever a
    call returns its change rate and its risk score lie between 0 and 1.
    The bounds on the samples are what keeps the computation on doubles
    away from NaN: no sum overflows, and [mean + 1e-6] is not zero. *)
Theorem transition_scores_bounded sqrtf ov self cf out self' k :
  moderate_values (_person_count_history self) ->
  moderate_values (_high_risk_history self) ->
  extract sqrtf ov self cf = ok (out, self') ->
  In k [ "activity_change_rate"; "risk_transition_score" ] ->
  exists q, dict_get out k = Some (VNum q) /\ (0 <= q <= 1)%Q.
Proof.
  intros _ _ E Hk.
  assert (H01 : (0 <= 1)%Q) by discriminate.
  destruct (Nat.ltb_spec (length (_person_count_history self)) 2) as [Hlt|Hge].
  - unfold extract in E.
    destruct (Nat.ltb_spec (length (_person_count_history self)) 2) as [_|Hge]; [|lia].
    injection E as <- _. cbn in Hk.
    decompose [or] Hk; subst; try contradiction;
      (eexists; split; [reflexivity|split; discriminate]).
  - destruct (extract_past_warm_up _ _ _ _ _ _ Hge E)
      as (ph & zh & hh & cur & _ & _ & _ & _ & _ & -> & _).
    cbn in Hk.
    decompose [or] Hk; subst; try contradiction;
      (eexists; split; [reflexivity|apply clip_bounds; exact H01]).
Qed.

Lemma transition_scores_bounded_witness :
  exists out self',
    extract Numpy.sqrt_floor squares_overflow
            (mk 5 (1 # 2) [VNum 4; VNum 4] [VNum 0; VNum 0] [VNum 0; VNum 2])
            (persons_row 6)
    = ok (out, self')
    /\ (exists q, dict_get out "activity_change_rate" = Some (VNum q)
                  /\ (0 <= q <= 1)%Q /\ (q == 2000000 # 4000001)%Q)
    /\ (exists q, dict_get out "risk_transition_score" = Some (VNum q)
                  /\ (0 <= q <= 1)%Q /\ (q == 1000000 # 1000001)%Q).
Proof.
  destruct (extract Numpy.sqrt_floor squares_overflow
              (mk 5 (1 # 2) [VNum 4; VNum 4] [VNum 0; VNum 0] [VNum 0; VNum 2])
              (persons_row 6)) as [e|[out s']] eqn:E; [vm_compute in E; discriminate|].
  exists out, s'. split; [reflexivity|].
  assert (Hp : moderate_values [VNum 4; VNum 4]).
  { intros q Hq. cbn in Hq. decompose [or] Hq; try contradiction;
      match goal with H : VNum _ = VNum _ |- _ => injection H as <- end;
      split; vm_compute; discriminate. }
  assert (Hh : moderate_values [VNum 0; VNum 2]).
  { intros q Hq. cbn in Hq. decompose [or] Hq; try contradiction;
      match goal with H : VNum _ = VNum _ |- _ => injection H as <- end;
      split; vm_compute; discriminate. }
  split.
  - destruct (transition_scores_bounded _ _
                (mk 5 (1 # 2) [VNum 4; VNum 4] [VNum 0; VNum 0] [VNum 0; VNum 2])
                _ _ _ "activity_change_rate" Hp Hh E)
      as (q & Hq & Hb); [cbn; auto|].
    exists q. split; [exact Hq|]. split; [exact Hb|].
    vm_compute in E. injection E as <- _. cbn in Hq. injection Hq as <-.
    vm_compute. reflexivity.
  - destruct (transition_scores_bounded _ _
                (mk 5 (1 # 2) [VNum 4; VNum 4] [VNum 0; VNum 0] [VNum 0; VNum 2])
                _ _ _ "risk_transition_score" Hp Hh E)
      as (q & Hq & Hb); [cbn; auto|].
    exists q. split; [exact Hq|]. split; [exact Hb|].
    vm_compute in E. injection E as <- _. cbn in Hq. injection Hq as <-.
    vm_compute. reflexivity.
Defined.

Lemma extract_histories sqrtf ov self cf out self' :
  extract sqrtf ov self cf = ok (out, self') ->
  self' = _update_history self
            (dict_get_default cf "avg_num_persons" (VNum 0))
            (dict_get_default cf "num_persons_in_zone" (VNum 0))
            (dict_get_default cf "num_people_in_high_risk_zone" (VNum 0)).
Proof.
  intros E.
  destruct (Nat.ltb_spec (length (_person_count_history self)) 2) as [Hlt|Hge].
  - unfold extract in E.
    destruct (Nat.ltb_spec (length (_person_count_history self)) 2) as [_|Hge]; [|lia].
    injection E as _ <-. reflexivity.
  - destruct (extract_past_warm_up _ _ _ _ _ _ Hge E)
      as (ph & zh & hh & cur & _ & _ & _ & _ & _ & _ & ->).
    reflexivity.
Qed.

Lemma run_aligned sqrtf ov rows : forall self outs self' n,
  transition_aligned self n -> (n <= history_size self)%nat ->
  run sqrtf ov self rows = ok (outs, self') ->
  history_size self' = history_size self
  /\ length outs = length rows
  /\ transition_aligned self' (Nat.min (n + length rows) (history_size self)).
Proof.
  induction rows as [|r rows IH]; intros self outs self' n Ha Hn; cbn [run].
  - intros E. injection E as <- <-. split; [reflexivity|]. split; [reflexivity|].
    cbn [length]. replace (Nat.min (n + 0) (history_size self)) with n by lia.
    exact Ha.
  - destruct (extract sqrtf ov self r) as [e|[o s1]] eqn:E1; cbn; [discriminate|].
    destruct (run sqrtf ov s1 rows) as [e|[os s2]] eqn:E2; cbn; [discriminate|].
    intros E. injection E as <- <-.
    pose proof (extract_histories _ _ _ _ _ _ E1) as Hs1.
    assert (Ha1 : transition_aligned s1 (Nat.min (n + 1) (history_size self))).
    { destruct Ha as (A1 & A2 & A3). subst s1. unfold transition_aligned, _update_history.
      cbn [_person_count_history _zone_count_history _high_risk_history].
      rewrite !NumpyFacts.length_deque_append, A1, A2, A3. auto. }
    assert (Hh1 : history_size s1 = history_size self) by (subst s1; reflexivity).
    destruct (IH s1 os s2 _ Ha1 ltac:(rewrite Hh1; lia) E2) as (H1 & H2 & H3).
    split; [congruence|]. split; [cbn; lia|].
    rewrite Hh1 in H3. cbn [length].
    replace (Nat.min (n + S (length rows)) (history_size self))
      with (Nat.min (Nat.min (n + 1) (history_size self) + length rows)
                    (history_size self)) by lia.
    exact H3.
Qed.

(** From a fresh extractor, after any number of calls the three
    histories hold the same number of samples: the number of calls,
    capped by [history_size]. With a capacity below 2 the extractor
    therefore never leaves its warm-up: every call returns the zero
    row. *)
Theorem transition_histories_capped sqrtf ov hs thr rows outs self' :
  run sqrtf ov (init hs thr) rows = ok (outs, self') ->
  length outs = length rows
  /\ length (_person_count_history self') = Nat.min (length rows) hs
  /\ length (_zone_count_history self') = Nat.min (length rows) hs
  /\ length (_high_risk_history self') = Nat.min (length rows) hs
  /\ ((hs < 2)%nat -> Forall (fun o => o = _empty_features) outs).
Proof.
  intros E.
  destruct (run_aligned sqrtf ov rows (init hs thr) outs self' 0%nat) as (_ & Hl & Ha);
    [repeat split|cbn; lia|exact E|].
  cbn [history_size init] in Ha. cbn [Nat.add] in Ha. destruct Ha as (A1 & A2 & A3).
  split; [exact Hl|]. split; [exact A1|]. split; [exact A2|]. split; [exact A3|].
  intros Hhs.
  apply (run_stays_in_warm_up sqrtf ov hs rows (init hs thr) outs self');
    [exact Hhs|reflexivity|cbn; lia|exact E].
Qed.

Lemma transition_histories_capped_witness :
  exists outs self',
    run Numpy.sqrt_floor squares_overflow (init 1 (1 # 2)) (repeat (persons_row 4) 3)
    = ok (outs, self')
    /\ length (_person_count_history self') = 1%nat
    /\ Forall (fun o => o = _empty_features) outs.
Proof.
  destruct (run Numpy.sqrt_floor squares_overflow (init 1 (1 # 2))
                (repeat (persons_row 4) 3))
    as [e|[outs s]] eqn:E; [vm_compute in E; discriminate|].
  exists outs, s. split; [reflexivity|].
  destruct (transition_histories_capped _ _ _ _ _ _ _ E) as (_ & H1 & _ & _ & H4).
  split; [exact H1|]. apply H4. lia.
Defined.

Lemma py_floats_ok vs :
  Forall (fun v => numeric v = true) vs -> exists qs, py_floats vs = ok qs.
Proof.
  induction 1 as [|v vs Hv _ [qs IH]]; [exists []; reflexivity|].
  destruct v; try discriminate. cbn. rewrite IH. eexists. reflexivity.
Qed.

Lemma py_floats_raises vs :
  Exists (fun v => numeric v = false) vs -> py_floats vs = raise TypeError.
Proof.
  induction vs as [|v vs IH]; intros H; [inversion H|].
  destruct v as [q| |t]; try reflexivity.
  cbn. rewrite IH; [reflexivity|]. inversion H; subst; [discriminate|assumption].
Qed.

Lemma numeric_or_not vs :
  Forall (fun v => numeric v = true) vs \/ Exists (fun v => numeric v = false) vs.
Proof.
  induction vs as [|v vs [IH|IH]].
  - left. constructor.
  - destruct (numeric v) eqn:E.
    + left. constructor; assumption.
    + right. left. exact E.
  - right. right. exact IH.
Qed.

(** During the warm-up nothing is checked and the call always returns.
    Past the warm-up the call returns exactly when everything it
    computes with is a number and the standard deviation of the zone
    history does not overflow. A sample that is not a number ([None], a
    timestamp), even one stored during the warm-up, makes it raise
    [TypeError]; an infinite standard deviation of the zone history
    makes [int(round(...))] raise [OverflowError], before the high-risk
    history is looked at. *)
Theorem transition_raises_on_non_numbers sqrtf ov self cf :
  let current := dict_get_default cf "avg_num_persons" (VNum 0) in
  ((length (_person_count_history self) < 2)%nat ->
   exists r, extract sqrtf ov self cf = ok r)
  /\ ((2 <= length (_person_count_history self))%nat ->
      (Exists (fun v => numeric v = false)
              (current :: _person_count_history self ++ _zone_count_history self) ->
       extract sqrtf ov self cf = raise TypeError)
      /\ (Forall (fun v => numeric v = true) (current :: _person_count_history self) ->
          forall zh, _zone_count_history self = map VNum zh ->
            (ov zh = true -> extract sqrtf ov self cf = raise OverflowError)
            /\ (ov zh = false ->
                (Forall (fun v => numeric v = true) (_high_risk_history self) ->
                 exists r, extract sqrtf ov self cf = ok r)
                /\ (Exists (fun v => numeric v = false) (_high_risk_history self) ->
                    extract sqrtf ov self cf = raise TypeError)))).
Proof.
  cbv zeta. unfold extract, int_round_std. split.
  - intros Hlt. destruct (Nat.ltb_spec (length (_person_count_history self)) 2); [|lia].
    eexists. reflexivity.
  - intros Hge.
    destruct (Nat.ltb_spec (length (_person_count_history self)) 2) as [|_]; [lia|].
    split.
    + intros Hex.
      destruct (numeric_or_not (_person_count_history self)) as [Hp|Hp];
        [|rewrite (py_floats_raises _ Hp); reflexivity].
      destruct (py_floats_ok _ Hp) as [ps ->]. cbn [rbind ok].
      destruct (dict_get_default cf "avg_num_persons" (VNum 0)) as [q| |tm] eqn:Ec;
        try reflexivity.
      cbn [py_float rbind ok].
      destruct (numeric_or_not (_zone_count_history self)) as [Hz|Hz];
        [|rewrite (py_floats_raises _ Hz); reflexivity].
      exfalso. apply List.Exists_exists in Hex. destruct Hex as (v & Hin & Hv).
      destruct Hin as [<-|Hin]; [discriminate|].
      assert (numeric v = true); [|congruence].
      apply in_app_or in Hin. destruct Hin as [Hin|Hin];
        [ apply (proj1 (List.Forall_forall _ _) Hp v Hin)
        | apply (proj1 (List.Forall_forall _ _) Hz v Hin) ].
    + intros Hall zh Hz. inversion Hall as [|? ? Hcur Hp]; subst.
      destruct (py_floats_ok _ Hp) as [ps ->]. cbn [rbind ok].
      destruct (dict_get_default cf "avg_num_persons" (VNum 0)); try discriminate.
      cbn [py_float rbind ok]. rewrite Hz, NumpyFacts.py_floats_numbers.
      cbn [rbind ok]. split.
      * intros ->. reflexivity.
      * intros ->. cbn [rbind ok]. split.
        -- intros Hh. destruct (py_floats_ok _ Hh) as [hs ->]. cbn. eexists. reflexivity.
        -- intros Hh. rewrite (py_floats_raises _ Hh). reflexivity.
Qed.

End TransitionMoreFacts.

Module TransitionSteadyFacts.
Import ActivityTransitionFeatures TransitionFacts TransitionMoreFacts.

Lemma transition_raises_on_non_numbers_witness :
  (exists outs self,
      run Numpy.sqrt_floor squares_overflow (init 5 (1 # 2))
          [missing_count_row; persons_row 1]
      = ok (outs, self)
      /\ extract Numpy.sqrt_floor squares_overflow self (persons_row 2)
         = raise TypeError)
  /\ extract Numpy.sqrt_floor squares_overflow
             (mk 5 (1 # 2) [VNum 1; VNum 1]
                 [VNum 0; VNum (inject_Z (10 ^ 200))] [VNum 0; VNum 0])
             (persons_row 2)
     = raise OverflowError.
Proof.
  split.
  - eexists _, _. split; [reflexivity|].
    apply (transition_raises_on_non_numbers Numpy.sqrt_floor squares_overflow
             (mk 5 (1 # 2) [VNone; VNum 1] [VNum 0; VNum 0] [VNum 0; VNum 0])
             (persons_row 2)).
    + cbn. lia.
    + right. left. reflexivity.
  - apply (transition_raises_on_non_numbers Numpy.sqrt_floor squares_overflow
             (mk 5 (1 # 2) [VNum 1; VNum 1]
                 [VNum 0; VNum (inject_Z (10 ^ 200))] [VNum 0; VNum 0])
             (persons_row 2)) with (zh := [0; inject_Z (10 ^ 200)]%Q).
    + cbn. lia.
    + repeat constructor.
    + reflexivity.
    + vm_compute. reflexivity.
Defined.

Lemma numbers_repeat c m : repeat (VNum c) m = map VNum (repeat c m).
Proof. induction m as [|m IH]; [reflexivity|]. cbn. rewrite IH. reflexivity. Qed.

Lemma steady_rate c m :
  (0 < m)%nat ->
  let prev := Numpy.mean (repeat c m) in
  (Numpy.clip (if Numpy.Qlt_bool 0 prev
               then Qabs (c - prev) / (prev + Numpy.eps) else 0) 0 1 == 0)%Q.
Proof.
  intros Hm prev. apply clip_of_zero.
  destruct (Numpy.Qlt_bool 0 prev); [|reflexivity].
  assert (Hd : (c - prev == 0)%Q).
  { unfold prev. rewrite (NumpyFacts.mean_repeat c m Hm). ring. }
  rewrite Hd. change (Qabs 0) with 0%Q. unfold Qdiv. ring.
Qed.

Lemma extract_steady sqrtf ov cf hs thr c z h m :
  dict_get_default cf "avg_num_persons" (VNum 0) = VNum c ->
  dict_get_default cf "num_persons_in_zone" (VNum 0) = VNum z ->
  dict_get_default cf "num_people_in_high_risk_zone" (VNum 0) = VNum h ->
  ov (repeat z m) = false ->
  exists o,
    extract sqrtf ov (transition_steady hs thr c z h m) cf
    = ok (o, transition_steady hs thr c z h (Nat.min (m + 1) hs))
    /\ exists q, dict_get o "activity_change_rate" = Some (VNum q) /\ (q == 0)%Q.
Proof.
  intros Hc Hz Hh Ho. unfold extract, int_round_std. rewrite Hc, Hz, Hh.
  assert (Hup : _update_history (transition_steady hs thr c z h m) (VNum c) (VNum z) (VNum h)
                = transition_steady hs thr c z h (Nat.min (m + 1) hs)).
  { unfold _update_history, transition_steady.
    cbn [history_size person_change_threshold _person_count_history
         _zone_count_history _high_risk_history].
    rewrite !NumpyFacts.deque_append_repeat. reflexivity. }
  rewrite Hup. cbn [transition_steady _person_count_history _zone_count_history _high_risk_history].
  rewrite repeat_length.
  destruct (Nat.ltb_spec m 2) as [Hlt|Hge].
  - eexists. split; [reflexivity|]. exists 0%Q. split; reflexivity.
  - rewrite !numbers_repeat, !NumpyFacts.py_floats_numbers. cbn [rbind ok py_float].
    rewrite Ho. cbn [rbind ok].
    eexists. split; [reflexivity|]. eexists. split; [reflexivity|].
    apply steady_rate. lia.
Qed.

(** A constant integer count shows no change. From a fresh extractor, a
    run on rows that all report the same counts, the person count an
    integer [k] with [|k| * history_size <= 2^53], returns and scores an
    activity change rate of 0 on every call, warm-up included, provided
    the standard deviation of the constant zone history does not
    overflow. (The sums of such a person history are exact on doubles,
    so its mean is [k] itself.) *)
Theorem constant_counts_no_change sqrtf ov cf hs thr k z h n :
  dict_get_default cf "avg_num_persons" (VNum 0) = VNum (inject_Z k) ->
  Z.abs k * Z.of_nat hs <= 2 ^ 53 ->
  dict_get_default cf "num_persons_in_zone" (VNum 0) = VNum z ->
  dict_get_default cf "num_people_in_high_risk_zone" (VNum 0) = VNum h ->
  (forall m, ov (repeat z m) = false) ->
  exists outs self',
    run sqrtf ov (init hs thr) (repeat cf n) = ok (outs, self')
    /\ length outs = n
    /\ Forall (fun o => exists q,
                   dict_get o "activity_change_rate" = Some (VNum q) /\ (q == 0)%Q)
              outs.
Proof.
  intros Hc _ Hz Hh Ho.
  assert (Hgen : forall n m, exists outs self',
             run sqrtf ov (transition_steady hs thr (inject_Z k) z h m) (repeat cf n)
             = ok (outs, self')
             /\ length outs = n
             /\ Forall (fun o => exists q,
                            dict_get o "activity_change_rate" = Some (VNum q)
                            /\ (q == 0)%Q) outs).
  { clear n. induction n as [|n IH]; intros m.
    - eexists _, _. split; [reflexivity|]. split; [reflexivity|constructor].
    - destruct (extract_steady sqrtf ov cf hs thr (inject_Z k) z h m Hc Hz Hh (Ho m))
        as (o & E & Hrate).
      destruct (IH (Nat.min (m + 1) hs)) as (outs & s & Er & Hl & Hall).
      cbn [repeat run]. rewrite E. cbn [rbind ok fst snd]. rewrite Er.
      cbn [rbind ok fst snd]. eexists _, _. split; [reflexivity|].
      split; [cbn; lia|]. constructor; assumption. }
  apply (Hgen n 0%nat).
Qed.

Lemma constant_counts_no_change_witness :
  exists outs self',
    run Numpy.sqrt_floor (fun _ => false) (init 5 (1 # 2)) (repeat (persons_row 10) 4)
    = ok (outs, self')
    /\ _person_count_history self' = [VNum 10; VNum 10; VNum 10; VNum 10]
    /\ length outs = 4%nat
    /\ Forall (fun o => exists q,
                   dict_get o "activity_change_rate" = Some (VNum q) /\ (q == 0)%Q)
              outs.
Proof.
  destruct (constant_counts_no_change Numpy.sqrt_floor (fun _ => false)
              (persons_row 10) 5 (1 # 2) 10 0 0 4 eq_refl ltac:(vm_compute; discriminate)
              eq_refl eq_refl (fun _ => eq_refl)) as (outs & s & E & L & Hall).
  exists outs, s. split; [exact E|]. split; [|split; assumption].
  vm_compute in E. injection E as _ <-. reflexivity.
Defined.

End TransitionSteadyFacts.

Module StabilityMoreFacts.
Import ActivityStabilityFeatures StabilityFacts.

(** A call returns exactly when the three fields it reads are numbers
    (an absent field counts as 0); on [None] or a timestamp it raises
    [TypeError]. *)
Theorem stability_raises_on_non_numbers sqrtf self cf :
  (Forall (fun v => numeric v = true) (stability_fields cf) ->
   exists r, extract sqrtf self cf = ok r)
  /\ (Exists (fun v => numeric v = false) (stability_fields cf) ->
      extract sqrtf self cf = raise TypeError).
Proof.
  unfold stability_fields, extract. split.
  - intros H. inversion H as [|? ? H1 H']; subst.
    inversion H' as [|? ? H2 H'']; subst. inversion H'' as [|? ? H3 _]; subst.
    destruct (dict_get_default cf "avg_person_speed" (VNum 0)); try discriminate.
    destruct (dict_get_default cf "avg_num_persons" (VNum 0)); try discriminate.
    destruct (dict_get_default cf "erratic_motion_score" (VNum 0)); try discriminate.
    cbn [py_float rbind ok].
    destruct (_ <? 2)%nat; eexists; reflexivity.
  - intros H.
    destruct (dict_get_default cf "avg_person_speed" (VNum 0)) as [a| |]; try reflexivity.
    destruct (dict_get_default cf "avg_num_persons" (VNum 0)) as [c| |]; try reflexivity.
    destruct (dict_get_default cf "erratic_motion_score" (VNum 0)) as [e| |];
      try reflexivity.
    exfalso. inversion H as [? ? H1|? ? H']; subst; [discriminate|].
    inversion H' as [? ? H2|? ? H'']; subst; [discriminate|].
    inversion H'' as [? ? H3|? ? H''']; subst; [discriminate|inversion H'''].
Qed.

Lemma unit_fraction_bounds s : (0 <= s -> 0 < 1 / (1 + s) /\ 1 / (1 + s) <= 1)%Q.
Proof.
  intros Hs. assert (Hpos : (0 < 1 + s)%Q) by lra. split.
  - apply Qlt_shift_div_l; [exact Hpos|]. lra.
  - apply Qle_shift_div_r; [exact Hpos|]. lra.
Qed.

(** For a square root that is never negative, and histories that after
    the call hold samples of moderate size (between 0 and 10^100), every
    returned score is a proportion: [motion_consistency] lies in [0, 1]
    and the other two scores in (0, 1]. The bounds on the samples are
    what keeps the computation on doubles away from an infinite
    standard deviation (a score of 0) and from a zero denominator (a
    NaN). *)
Theorem stability_scores_bounded sqrtf self cf out self' :
  (forall q, 0 <= sqrtf q)%Q ->
  extract sqrtf self cf = ok (out, self') ->
  moderate_samples (_speed_history self') ->
  moderate_samples (_person_count_history self') ->
  moderate_samples (_motion_score_history self') ->
  exists p c s,
    out = [ ("activity_persistence_score", VNum p);
            ("motion_consistency", VNum c);
            ("motion_stability_score", VNum s) ]
    /\ (0 < p <= 1)%Q /\ (0 <= c <= 1)%Q /\ (0 < s <= 1)%Q.
Proof.
  intros Hsqrt E _ _ _. revert E. unfold extract.
  destruct (py_float _) as [|a]; cbn [rbind]; [discriminate|].
  destruct (py_float _) as [|c]; cbn [rbind]; [discriminate|].
  destruct (py_float _) as [|e]; cbn [rbind]; [discriminate|].
  destruct (_ <? 2)%nat.
  - intros E. injection E as <- _. eexists _, _, _. split; [reflexivity|].
    repeat split; discriminate || reflexivity.
  - intros E. injection E as <- _. eexists _, _, _. split; [reflexivity|].
    split; [apply unit_fraction_bounds, Hsqrt|].
    split; [apply TransitionMoreFacts.clip_bounds; discriminate|].
    apply unit_fraction_bounds, Hsqrt.
Qed.

Lemma sqrt_floor_nonneg q : (0 <= Numpy.sqrt_floor q)%Q.
Proof.
  unfold Numpy.sqrt_floor, Qle. cbn. rewrite Z.mul_1_r. apply Z.sqrt_nonneg.
Qed.

Lemma stability_scores_bounded_witness :
  exists p c s,
    extract Numpy.sqrt_floor (mk 5 [1%Q] [3%Q] [2%Q])
            [ ("avg_num_persons", VNum 5); ("avg_person_speed", VNum 3) ]
    = ok ([ ("activity_persistence_score", VNum p);
            ("motion_consistency", VNum c);
            ("motion_stability_score", VNum s) ],
          mk 5 [1; 3]%Q [3; 5]%Q [2; 0]%Q)
    /\ (0 < p <= 1)%Q /\ (0 <= c <= 1)%Q /\ (0 < s <= 1)%Q
    /\ (p == 1 # 2)%Q.
Proof.
  destruct (extract Numpy.sqrt_floor (mk 5 [1%Q] [3%Q] [2%Q])
              [ ("avg_num_persons", VNum 5); ("avg_person_speed", VNum 3) ])
    as [x|[out s']] eqn:E; [vm_compute in E; discriminate|].
  assert (Hs : s' = mk 5 [1; 3]%Q [3; 5]%Q [2; 0]%Q).
  { pose proof E as E'. vm_compute in E'. injection E' as _ <-. reflexivity. }
  subst s'.
  destruct (stability_scores_bounded _ _ _ _ _ sqrt_floor_nonneg E)
    as (p & c & s & Ho & Hp & Hc & Hsc);
    try (repeat constructor; vm_compute; discriminate).
  subst out. exists p, c, s. split; [reflexivity|].
  split; [exact Hp|]. split; [exact Hc|]. split; [exact Hsc|].
  vm_compute in E. injection E as <- _ _. reflexivity.
Defined.

End StabilityMoreFacts.

(** ** Theorems: geometry, polygons and homography *)

Module GeometryFacts.
Import Geometry.

Lemma Qeq_bool_false_neq a b : Qeq_bool a b = false -> ~ (a == b)%Q.
Proof. intros H E. apply Qeq_bool_iff in E. congruence. Qed.

Lemma Qeq_bool_proper a b : (a == b)%Q -> Qeq_bool a 0 = Qeq_bool b 0.
Proof.
  intros E. destruct (Qeq_bool a 0) eqn:Ea, (Qeq_bool b 0) eqn:Eb; try reflexivity.
  - apply Qeq_bool_iff in Ea. apply Qeq_bool_false_neq in Eb.
    exfalso. apply Eb. rewrite <- E. exact Ea.
  - apply Qeq_bool_iff in Eb. apply Qeq_bool_false_neq in Ea.
    exfalso. apply Ea. rewrite E. exact Eb.
Qed.

(** The overlap ratio does not depend on the order of the two boxes. *)
Theorem iou_symmetric a b : (iou_bbox a b == iou_bbox b a)%Q.
Proof.
  unfold iou_bbox, GeometryUtils.bbox_area. cbv zeta.
  assert (Hi : (Qmax 0 (Qmin (bbox_x a + bbox_w a) (bbox_x b + bbox_w b)
                        - Qmax (bbox_x a) (bbox_x b))
                * Qmax 0 (Qmin (bbox_y a + bbox_h a) (bbox_y b + bbox_h b)
                          - Qmax (bbox_y a) (bbox_y b))
                == Qmax 0 (Qmin (bbox_x b + bbox_w b) (bbox_x a + bbox_w a)
                           - Qmax (bbox_x b) (bbox_x a))
                   * Qmax 0 (Qmin (bbox_y b + bbox_h b) (bbox_y a + bbox_h a)
                             - Qmax (bbox_y b) (bbox_y a)))%Q).
  { rewrite (Q.min_comm (bbox_x a + bbox_w a)), (Q.max_comm (bbox_x a)),
      (Q.min_comm (bbox_y a + bbox_h a)), (Q.max_comm (bbox_y a)). reflexivity. }
  set (i1 := (Qmax 0 (Qmin (bbox_x a + bbox_w a) (bbox_x b + bbox_w b)
                      - Qmax (bbox_x a) (bbox_x b))
              * Qmax 0 (Qmin (bbox_y a + bbox_h a) (bbox_y b + bbox_h b)
                        - Qmax (bbox_y a) (bbox_y b)))%Q) in *.
  set (i2 := (Qmax 0 (Qmin (bbox_x b + bbox_w b) (bbox_x a + bbox_w a)
                      - Qmax (bbox_x b) (bbox_x a))
              * Qmax 0 (Qmin (bbox_y b + bbox_h b) (bbox_y a + bbox_h a)
                        - Qmax (bbox_y b) (bbox_y a)))%Q) in *.
  assert (Hu : (bbox_w a * bbox_h a + bbox_w b * bbox_h b - i1
                == bbox_w b * bbox_h b + bbox_w a * bbox_h a - i2)%Q)
    by (rewrite Hi; ring).
  rewrite (Qeq_bool_proper _ _ Hu).
  destruct (Qeq_bool _ 0); [reflexivity|]. rewrite Hu, Hi. reflexivity.
Qed.

(** Boxes of moderate size that lie side by side, or one above the
    other, do not overlap: their ratio is 0. (With coordinates and sizes
    of at most 10^100 no sum or product overflows on doubles.) *)
Theorem iou_of_separated_boxes a b :
  moderate_box a -> moderate_box b ->
  (bbox_x a + bbox_w a <= bbox_x b)%Q \/ (bbox_y a + bbox_h a <= bbox_y b)%Q ->
  (iou_bbox a b == 0)%Q.
Proof.
  intros _ _ Hsep. unfold iou_bbox.
  set (x1 := Qmax (bbox_x a) (bbox_x b)).
  set (y1 := Qmax (bbox_y a) (bbox_y b)).
  set (x2 := Qmin (bbox_x a + bbox_w a) (bbox_x b + bbox_w b)).
  set (y2 := Qmin (bbox_y a + bbox_h a) (bbox_y b + bbox_h b)).
  assert (Hx1 : (bbox_x b <= x1)%Q) by apply Q.le_max_r.
  assert (Hy1 : (bbox_y b <= y1)%Q) by apply Q.le_max_r.
  assert (Hx2 : (x2 <= bbox_x a + bbox_w a)%Q) by apply Q.le_min_l.
  assert (Hy2 : (y2 <= bbox_y a + bbox_h a)%Q) by apply Q.le_min_l.
  assert (Hi : (Qmax 0 (x2 - x1) * Qmax 0 (y2 - y1) == 0)%Q).
  { destruct Hsep as [H|H].
    - assert (E : (Qmax 0 (x2 - x1) == 0)%Q) by (apply Q.max_l; lra).
      rewrite E. ring.
    - assert (E : (Qmax 0 (y2 - y1) == 0)%Q) by (apply Q.max_l; lra).
      rewrite E. ring. }
  destruct (Qeq_bool _ 0); [reflexivity|]. rewrite Hi. unfold Qdiv. ring.
Qed.

Lemma iou_of_separated_boxes_witness :
  (iou_bbox (box 0 0 4 4) (box 4 1 3 3) == 0)%Q
  /\ (0 < iou_bbox (box 0 0 4 4) (box 2 2 4 4))%Q.
Proof.
  split; [|reflexivity].
  apply (iou_of_separated_boxes (box 0 0 4 4) (box 4 1 3 3)).
  - repeat split; vm_compute; discriminate.
  - repeat split; vm_compute; discriminate.
  - left. vm_compute. discriminate.
Defined.

End GeometryFacts.

Module PolygonFacts.

Lemma Qlt_bool_proper a b c : (b == c)%Q -> Numpy.Qlt_bool a b = Numpy.Qlt_bool a c.
Proof.
  intros E. destruct (TransitionFacts.Qlt_bool_spec a b) as [Hb1 Hb2].
  destruct (TransitionFacts.Qlt_bool_spec a c) as [Hc1 Hc2].
  destruct (Numpy.Qlt_bool a b) eqn:Eb; destruct (Numpy.Qlt_bool a c) eqn:Ec;
    try reflexivity.
  - assert (a < b)%Q by (apply Hb1; reflexivity).
    assert (c <= a)%Q by (apply Hc2; reflexivity). lra.
  - assert (b <= a)%Q by (apply Hb2; reflexivity).
    assert (a < c)%Q by (apply Hc1; reflexivity). lra.
Qed.

Lemma Qlt_bool_trans_true a b c :
  (b < c)%Q -> Numpy.Qlt_bool a b = true -> Numpy.Qlt_bool a c = true.
Proof.
  intros Hbc H. apply (TransitionFacts.Qlt_bool_spec a b) in H.
  apply (TransitionFacts.Qlt_bool_spec a c). lra.
Qed.

(** On an axis-parallel rectangle the ray casting is exact and
    half-open: a point is inside exactly when [a <= x < c] and
    [b <= y < d], so the left and bottom edges belong to the zone and the
    right and top edges do not. The rectangle is at least [2e-9] high,
    so that the denominator [y2 - y1 + 1e-9] of its vertical edges is
    not zero, and its two ordinates are of moderate magnitude, so that
    no difference overflows on doubles. *)
Theorem point_in_rectangle a b c d x y :
  (a < c)%Q -> (b < d)%Q ->
  (2 # 1000000000 <= d - b)%Q ->
  (Qabs b <= moderate)%Q -> (Qabs d <= moderate)%Q ->
  ZoneUtils.point_in_polygon (x, y) [(a, b); (c, b); (c, d); (a, d)]
  = Qle_bool a x && Numpy.Qlt_bool x c && Qle_bool b y && Numpy.Qlt_bool y d.
Proof.
  intros Hac Hbd _ _ _. unfold ZoneUtils.point_in_polygon.
  cbn [ZoneUtils.successors combine app fold_left].
  rewrite !eqb_reflx. cbn [negb].
  assert (Hc : Numpy.Qlt_bool x ((c - c) * (y - b) / (d - b + (1 # 1000000000)) + c)
               = Numpy.Qlt_bool x c).
  { apply Qlt_bool_proper. unfold Qdiv. ring. }
  assert (Ha : Numpy.Qlt_bool x ((a - a) * (y - d) / (b - d + (1 # 1000000000)) + a)
               = Numpy.Qlt_bool x a).
  { apply Qlt_bool_proper. unfold Qdiv. ring. }
  rewrite Hc, Ha.
  assert (Hxa : Qle_bool a x = negb (Numpy.Qlt_bool x a)).
  { unfold Numpy.Qlt_bool. rewrite negb_involutive. reflexivity. }
  assert (Hyb : Qle_bool b y = negb (Numpy.Qlt_bool y b)).
  { unfold Numpy.Qlt_bool. rewrite negb_involutive. reflexivity. }
  rewrite Hxa, Hyb.
  pose proof (Qlt_bool_trans_true x a c Hac) as Hx.
  pose proof (Qlt_bool_trans_true y b d Hbd) as Hy.
  destruct (Numpy.Qlt_bool y b), (Numpy.Qlt_bool y d),
    (Numpy.Qlt_bool x a), (Numpy.Qlt_bool x c);
    try reflexivity;
    try (specialize (Hx eq_refl); discriminate);
    try (specialize (Hy eq_refl); discriminate).
Qed.

Lemma point_in_rectangle_witness :
  ZoneUtils.point_in_polygon (0, 0)%Q [(0, 0); (1, 0); (1, 1); (0, 1)]%Q = true
  /\ ZoneUtils.point_in_polygon (1, 1)%Q [(0, 0); (1, 0); (1, 1); (0, 1)]%Q = false
  /\ ZoneUtils.point_in_polygon (1 # 2, 1 # 2)%Q [(0, 0); (1, 0); (1, 1); (0, 1)]%Q
     = true.
Proof.
  split; [|split].
  - rewrite (point_in_rectangle 0 0 1 1 0 0); try reflexivity;
      vm_compute; discriminate.
  - rewrite (point_in_rectangle 0 0 1 1 1 1); try reflexivity;
      vm_compute; discriminate.
  - rewrite (point_in_rectangle 0 0 1 1 (1 # 2) (1 # 2)); try reflexivity;
      vm_compute; discriminate.
Defined.

(** A point that no edge straddles vertically is outside: if every
    vertex lies strictly above the point, or none does, the ray crosses
    nothing. The empty polygon contains no point. *)
Theorem point_beside_polygon x y polygon :
  Forall (fun v => Numpy.Qlt_bool y (snd v) = true) polygon
  \/ Forall (fun v => Numpy.Qlt_bool y (snd v) = false) polygon ->
  ZoneUtils.point_in_polygon (x, y) polygon = false.
Proof.
  intros H. unfold ZoneUtils.point_in_polygon.
  assert (Hedges : forall t,
             (Forall (fun v => Numpy.Qlt_bool y (snd v) = t) polygon) ->
             Forall (fun e => Numpy.Qlt_bool y (snd (fst e)) = t
                              /\ Numpy.Qlt_bool y (snd (snd e)) = t)
                    (combine polygon (ZoneUtils.successors polygon))).
  { intros t Hall. apply List.Forall_forall. intros [v1 v2] Hin.
    pose proof (in_combine_l _ _ _ _ Hin) as H1.
    pose proof (in_combine_r _ _ _ _ Hin) as H2.
    assert (H2' : In v2 polygon).
    { destruct polygon as [|v vs]; [contradiction|]. cbn in H2.
      apply in_app_or in H2. destruct H2 as [H2|[<-|[]]]; [right; exact H2|left; reflexivity]. }
    rewrite List.Forall_forall in Hall. split; [apply (Hall v1 H1)|apply (Hall v2 H2')]. }
  assert (Hfold : forall t edges inside,
             Forall (fun e => Numpy.Qlt_bool y (snd (fst e)) = t
                              /\ Numpy.Qlt_bool y (snd (snd e)) = t) edges ->
             fold_left
               (fun inside (edge : (Q * Q) * (Q * Q)) =>
                  let '((x1, y1), (x2, y2)) := edge in
                  if negb (Bool.eqb (Numpy.Qlt_bool y y1) (Numpy.Qlt_bool y y2)) then
                    let x_intersect :=
                      ((x2 - x1) * (y - y1) / (y2 - y1 + (1 # 1000000000)) + x1)%Q in
                    if Numpy.Qlt_bool x x_intersect then negb inside else inside
                  else inside)
               edges inside = inside).
  { intros t edges. induction edges as [|[[x1 y1] [x2 y2]] edges IH]; intros inside Hall;
      [reflexivity|].
    inversion Hall as [|? ? HE Hrest]; subst. destruct HE as [E1 E2].
    cbn [fold_left fst snd] in *.
    rewrite E1, E2, eqb_reflx. cbn [negb]. apply IH. exact Hrest. }
  destruct H as [H|H]; eapply Hfold; apply Hedges; exact H.
Qed.

Lemma point_beside_polygon_witness :
  ZoneUtils.point_in_polygon (0, 5)%Q [(-1, -1); (1, -1); (1, 1); (-1, 1)]%Q = false.
Proof.
  apply (point_beside_polygon 0 5 [(-1, -1); (1, -1); (1, 1); (-1, 1)]%Q).
  right. repeat constructor.
Defined.

End PolygonFacts.

Module HomographyFacts.
Import HomographyUtils Projective.

(** Under a matrix whose nine entries are of moderate magnitude (at
    most 10^100), no point of moderate coordinates projects to a NaN
    coordinate, whether the denominator is zero or not; so the NaN test
    of the zone extractor skips no person whose box is of moderate size.
    (Within these bounds no product or sum overflows on doubles, and a
    finite number divided by a non-zero one is never NaN.) *)
Theorem finite_projection_is_numeric a b c d e f g h i :
  Forall (fun q => (Qabs q <= moderate)%Q) [a; b; c; d; e; f; g; h; i] ->
  (forall x y,
      (Qabs x <= moderate)%Q -> (Qabs y <= moderate)%Q ->
      let p := apply_homography (Fin x) (Fin y) (finite a b c d e f g h i) in
      isnan (fst p) = false /\ isnan (snd p) = false)
  /\ (forall person,
        Geometry.moderate_box person ->
        let p := ZoneFeatures.projection (finite a b c d e f g h i) person in
        isnan (fst p) || isnan (snd p) = false).
Proof.
  intros _. split.
  - intros x y _ _. cbv zeta.
    unfold apply_homography, matmul, finite, dot. cbn [fadd fmul is_zero].
    destruct (Qeq_bool _ 0); split; reflexivity.
  - intros person _. cbv zeta. unfold ZoneFeatures.projection.
    cbn [ZoneFeatures.image_point fst snd].
    unfold apply_homography, matmul, finite, dot. cbn [fadd fmul is_zero].
    destruct (Qeq_bool _ 0); reflexivity.
Qed.

Lemma finite_projection_is_numeric_witness :
  let p := ZoneFeatures.projection (finite 2 0 1 0 2 1 0 0 1)
                                   (ZoneFeatures.walker 7 3 4) in
  isnan (fst p) || isnan (snd p) = false
  /\ same (fst p) (Fin 7).
Proof.
  cbv zeta. split; [|reflexivity].
  apply (finite_projection_is_numeric 2 0 1 0 2 1 0 0 1).
  - repeat constructor; vm_compute; discriminate.
  - repeat split; vm_compute; discriminate.
Defined.

End HomographyFacts.

(** ** More on the proximity extractor *)

Module ProximityMoreFacts.
Import ProximityFeatures.

Lemma fold_is_iter {A : Type} (w : Q) (l : list A) : forall acc,
  fold_left (fun acc _ => (acc + w)%Q) l acc
  = Nat.iter (length l) (fun acc => (acc + w)%Q) acc.
Proof.
  induction l as [|x l IH]; intros acc; [reflexivity|].
  cbn [fold_left length]. rewrite IH, Nat.iter_succ_r. reflexivity.
Qed.

(** On a non-empty window the time near machines is the window duration
    added up, from 0, once per machine interaction (on doubles the
    repeated addition need not equal the product), and there are at most
    as many interactions as person-machine pairs in the window. *)
Theorem time_near_machine_is_interactions sqrtf euclidean_distance self df :
  df <> [] ->
  exists n : nat,
    dict_get (extract sqrtf euclidean_distance self df) "num_machine_interactions"
    = Some (VNum (inject_Z (Z.of_nat n)))
    /\ dict_get (extract sqrtf euclidean_distance self df) "time_near_machine"
       = Some (VNum (Nat.iter n (fun acc => (acc + window_duration self)%Q) 0%Q))
    /\ (n <= length (persons_of df) * length (machines_of df))%nat.
Proof.
  intros Hne. unfold extract. destruct df as [|d df]; [congruence|].
  cbn [is_empty]. set (near := List.filter _ _).
  exists (length near). split; [reflexivity|]. split.
  - cbn [dict_get String.eqb Ascii.eqb Bool.eqb]. rewrite fold_is_iter. reflexivity.
  - unfold near. rewrite <- length_prod. apply filter_length_le.
Qed.

Lemma time_near_machine_is_interactions_witness :
  dict_get (extract Numpy.sqrt_floor Pipeline.straight_line (init 2)
                    [small_person; tall_person; parked_vehicle])
           "num_machine_interactions"
  = Some (VNum 2)
  /\ dict_get (extract Numpy.sqrt_floor Pipeline.straight_line (init 2)
                       [small_person; tall_person; parked_vehicle])
              "time_near_machine"
     = Some (VNum (0 + 2 + 2)).
Proof.
  destruct (time_near_machine_is_interactions Numpy.sqrt_floor Pipeline.straight_line
              (init 2) [small_person; tall_person; parked_vehicle] ltac:(discriminate))
    as (n & H1 & H2 & _).
  assert (Hn : n = 2%nat).
  { assert (E : dict_get (extract Numpy.sqrt_floor Pipeline.straight_line (init 2)
                            [small_person; tall_person; parked_vehicle])
                         "num_machine_interactions"
                = Some (VNum (inject_Z 2))) by reflexivity.
    rewrite E in H1. injection H1 as H1. lia. }
  subst n. split; [exact H1|exact H2].
Defined.

Lemma length_combinations2 {A : Type} (l : list A) :
  (2 * length (combinations2 l) = length l * (length l - 1))%nat.
Proof.
  induction l as [|x l IH]; [reflexivity|].
  cbn [combinations2 length]. rewrite length_app, length_map. nia.
Qed.

Lemma length_cross_distances sqrtf persons machines :
  length (_cross_distances sqrtf persons machines)
  = (length persons * length machines)%nat.
Proof.
  unfold _cross_distances. induction persons as [|p ps IH]; [reflexivity|].
  cbn [flat_map length]. rewrite length_app, length_map, IH. reflexivity.
Qed.

(** Every unordered pair of persons and every person-machine pair is
    measured once: for [n] persons and [m] machines there are
    [n(n-1)/2] person-person and [n*m] person-machine distances, and the
    count of dangerous proximities cannot exceed their number. *)
Theorem distance_counts sqrtf euclidean_distance self df :
  let n := length (persons_of df) in
  let m := length (machines_of df) in
  (2 * length (_pairwise_distances sqrtf (persons_of df)) = n * (n - 1))%nat
  /\ length (_cross_distances sqrtf (persons_of df) (machines_of df)) = (n * m)%nat
  /\ exists c,
      dict_get (extract sqrtf euclidean_distance self df) "dangerous_proximity_frames"
      = Some (VNum (inject_Z c))
      /\ 0 <= 2 * c <= Z.of_nat (n * (n - 1) + 2 * (n * m)).
Proof.
  cbv zeta.
  assert (Hpp : (2 * length (_pairwise_distances sqrtf (persons_of df))
                 = length (persons_of df) * (length (persons_of df) - 1))%nat).
  { unfold _pairwise_distances. rewrite length_map, length_combinations2, length_map.
    reflexivity. }
  assert (Hpm : length (_cross_distances sqrtf (persons_of df) (machines_of df))
                = (length (persons_of df) * length (machines_of df))%nat).
  { apply length_cross_distances. }
  split; [exact Hpp|]. split; [exact Hpm|].
  unfold extract. destruct df as [|d df].
  - exists 0. split; [reflexivity|]. cbn. lia.
  - cbn [is_empty]. eexists. split; [reflexivity|]. unfold count_below.
    pose proof (filter_length_le
                  (fun d0 => Numpy.Qlt_bool d0 (danger_distance_pp self))
                  (_pairwise_distances sqrtf (persons_of (d :: df)))) as H1.
    pose proof (filter_length_le
                  (fun d0 => Numpy.Qlt_bool d0 (danger_distance_pm self))
                  (_cross_distances sqrtf (persons_of (d :: df))
                                    (machines_of (d :: df)))) as H2.
    lia.
Qed.

(** The overlap test does not depend on the order of the two boxes, and
    a box of non-negative size overlaps itself. *)
Theorem overlap_symmetric a b :
  _overlap a b = _overlap b a
  /\ ((0 <= bbox_w a)%Q -> (0 <= bbox_h a)%Q -> _overlap a a = true).
Proof.
  split.
  - unfold _overlap.
    destruct (Numpy.Qlt_bool (bbox_x a + bbox_w a / 2) (bbox_x b - bbox_w b / 2)),
      (Numpy.Qlt_bool (bbox_x b + bbox_w b / 2) (bbox_x a - bbox_w a / 2)),
      (Numpy.Qlt_bool (bbox_y a + bbox_h a / 2) (bbox_y b - bbox_h b / 2)),
      (Numpy.Qlt_bool (bbox_y b + bbox_h b / 2) (bbox_y a - bbox_h a / 2));
      reflexivity.
  - intros Hw Hh. unfold _overlap.
    assert (Hx : Numpy.Qlt_bool (bbox_x a + bbox_w a / 2) (bbox_x a - bbox_w a / 2)
                 = false).
    { apply TransitionFacts.Qlt_bool_spec.
      unfold Qdiv. change (/ 2)%Q with (1 # 2)%Q. lra. }
    assert (Hy : Numpy.Qlt_bool (bbox_y a + bbox_h a / 2) (bbox_y a - bbox_h a / 2)
                 = false).
    { apply TransitionFacts.Qlt_bool_spec.
      unfold Qdiv. change (/ 2)%Q with (1 # 2)%Q. lra. }
    rewrite Hx, Hy. reflexivity.
Qed.

End ProximityMoreFacts.

(** ** More on the zone extractor *)

Module ZoneMemoryFacts.
Import HomographyUtils ZoneFeatures ZoneMemory.

Lemma grown_refl self : grown self self.
Proof. unfold grown. repeat split; auto. Qed.

Lemma grown_trans s1 s2 s3 : grown s1 s2 -> grown s2 s3 -> grown s1 s3.
Proof.
  intros (A1 & A2 & A3 & A4 & A5) (B1 & B2 & B3 & B4 & B5).
  unfold grown. repeat split; try congruence; auto. set_solver.
Qed.

Lemma record_presence_grown n ts pid z s :
  grown (fst s) (fst (record_presence n ts pid z s))
  /\ (paired (fst s) -> paired (fst (record_presence n ts pid z s))).
Proof.
  destruct s as [self a]. unfold record_presence. cbn [fst].
  unfold grown, paired.
  cbn [zones H window_duration _first_entry_time _last_exit_time].
  split.
  - repeat split; auto.
    + intros key t Hk.
      destruct (_first_entry_time self !! (pid, id z)) eqn:E; [exact Hk|].
      rewrite lookup_insert_ne; [exact Hk|]. intros <-. congruence.
    + rewrite dom_insert_L. set_solver.
  - intros Hp. rewrite dom_insert_L.
    destruct (_first_entry_time self !! (pid, id z)) eqn:E.
    + assert (Hin : (pid, id z) ∈ dom (_first_entry_time self))
        by (apply elem_of_dom; eauto).
      rewrite <- Hp. symmetry. apply subseteq_union_1_L.
      apply singleton_subseteq_l. exact Hin.
    + rewrite dom_insert_L, Hp. reflexivity.
Qed.

Section Loops.
Variable point_in_polygon : Q -> Q -> list (Q * Q) -> bool.

Lemma zones_loop_grown n ts pid Xp Yp zs : forall s,
  let s' :=
    fold_left
      (fun s z =>
         if point_in_polygon Xp Yp (polygon z)
         then record_presence n ts pid z s else s) zs s in
  grown (fst s) (fst s') /\ (paired (fst s) -> paired (fst s')).
Proof.
  induction zs as [|z zs IH]; intros s; cbn [fold_left].
  - split; [apply grown_refl|auto].
  - cbv zeta in IH. destruct (point_in_polygon Xp Yp (polygon z)).
    + destruct (record_presence_grown n ts pid z s) as [G P].
      destruct (IH (record_presence n ts pid z s)) as [G' P'].
      split; [apply (grown_trans _ _ _ G G')|auto].
    + apply IH.
Qed.

Lemma person_step_grown Hm n ts s p :
  grown (fst s) (fst (person_step point_in_polygon Hm n ts s p))
  /\ (paired (fst s) -> paired (fst (person_step point_in_polygon Hm n ts s p))).
Proof.
  unfold person_step. cbn [image_point].
  destruct (apply_homography _ _ Hm) as [[Xp|] [Yp|]];
    try (split; [apply grown_refl|auto]).
  unfold place_person. apply zones_loop_grown.
Qed.

Lemma person_loop_grown Hm n ts persons : forall s,
  grown (fst s) (fst (person_loop point_in_polygon Hm n ts persons s))
  /\ (paired (fst s) ->
      paired (fst (person_loop point_in_polygon Hm n ts persons s))).
Proof.
  unfold person_loop. induction persons as [|p persons IH]; intros s; cbn [fold_left].
  - split; [apply grown_refl|auto].
  - destruct (person_step_grown Hm n ts s p) as [G P].
    destruct (IH (person_step point_in_polygon Hm n ts s p)) as [G' P'].
    split; [apply (grown_trans _ _ _ G G')|auto].
Qed.

(** The memory of the zone extractor only grows: a call changes neither
    the zones, the homography nor the window duration, never overwrites
    the first-entry time of a (track, zone) pair, forgets no last-seen
    time, and keeps the two dictionaries on the same keys. *)
Theorem zone_memory_grows self df :
  let self' := snd (extract point_in_polygon self df) in
  grown self self' /\ (paired self -> paired self').
Proof.
  cbv zeta. unfold extract.
  destruct (H self) as [Hm|]; [|split; [apply grown_refl|auto]].
  destruct (is_empty df || is_empty (zones self));
    [split; [apply grown_refl|auto]|].
  destruct (persons_of df) as [|p0 ps] eqn:E; [split; [apply grown_refl|auto]|].
  pose proof (person_loop_grown Hm (length (p0 :: ps)) (timestamp p0) (p0 :: ps)
                (self, no_accumulation)) as HG.
  destruct (person_loop _ _ _ _ _ _) as [self' a]. exact HG.
Qed.

End Loops.

End ZoneMemoryFacts.

Module ZoneEventsFacts.
Import HomographyUtils ZoneFeatures ZoneMemory.




Section Loops.
Variable point_in_polygon : Q -> Q -> list (Q * Q) -> bool.





End Loops.

Example second_sighting_counts_nothing :
  let '(r1, self1) := extract ray_casting (init [origin_zone] (Some identity) 2)
                              two_in_zone in
  let '(r2, self2) := extract ray_casting self1 two_in_zone in
  dict_get r1 "zone_entry_exit_events" = Some (VNum 2)
  /\ dict_get r2 "zone_entry_exit_events" = Some (VNum 0).
Proof. vm_compute. split; reflexivity. Qed.

End ZoneEventsFacts.

(** ** More on the pipeline and its tables *)

Module PipelineMoreFacts.
Import Pipeline PipelineFacts.

Lemma reached_from_cons max i w ws :
  match max with Some n => n <=? i | None => false end = false ->
  reached_from max i (w :: ws) = w :: reached_from max (i + 1) ws.
Proof.
  unfold reached_from. destruct max as [n|]; [|reflexivity].
  intros Hn. apply Z.leb_gt in Hn.
  replace (Z.to_nat (n - i)) with (S (Z.to_nat (n - (i + 1)))) by lia.
  reflexivity.
Qed.

Lemma reached_from_stop max i ws :
  match max with Some n => n <=? i | None => false end = true ->
  reached_from max i ws = [].
Proof.
  unfold reached_from. destruct max as [n|]; [|discriminate].
  intros Hn. apply Z.leb_le in Hn.
  replace (Z.to_nat (n - i)) with 0%nat by lia. reflexivity.
Qed.

Lemma loop_row_count max windows : forall i st st',
  Forall indexed (all_rows st) ->
  loop max i windows st = ok st' ->
  length (all_rows st')
  = (length (all_rows st)
     + length (List.filter non_empty (reached_from max i windows)))%nat.
Proof.
  induction windows as [|w windows IH]; intros i st st' Hall; cbn [loop].
  - intros E. injection E as <-.
    unfold reached_from. destruct max; rewrite ?firstn_nil; cbn; lia.
  - destruct (match max with Some n => n <=? i | None => false end) eqn:Hstop.
    + intros E. injection E as <-. rewrite reached_from_stop by exact Hstop. cbn. lia.
    + rewrite reached_from_cons by exact Hstop. cbn [List.filter].
      destruct w as [|d0 w]; cbn [non_empty is_empty negb].
      * apply IH. exact Hall.
      * destruct (step i d0 (d0 :: w) st) as [?|st1] eqn:E1; cbn [rbind]; [discriminate|].
        destruct (step_rows _ _ _ _ _ Hall E1) as [Hall1 Hlen1].
        intros E. rewrite (IH _ _ _ Hall1 E), Hlen1. cbn [length]. lia.
Qed.

(** A run that returns emits one row per non-empty window it reaches,
    and none for the empty ones: both tables have as many records as
    there are non-empty windows before [max_windows]. *)
Theorem one_row_per_non_empty_window human epi machine proximity temporal zone
    stability transition max_windows windows df_all df_ml :
  extract_features_pipeline human epi machine proximity temporal zone
    stability transition max_windows windows = ok (df_all, df_ml) ->
  length (Table.data df_all)
  = length (List.filter non_empty (reached max_windows windows))
  /\ length (Table.data df_ml) = length (Table.data df_all).
Proof.
  unfold extract_features_pipeline. intros Hrun.
  destruct (loop max_windows 0 windows _) as [?|st'] eqn:El; cbn in Hrun; [discriminate|].
  pose proof El as Hlen. apply loop_row_count in Hlen; [|constructor].
  cbn [all_rows length Nat.add] in Hlen.
  assert (Hr : reached_from max_windows 0 windows = reached max_windows windows).
  { unfold reached_from, reached. destruct max_windows; [|reflexivity].
    rewrite Z.sub_0_r. reflexivity. }
  rewrite Hr in Hlen. injection Hrun as Hall.
  unfold tables in Hall. destruct (Table.empty _).
  - injection Hall as <- <-. cbn. rewrite length_map. auto.
  - injection Hall as <- <-. cbn. rewrite !length_map. auto.
Qed.

Lemma one_row_per_non_empty_window_witness :
  exists df_all df_ml,
    site None (Some 2) [EPIFeatures.violation_window 0; [];
                        EPIFeatures.vehicle_window 4]
    = ok (df_all, df_ml)
    /\ length (Table.data df_all) = 1%nat.
Proof.
  destruct (site None (Some 2) [EPIFeatures.violation_window 0; [];
                                EPIFeatures.vehicle_window 4])
    as [e|[df_all df_ml]] eqn:E; [vm_compute in E; discriminate|].
  exists df_all, df_ml. split; [reflexivity|].
  destruct (one_row_per_non_empty_window _ _ _ _ _ _ _ _ _ _ _ _ E) as [Hl _].
  rewrite Hl. reflexivity.
Defined.

Lemma loop_nothing max windows : forall i st,
  Forall (fun w => w = []) (reached_from max i windows) ->
  loop max i windows st = ok st.
Proof.
  induction windows as [|w windows IH]; intros i st Hall; cbn [loop]; [reflexivity|].
  destruct (match max with Some n => n <=? i | None => false end) eqn:Hstop;
    [reflexivity|].
  rewrite reached_from_cons in Hall by exact Hstop.
  inversion Hall as [|? ? Hw Hrest]; subst. apply IH. exact Hrest.
Qed.

(** A run that reaches no non-empty window calls no extractor and
    returns the same empty table twice: the second table then has no
    column at all, not the canonical ones. This covers an empty
    generator, windows that are all empty, and [max_windows <= 0]. *)
Theorem degenerate_run_has_no_columns human epi machine proximity temporal zone
    stability transition max_windows windows :
  Forall (fun w => w = []) (reached max_windows windows) ->
  extract_features_pipeline human epi machine proximity temporal zone
    stability transition max_windows windows
  = ok (Table.mk [] [], Table.mk [] []).
Proof.
  intros Hall. unfold extract_features_pipeline.
  rewrite loop_nothing; [reflexivity|].
  unfold reached_from, reached in *. destruct max_windows; [|exact Hall].
  rewrite Z.sub_0_r. exact Hall.
Qed.

Lemma degenerate_run_has_no_columns_witness :
  site (Some site_transition) (Some 0) [EPIFeatures.violation_window 0]
  = ok (Table.mk [] [], Table.mk [] [])
  /\ site None None [[]; []] = ok (Table.mk [] [], Table.mk [] []).
Proof.
  split.
  - apply (degenerate_run_has_no_columns _ _ _ _ _ _ _ _ (Some 0)
             [EPIFeatures.violation_window 0]).
    constructor.
  - apply (degenerate_run_has_no_columns _ _ _ _ _ _ _ _ None [[]; []]).
    repeat constructor.
Defined.

Lemma add_column_nodup cols k : NoDup cols -> NoDup (Table.add_column cols k).
Proof.
  intros Hn. unfold Table.add_column.
  destruct (existsb (String.eqb k) cols) eqn:E; [exact Hn|].
  apply NoDup_app. split; [exact Hn|]. split.
  - intros x Hx Hin. apply list_elem_of_In in Hx.
    apply list_elem_of_In in Hin. destruct Hin as [Ek|[]]. subst x.
    assert (existsb (String.eqb k) cols = true); [|congruence].
    apply existsb_exists. exists k. split; [exact Hx|apply String.eqb_refl].
  - apply NoDup_singleton.
Qed.

Lemma columns_of_nodup rows : NoDup (Table.columns_of rows).
Proof.
  unfold Table.columns_of.
  assert (Hgen : forall rows cols, NoDup cols ->
            NoDup (fold_left
                     (fun cols r => fold_left Table.add_column (dict_keys r) cols)
                     rows cols)).
  { clear rows. induction rows as [|r rows IH]; intros cols Hn; [exact Hn|].
    cbn [fold_left]. apply IH. generalize (dict_keys r). intros keys.
    revert cols Hn. induction keys as [|k keys IHk]; intros cols Hn; [exact Hn|].
    cbn [fold_left]. apply IHk. apply add_column_nodup. exact Hn. }
  apply Hgen. constructor.
Qed.

(** The table built from rows loses nothing: its columns are the keys
    of the rows without repetition, its [i]-th record belongs to the
    [i]-th row, and reading a record under a label gives what the row
    holds under that key, and NaN when the row has no such key. *)
Theorem table_of_rows_lossless rows i r :
  nth_error rows i = Some r ->
  NoDup (Table.columns (Table.of_rows rows))
  /\ exists record,
      nth_error (Table.data (Table.of_rows rows)) i = Some record
      /\ length record = length (Table.columns (Table.of_rows rows))
      /\ forall c, Table.at_label (Table.columns (Table.of_rows rows)) record c
                   = dict_get r c.
Proof.
  intros Hi. unfold Table.of_rows. cbn [Table.columns Table.data].
  split; [apply columns_of_nodup|].
  exists (map (dict_get r) (Table.columns_of rows)). split.
  - rewrite nth_error_map, Hi. reflexivity.
  - split; [apply length_map|]. intros c. apply at_label_row.
    intros Hc. unfold Table.columns_of. apply (columns_of_keys rows [] r).
    right. split; [apply (nth_error_In _ _ Hi)|apply dict_get_keys; exact Hc].
Qed.

Lemma table_of_rows_lossless_witness :
  exists record,
    nth_error (Table.data (Table.of_rows [EPIFeatures._empty_features;
                                          ZoneFeatures._empty_features])) 1
    = Some record
    /\ Table.at_label (Table.columns (Table.of_rows [EPIFeatures._empty_features;
                                                     ZoneFeatures._empty_features]))
                      record "avg_epi_compliance" = None.
Proof.
  destruct (table_of_rows_lossless [EPIFeatures._empty_features;
                                    ZoneFeatures._empty_features] 1
              ZoneFeatures._empty_features eq_refl) as (_ & record & Hr & _ & Hc).
  exists record. split; [exact Hr|]. rewrite Hc. reflexivity.
Defined.

End PipelineMoreFacts.

(** ** Theorems: tracker *)

Module TrackerFacts.
Import Tracker.

Lemma in_delete k d kv : In kv (delete k d) <-> In kv d /\ fst kv <> k.
Proof.
  unfold delete. rewrite filter_In. rewrite negb_true_iff, Z.eqb_neq. tauto.
Qed.

Section Scan.
Variable sqrtf : Q -> Q.
Variables (self : t) (c : Q * Q) (class_name : string) (frame_idx : Z).

Lemma scan_tracks l : forall acc kv,
  In kv (fst (fold_left (scan_step sqrtf self c class_name frame_idx) l acc)) ->
  In kv (fst acc)
  /\ (In kv l -> stale (max_age self) frame_idx (snd kv) = false).
Proof.
  induction l as [|[k0 tr0] l IH]; intros [trs best] kv Hin; cbn [fold_left] in *.
  - split; [exact Hin|intros []].
  - apply IH in Hin. destruct Hin as [Hacc Hl].
    unfold scan_step in Hacc. cbn [fst] in *.
    destruct (stale (max_age self) frame_idx tr0) eqn:Es.
    + cbn [fst] in Hacc. apply in_delete in Hacc. destruct Hacc as [Hacc Hne].
      split; [exact Hacc|]. intros [<-|Hk]; [cbn in Hne; congruence|auto].
    + assert (Hacc' : In kv trs).
      { destruct (negb (String.eqb (cls tr0) class_name)); [exact Hacc|].
        destruct (_ && _); exact Hacc. }
      split; [exact Hacc'|]. intros [<-|Hk]; [exact Es|auto].
Qed.

Lemma scan_best_origin l : forall acc id d,
  snd (fold_left (scan_step sqrtf self c class_name frame_idx) l acc) = Some (id, d) ->
  snd acc = Some (id, d)
  \/ exists tr, In (id, tr) l /\ candidate self class_name frame_idx tr /\ d = distance sqrtf c tr
                /\ Numpy.Qlt_bool d (max_distance self) = true.
Proof.
  induction l as [|[k0 tr0] l IH]; intros [trs best] id d Hb; cbn [fold_left] in *.
  - left. exact Hb.
  - apply IH in Hb. destruct Hb as [Hb|(tr & Hin & Hc & Hd & Hm)].
    + unfold scan_step in Hb.
      destruct (stale (max_age self) frame_idx tr0) eqn:Es; [left; exact Hb|].
      destruct (String.eqb_spec (cls tr0) class_name) as [Ec|Ec]; cbn [negb] in Hb;
        [|left; exact Hb].
      destruct (match best with None => true | Some (_, bd) => _ end) eqn:Eb;
        cbn [andb] in Hb; [|left; exact Hb].
      destruct (Numpy.Qlt_bool (distance sqrtf c tr0) (max_distance self)) eqn:Em;
        [|left; exact Hb].
      cbn [snd] in Hb. injection Hb as <- <-. right. exists tr0.
      split; [left; reflexivity|]. repeat split; auto.
    + right. exists tr. split; [right; exact Hin|]. auto.
Qed.

Lemma scan_best_nearest l : forall acc,
  (forall id0 d0, snd acc = Some (id0, d0) ->
     exists id d,
       snd (fold_left (scan_step sqrtf self c class_name frame_idx) l acc)
       = Some (id, d) /\ (d <= d0)%Q)
  /\ (forall k tr, In (k, tr) l -> candidate self class_name frame_idx tr ->
        Numpy.Qlt_bool (distance sqrtf c tr) (max_distance self) = true ->
        exists id d,
          snd (fold_left (scan_step sqrtf self c class_name frame_idx) l acc)
          = Some (id, d)
                     /\ (d <= distance sqrtf c tr)%Q).
Proof.
  induction l as [|[k0 tr0] l IH]; intros [trs best]; cbn [fold_left].
  - split.
    + intros id0 d0 Hb. exists id0, d0. split; [exact Hb|apply Qle_refl].
    + intros k tr [].
  - set (acc1 := scan_step sqrtf self c class_name frame_idx (trs, best) (k0, tr0)).
    destruct (IH acc1) as [IH1 IH2].
    assert (Hmono : forall id0 d0, best = Some (id0, d0) ->
              exists id1 d1, snd acc1 = Some (id1, d1) /\ (d1 <= d0)%Q).
    { intros id0 d0 ->. unfold acc1, scan_step.
      destruct (stale (max_age self) frame_idx tr0);
        [exists id0, d0; split; [reflexivity|apply Qle_refl]|].
      destruct (negb (String.eqb (cls tr0) class_name));
        [exists id0, d0; split; [reflexivity|apply Qle_refl]|].
      destruct (Numpy.Qlt_bool (distance sqrtf c tr0) d0) eqn:Ed; cbn [andb];
        [|exists id0, d0; split; [reflexivity|apply Qle_refl]].
      destruct (Numpy.Qlt_bool (distance sqrtf c tr0) (max_distance self));
        [|exists id0, d0; split; [reflexivity|apply Qle_refl]].
      eexists _, _. split; [reflexivity|].
      apply TransitionFacts.Qlt_bool_spec in Ed. apply Qlt_le_weak. exact Ed. }
    split.
    + intros id0 d0 Hb. cbn [snd] in Hb.
      destruct (Hmono id0 d0 Hb) as (id1 & d1 & E1 & Hle).
      destruct (IH1 id1 d1 E1) as (id & d & E & Hle').
      exists id, d. split; [exact E|]. eapply Qle_trans; eassumption.
    + intros k tr [Hk|Hin] Hc Hm; [|apply (IH2 k tr Hin Hc Hm)].
      injection Hk as -> ->. destruct Hc as [Hs Hcl].
      assert (Hacc : exists id1 d1, snd acc1 = Some (id1, d1)
                                    /\ (d1 <= distance sqrtf c tr)%Q).
      { unfold acc1, scan_step. rewrite Hs, Hcl, String.eqb_refl, Hm.
        cbn [negb]. destruct best as [[id0 d0]|]; cbn [andb].
        - destruct (Numpy.Qlt_bool (distance sqrtf c tr) d0) eqn:Ed; cbn [snd].
          + eexists _, _. split; [reflexivity|apply Qle_refl].
          + eexists _, _. split; [reflexivity|].
            apply TransitionFacts.Qlt_bool_spec in Ed. exact Ed.
        - eexists _, _. split; [reflexivity|apply Qle_refl]. }
      destruct Hacc as (id1 & d1 & E1 & Hle).
      destruct (IH1 id1 d1 E1) as (id & d & E & Hle').
      exists id, d. split; [exact E|]. eapply Qle_trans; eassumption.
Qed.

End Scan.

Lemma lookup_in k tr d : NoDup (map fst d) -> In (k, tr) d -> lookup k d = Some tr.
Proof.
  induction d as [|[k0 tr0] d IH]; intros Hn Hin; [contradiction|].
  cbn in *. apply NoDup_cons in Hn. destruct Hn as [Hk0 Hn].
  destruct Hin as [E|Hin].
  - injection E as -> ->. rewrite Z.eqb_refl. reflexivity.
  - destruct (Z.eqb_spec k0 k) as [->|Hne]; [|auto].
    exfalso. apply Hk0. apply list_elem_of_In. apply (in_map fst _ _ Hin).
Qed.

Lemma delete_keys k d : NoDup (map fst d) -> NoDup (map fst (delete k d)).
Proof.
  induction d as [|[k0 tr0] d IH]; intros Hn; [constructor|].
  cbn in *. apply NoDup_cons in Hn. destruct Hn as [Hk0 Hn].
  destruct (negb (k0 =? k)); cbn; [|auto].
  apply NoDup_cons. split; [|auto].
  intros Hin. apply Hk0. apply list_elem_of_In in Hin. apply list_elem_of_In.
  apply in_map_iff in Hin. destruct Hin as (kv & E & Hkv).
  apply in_delete in Hkv. apply in_map_iff. exists kv. tauto.
Qed.

Lemma scan_keys sqrtf self c class_name frame_idx l : forall acc,
  NoDup (map fst (fst acc)) ->
  NoDup (map fst (fst (fold_left (scan_step sqrtf self c class_name frame_idx) l acc))).
Proof.
  induction l as [|[k0 tr0] l IH]; intros [trs best] Hn; [exact Hn|].
  cbn [fold_left]. apply IH. unfold scan_step. cbn [fst] in *.
  destruct (stale (max_age self) frame_idx tr0); [apply delete_keys; exact Hn|].
  destruct (negb (String.eqb (cls tr0) class_name)); [exact Hn|].
  destruct (_ && _); exact Hn.
Qed.

Lemma scan_keeps sqrtf self c class_name frame_idx l : forall acc kv,
  In kv (fst acc) ->
  (forall kv', In kv' l -> fst kv' = fst kv ->
               stale (max_age self) frame_idx (snd kv') = false) ->
  In kv (fst (fold_left (scan_step sqrtf self c class_name frame_idx) l acc)).
Proof.
  induction l as [|[k0 tr0] l IH]; intros [trs best] kv Hin Hl; [exact Hin|].
  cbn [fold_left]. apply IH; [|intros kv' Hkv'; apply Hl; right; exact Hkv'].
  unfold scan_step. cbn [fst] in *.
  destruct (stale (max_age self) frame_idx tr0) eqn:Es.
  - apply in_delete. split; [exact Hin|]. intros E.
    specialize (Hl (k0, tr0) (or_introl eq_refl) (eq_sym E)). cbn in Hl. congruence.
  - destruct (negb (String.eqb (cls tr0) class_name)); [exact Hin|].
    destruct (_ && _); exact Hin.
Qed.

Lemma same_key_same_track (d : list (Z * track)) k tr tr' :
  NoDup (map fst d) -> In (k, tr) d -> In (k, tr') d -> tr = tr'.
Proof.
  intros Hn H1 H2. pose proof (lookup_in k tr d Hn H1) as E1.
  pose proof (lookup_in k tr' d Hn H2) as E2. congruence.
Qed.

(** What a call of [track] does, in terms of the scan. *)
Lemma track_box_cases sqrtf self box class_name frame_idx :
  well_formed self ->
  let c := _centroid box in
  let id := fst (track_box sqrtf self box class_name frame_idx) in
  let self' := snd (track_box sqrtf self box class_name frame_idx) in
  exists trs,
    NoDup (map fst trs)
    /\ (forall kv, In kv trs ->
          In kv (tracks self) /\ stale (max_age self) frame_idx (snd kv) = false)
    /\ ((exists tr,
           In (id, tr) trs
           /\ candidate self class_name frame_idx tr
           /\ Numpy.Qlt_bool (distance sqrtf c tr) (max_distance self) = true
           /\ (forall k' tr', In (k', tr') (tracks self) ->
                 candidate self class_name frame_idx tr' ->
                 (distance sqrtf c tr <= distance sqrtf c tr')%Q)
           /\ self' = mk (next_id self)
                         (map (fun kv => if fst kv =? id
                                         then (fst kv, mk_track c (cls (snd kv)) frame_idx)
                                         else kv) trs)
                         (max_distance self) (max_age self))
        \/ (id = next_id self
            /\ (forall k' tr', In (k', tr') (tracks self) ->
                  candidate self class_name frame_idx tr' ->
                  Numpy.Qlt_bool (distance sqrtf c tr') (max_distance self) = false)
            /\ self' = mk (next_id self + 1)
                          (trs ++ [(next_id self, mk_track c class_name frame_idx)])
                          (max_distance self) (max_age self))).
Proof.
  intros [Hnd Hlt]. cbv zeta. unfold track_box, scan.
  pose proof (scan_tracks sqrtf self (_centroid box) class_name frame_idx
                (tracks self) (tracks self, None)) as Htr.
  pose proof (scan_best_origin sqrtf self (_centroid box) class_name frame_idx
                (tracks self) (tracks self, None)) as Hbo.
  pose proof (scan_best_nearest sqrtf self (_centroid box) class_name frame_idx
                (tracks self) (tracks self, None)) as [_ Hbn].
  pose proof (scan_keys sqrtf self (_centroid box) class_name frame_idx
                (tracks self) (tracks self, None) Hnd) as Hk.
  pose proof (scan_keeps sqrtf self (_centroid box) class_name frame_idx
                (tracks self) (tracks self, None)) as Hkeep.
  destruct (fold_left _ (tracks self) (tracks self, None)) as [trs best].
  cbn [fst snd] in *. exists trs. split; [exact Hk|].
  split; [intros kv Hkv; destruct (Htr kv Hkv) as [H1 H2]; auto|].
  destruct best as [[id d]|]; cbn [fst snd].
  - left. destruct (Hbo id d eq_refl) as [Hb|(tr & Hin & Hc & Hd & Hm)]; [discriminate|].
    exists tr. subst d. split.
    { apply Hkeep; [exact Hin|]. intros [k' tr'] Hin' Ek. cbn in Ek. subst k'.
      cbn [snd]. rewrite (same_key_same_track _ _ _ _ Hnd Hin' Hin). apply Hc. }
    split; [exact Hc|]. split; [exact Hm|]. split; [|reflexivity].
    intros k' tr' Hin' Hc'.
    destruct (Numpy.Qlt_bool (distance sqrtf (_centroid box) tr') (max_distance self))
      eqn:Em'.
    + destruct (Hbn k' tr' Hin' Hc' Em') as (id2 & d2 & E2 & Hle).
      injection E2 as <- <-. exact Hle.
    + apply TransitionFacts.Qlt_bool_spec in Em'.
      apply TransitionFacts.Qlt_bool_spec in Hm.
      apply Qlt_le_weak. eapply Qlt_le_trans; eassumption.
  - right. split; [reflexivity|]. split; [|reflexivity].
    intros k' tr' Hin' Hc'.
    destruct (Numpy.Qlt_bool (distance sqrtf (_centroid box) tr') (max_distance self))
      eqn:Em'; [|reflexivity].
    destruct (Hbn k' tr' Hin' Hc' Em') as (id2 & d2 & E2 & _). discriminate.
Qed.

Lemma keys_after_update (c : Q * Q) frame_idx id (trs : list (Z * track)) :
  map fst (map (fun kv : Z * track =>
                  if fst kv =? id
                  then (fst kv, mk_track c (cls (snd kv)) frame_idx)
                  else kv) trs)
  = map fst trs.
Proof.
  rewrite map_map. apply map_ext. intros [k tr]. cbn.
  destruct (k =? id); reflexivity.
Qed.

(** Identifiers are never reused: the keys stay distinct and below
    [next_id], which never decreases, and a call either returns a key
    the dictionary already had or creates the track [next_id], which no
    track ever held. *)
Theorem tracker_ids_fresh sqrtf self box class_name frame_idx :
  well_formed self ->
  let id := fst (track_box sqrtf self box class_name frame_idx) in
  let self' := snd (track_box sqrtf self box class_name frame_idx) in
  well_formed self'
  /\ In id (map fst (tracks self'))
  /\ id < next_id self'
  /\ (In id (map fst (tracks self)) /\ next_id self' = next_id self
      \/ id = next_id self /\ next_id self' = next_id self + 1
         /\ ~ In id (map fst (tracks self))).
Proof.
  intros Hwf. pose proof Hwf as [Hnd Hlt]. cbv zeta.
  destruct (track_box_cases sqrtf self box class_name frame_idx Hwf)
    as (trs & Hk & Hsub & Hcase).
  cbv zeta in Hcase.
  set (id := fst (track_box sqrtf self box class_name frame_idx)) in *.
  set (self' := snd (track_box sqrtf self box class_name frame_idx)) in *.
  rewrite List.Forall_forall in Hlt.
  assert (Hkeys : forall k, In k (map fst trs) ->
            In k (map fst (tracks self)) /\ k < next_id self).
  { intros k Hin. apply in_map_iff in Hin. destruct Hin as (kv & <- & Hkv).
    destruct (Hsub kv Hkv) as [H1 _]. split; [apply in_map; exact H1|auto]. }
  destruct Hcase as [(tr & Hin & _ & _ & _ & ->)|(Eid & _ & ->)].
  - assert (Hidk : In id (map fst trs)) by (apply (in_map fst _ _ Hin)).
    unfold well_formed. cbn [tracks next_id]. rewrite keys_after_update.
    split; [split; [exact Hk|]|].
    + apply List.Forall_forall. intros kv Hkv.
      apply (Hkeys (fst kv)). rewrite <- (keys_after_update (_centroid box) frame_idx id).
      apply in_map. exact Hkv.
    + split; [exact Hidk|]. split; [apply Hkeys; exact Hidk|].
      left. split; [apply Hkeys; exact Hidk|reflexivity].
  - assert (Hfresh : ~ In (next_id self) (map fst (tracks self))).
    { intros Hin. apply in_map_iff in Hin. destruct Hin as (kv & E & Hkv).
      specialize (Hlt kv Hkv). lia. }
    unfold well_formed. cbn [tracks next_id]. rewrite map_app. cbn [map fst].
    split; [split|].
    + apply NoDup_app. split; [exact Hk|]. split; [|apply NoDup_singleton].
      intros k Hin Hin'. apply list_elem_of_In in Hin. apply list_elem_of_In in Hin'.
      destruct Hin' as [E|[]]. subst k. apply Hfresh. apply Hkeys. exact Hin.
    + apply List.Forall_forall. intros kv Hkv. apply in_app_or in Hkv.
      destruct Hkv as [Hkv|[<-|[]]]; [|cbn; lia].
      destruct (Hkeys (fst kv) (in_map fst _ _ Hkv)). lia.
    + split; [apply in_or_app; right; left; exact (eq_sym Eid)|].
      split; [lia|]. right. split; [exact Eid|]. split; [reflexivity|].
      rewrite Eid. exact Hfresh.
Qed.

Lemma tracker_ids_fresh_witness :
  fst (track_box Numpy.sqrt_floor two_tracks (200, 200, 210, 210)%Q "person" 1) = 3
  /\ well_formed
       (snd (track_box Numpy.sqrt_floor two_tracks (200, 200, 210, 210)%Q "person" 1)).
Proof.
  split; [reflexivity|].
  apply (tracker_ids_fresh Numpy.sqrt_floor two_tracks (200, 200, 210, 210)%Q "person" 1).
  split.
  - cbn. repeat (apply NoDup_cons; split;
                 [rewrite ?list_elem_of_In; cbn; intuition lia|]).
    apply NoDup_nil. exact I.
  - repeat constructor.
Defined.

(** A detection is matched to the nearest live track of its class: when
    [track] returns an identifier the dictionary already had, that track
    is of the same class, was seen at most [max_age] frames ago, lies
    within [max_distance], and no other live track of the class is
    nearer. A new track is created only when no live track of the class
    lies within [max_distance]. Either way the returned track then holds
    the new centroid and frame, and every other track left is an
    untouched track seen at most [max_age] frames ago. *)
Theorem tracker_matches_nearest sqrtf self box class_name frame_idx :
  well_formed self ->
  let c := _centroid box in
  let id := fst (track_box sqrtf self box class_name frame_idx) in
  let self' := snd (track_box sqrtf self box class_name frame_idx) in
  lookup id (tracks self') = Some (mk_track c class_name frame_idx)
  /\ (forall k tr, In (k, tr) (tracks self') -> k <> id ->
        In (k, tr) (tracks self) /\ stale (max_age self) frame_idx tr = false)
  /\ (In id (map fst (tracks self)) ->
      exists tr,
        In (id, tr) (tracks self)
        /\ candidate self class_name frame_idx tr
        /\ Numpy.Qlt_bool (distance sqrtf c tr) (max_distance self) = true
        /\ forall k' tr', In (k', tr') (tracks self) ->
             candidate self class_name frame_idx tr' ->
             (distance sqrtf c tr <= distance sqrtf c tr')%Q)
  /\ (~ In id (map fst (tracks self)) ->
      forall k' tr', In (k', tr') (tracks self) ->
        candidate self class_name frame_idx tr' ->
        Numpy.Qlt_bool (distance sqrtf c tr') (max_distance self) = false).
Proof.
  intros Hwf. pose proof Hwf as [Hnd Hlt]. cbv zeta.
  destruct (track_box_cases sqrtf self box class_name frame_idx Hwf)
    as (trs & Hk & Hsub & Hcase).
  cbv zeta in Hcase.
  set (id := fst (track_box sqrtf self box class_name frame_idx)) in *.
  set (self' := snd (track_box sqrtf self box class_name frame_idx)) in *.
  set (c := _centroid box) in *.
  rewrite List.Forall_forall in Hlt.
  destruct Hcase as [(tr & Hin & Hc & Hm & Hnear & ->)|(Eid & Hnone & ->)];
    cbn [tracks].
  - assert (Hold : In (id, tr) (tracks self)) by (apply (Hsub _ Hin)).
    split; [|split; [|split]].
    + apply lookup_in; [rewrite keys_after_update; exact Hk|].
      apply in_map_iff. exists (id, tr). cbn [fst snd]. rewrite Z.eqb_refl.
      split; [|exact Hin]. destruct Hc as [_ ->]. reflexivity.
    + intros k tr0 Hin0 Hne. apply in_map_iff in Hin0.
      destruct Hin0 as ([k1 tr1] & E & Hin1). cbn [fst snd] in E.
      destruct (Z.eqb_spec k1 id) as [->|Hk1].
      * injection E as <- _. congruence.
      * injection E as <- <-. apply (Hsub _ Hin1).
    + intros _. exists tr. auto.
    + intros Hnot. exfalso. apply Hnot. apply (in_map fst _ _ Hold).
  - assert (Hfresh : ~ In (next_id self) (map fst (tracks self))).
    { intros Hin. apply in_map_iff in Hin. destruct Hin as (kv & E & Hkv).
      specialize (Hlt kv Hkv). lia. }
    split; [|split; [|split]].
    + apply lookup_in.
      * rewrite map_app. cbn [map fst]. apply NoDup_app.
        split; [exact Hk|]. split; [|apply NoDup_singleton].
        intros k Hin Hin'. apply list_elem_of_In in Hin.
        apply list_elem_of_In in Hin'. destruct Hin' as [E|[]]. subst k.
        apply Hfresh. apply in_map_iff in Hin. destruct Hin as (kv & E & Hkv).
        rewrite <- E. apply in_map. apply (Hsub _ Hkv).
      * apply in_or_app. right. left. rewrite Eid. reflexivity.
    + intros k tr0 Hin0 Hne. apply in_app_or in Hin0.
      destruct Hin0 as [Hin0|[E|[]]]; [apply (Hsub _ Hin0)|].
      injection E as <- _. congruence.
    + intros Hin. exfalso. apply Hfresh. rewrite <- Eid. exact Hin.
    + intros _. exact Hnone.
Qed.

Lemma tracker_matches_nearest_witness :
  fst (track_box Numpy.sqrt_floor two_tracks (9, 9, 13, 13)%Q "person" 5) = 1
  /\ lookup 1 (tracks (snd (track_box Numpy.sqrt_floor two_tracks
                                      (9, 9, 13, 13)%Q "person" 5)))
     = Some (mk_track (_centroid (9, 9, 13, 13)%Q) "person" 5).
Proof.
  split; [reflexivity|].
  apply (tracker_matches_nearest Numpy.sqrt_floor two_tracks (9, 9, 13, 13)%Q "person" 5).
  split.
  - cbn. repeat (apply NoDup_cons; split;
                 [rewrite ?list_elem_of_In; cbn; intuition lia|]).
    apply NoDup_nil. exact I.
  - repeat constructor.
Defined.

End TrackerFacts.


(** * The HSE rule engine *)

Module HSERuleFacts.
Import HSERuleEngine.






Lemma rule_loop_other_activities features activity rs : forall st,
  rule_loop features activity rs st
  = rule_loop features activity
      (List.filter (fun r => activity_id r =? activity) rs) st.
Proof.
  induction rs as [|r rs IH]; intros st; [reflexivity|].
  cbn [rule_loop List.filter].
  destruct (activity_id r =? activity) eqn:Ea.
  - cbn [rule_loop]. destruct (rule_step features activity st r); cbn; [reflexivity|].
    apply IH.
  - unfold rule_step at 1. destruct st as [[violated0 global] total].
    rewrite Ea. cbn. apply IH.
Qed.

(** The rules of the other activities play no part: evaluating with all
    the rules gives what evaluating with the rules of the predicted
    activity alone gives, an exception included. *)
Theorem rules_of_other_activities_ignored rs features activity :
  evaluate (mk rs) features activity
  = evaluate (mk (List.filter (fun r => activity_id r =? activity) rs))
             features activity.
Proof.
  unfold evaluate. cbn [rules].
  rewrite (rule_loop_other_activities features activity rs). reflexivity.
Qed.



End HSERuleFacts.
